(** * django-ca: issuance profiles, CRL numbering and the OCSP responder

    A shallow embedding of [ca/django_ca/profiles.py] and
    [ca/django_ca/views.py], with the parts of [models.py], [managers.py],
    [extensions.py], [subject.py] and [utils.py] they call.  Python
    exceptions are values of [exn] carried by [result]; dictionaries are
    finite maps; the database, the file system and the clock are read from an
    explicit environment. *)

From Stdlib Require Import ZArith String Ascii List Bool Lia.
From stdpp Require Import base option list gmap strings fin_maps.
Import ListNotations.
Local Open Scope string_scope.
Local Open Scope list_scope.

(* ===================================================================== *)
(** ** Exceptions and fallible computations *)
(* ===================================================================== *)

(** The Django model an [objects.get] was issued against. *)
Inductive ModelKind := CertificateModel | CertificateAuthorityModel.

(** The exception classes the embedded code raises or lets through. *)
Inductive exn :=
| ValueError (msg : string)
| TypeError (msg : string)
| KeyError (key : string)
| AttributeError (attr : string)
| IDNAError
| IOError (path : string)
| BinasciiError
| InvalidScopeError
| DoesNotExist (model : ModelKind)
| MultipleObjectsReturned (model : ModelKind)
| RuntimeError (msg : string).

(** A computation that returns a value or raises. *)
Inductive result (A : Type) :=
| Ok (a : A)
| Raise (e : exn).
Arguments Ok {A} a.
Arguments Raise {A} e.

Definition bind {A B} (m : result A) (k : A -> result B) : result B :=
  match m with
  | Ok a => k a
  | Raise e => Raise e
  end.

Notation "'let*' x ':=' m 'in' k" := (bind m (fun x => k))
  (at level 10, x pattern, m at level 100, k at level 200).

Definition is_Ok {A} (m : result A) : bool :=
  match m with Ok _ => true | Raise _ => false end.

(** [for x in l: f(x)] collecting the results; the first exception wins. *)
Fixpoint mapR {A B} (f : A -> result B) (l : list A) : result (list B) :=
  match l with
  | [] => Ok []
  | x :: l' => let* y := f x in let* ys := mapR f l' in Ok (y :: ys)
  end.


#[global] Instance ModelKind_eq_dec : EqDecision ModelKind.
Proof. solve_decision. Defined.
#[global] Instance exn_eq_dec : EqDecision exn.
Proof. solve_decision. Defined.

(* ===================================================================== *)
(** ** Python built-ins used by the code *)
(* ===================================================================== *)

Module Py.

(** [str.isspace].  A character of a string is a code point below 256;
    in that range Python's [str.isspace], and with it [str.split()] and
    [str.strip()], hold of TAB, LF, VT, FF, CR (9 to 13), of the four
    separators FS, GS, RS, US (28 to 31), of the space (32), of NEL (133,
    U+0085) and of the no-break space (160, U+00A0). *)
Definition isspace (c : ascii) : bool :=
  let n := nat_of_ascii c in
  ((9 <=? n)%nat && (n <=? 13)%nat) || ((28 <=? n)%nat && (n <=? 32)%nat)
  || (n =? 133)%nat || (n =? 160)%nat.

Definition flush (cur : string) : list string :=
  match cur with
  | EmptyString => []
  | _ => [cur]
  end.

(** [s.split()] with no separator: runs of whitespace separate the words
    and no empty word is produced.  [cur] is the word being read. *)
Fixpoint split_from (cur s : string) : list string :=
  match s with
  | EmptyString => flush cur
  | String c rest =>
      if isspace c then flush cur ++ split_from EmptyString rest
      else split_from (cur +:+ String c EmptyString) rest
  end.

Definition split (s : string) : list string := split_from EmptyString s.

Fixpoint lstrip (s : string) : string :=
  match s with
  | EmptyString => EmptyString
  | String c rest => if isspace c then lstrip rest else s
  end.

Fixpoint rstrip (s : string) : string :=
  match s with
  | EmptyString => EmptyString
  | String c rest =>
      match rstrip rest with
      | EmptyString => if isspace c then EmptyString else String c EmptyString
      | r => String c r
      end
  end.

(** [s.strip()] *)
Definition strip (s : string) : string := rstrip (lstrip s).

(** Truth value of a string or [None]: [None] and [''] are false. *)
Definition truthy (s : option string) : bool :=
  match s with
  | Some (String _ _) => true
  | _ => false
  end.

(** Configuration literals: the values a settings dictionary holds. *)
#[warnings="-register-all"]
Inductive PyVal :=
| PyNone
| PyBool (b : bool)
| PyInt (z : Z)
| PyStr (s : string)
| PyList (l : list PyVal)
| PyDict (d : list (string * PyVal)).

(** [d.setdefault(k, v)] keeps a value that is already there. *)
Definition setdefault {V} (k : string) (v : V) (d : gmap string V) : gmap string V :=
  match d !! k with
  | Some _ => d
  | None => <[k := v]> d
  end.

(** [d.update(other)]: the entries of [other] win. *)
Definition update {V} (d other : gmap string V) : gmap string V := other ∪ d.

End Py.

(* ===================================================================== *)
(** ** Extensions, subjects and the library functions the code imports *)
(* ===================================================================== *)

(** A general name as [utils.parse_general_name] returns it. *)
Inductive GeneralName :=
| DNSName (v : string)
| UniformResourceIdentifier (v : string)
| RFC822Name (v : string)
| IPAddress (v : string)
| DirectoryName (v : string)
| RegisteredID (v : string)
| OtherName (v : string).

#[global] Instance GeneralName_eq_dec : EqDecision GeneralName.
Proof. solve_decision. Defined.

(** [extensions.DistributionPoint]: the record keeps the [full_name] list
    the constructor was given. *)
Record DistributionPoint := { full_name : list string }.

#[global] Instance DistributionPoint_eq_dec : EqDecision DistributionPoint.
Proof. solve_decision. Defined.

(** Modelled from the spec: the typed values of the extension classes of
    [extensions.py], which is not among the sources.  One constructor per
    class; the cumulative classes hold lists, AuthorityInformationAccess
    holds its two sub-lists [issuers] and [ocsp]. *)
Inductive ExtensionValue :=
| AuthorityInformationAccessValue (issuers ocsp : list GeneralName)
| AuthorityKeyIdentifierValue (key_identifier : string)
| BasicConstraintsValue (ca : bool) (pathlen : option nat)
| CRLDistributionPointsValue (points : list DistributionPoint)
| ExtendedKeyUsageValue (usages : list string)
| IssuerAlternativeNameValue (names : list GeneralName)
| KeyUsageValue (usages : list string)
| NameConstraintsValue (permitted excluded : list GeneralName)
| OCSPNoCheckValue
| SubjectAlternativeNameValue (names : list GeneralName)
| SubjectKeyIdentifierValue (digest : string)
| TLSFeatureValue (features : list string).

(** An extension: its criticality flag and its typed value. *)
Record Extension := { critical : bool; value : ExtensionValue }.

#[global] Instance ExtensionValue_eq_dec : EqDecision ExtensionValue.
Proof. solve_decision. Defined.
#[global] Instance Extension_eq_dec : EqDecision Extension.
Proof. solve_decision. Defined.

(** Modelled from the spec: the [key] constants of the extension classes
    ([extensions.py] is not among the sources); the tests read them as
    attribute names of a certificate. *)
Module Key.
Definition AuthorityInformationAccess := "authority_information_access".
Definition AuthorityKeyIdentifier := "authority_key_identifier".
Definition BasicConstraints := "basic_constraints".
Definition CRLDistributionPoints := "crl_distribution_points".
Definition ExtendedKeyUsage := "extended_key_usage".
Definition IssuerAlternativeName := "issuer_alternative_name".
Definition KeyUsage := "key_usage".
Definition NameConstraints := "name_constraints".
Definition OCSPNoCheck := "ocsp_no_check".
Definition SubjectAlternativeName := "subject_alternative_name".
Definition SubjectKeyIdentifier := "subject_key_identifier".
Definition TLSFeature := "tls_feature".
End Key.

(** [e.key]: the key of the class the extension is an instance of. *)
Definition key (e : Extension) : string :=
  match value e with
  | AuthorityInformationAccessValue _ _ => Key.AuthorityInformationAccess
  | AuthorityKeyIdentifierValue _ => Key.AuthorityKeyIdentifier
  | BasicConstraintsValue _ _ => Key.BasicConstraints
  | CRLDistributionPointsValue _ => Key.CRLDistributionPoints
  | ExtendedKeyUsageValue _ => Key.ExtendedKeyUsage
  | IssuerAlternativeNameValue _ => Key.IssuerAlternativeName
  | KeyUsageValue _ => Key.KeyUsage
  | NameConstraintsValue _ _ => Key.NameConstraints
  | OCSPNoCheckValue => Key.OCSPNoCheck
  | SubjectAlternativeNameValue _ => Key.SubjectAlternativeName
  | SubjectKeyIdentifierValue _ => Key.SubjectKeyIdentifier
  | TLSFeatureValue _ => Key.TLSFeature
  end.

(** The constructors called without arguments: an empty value, not
    critical. *)
Definition CRLDistributionPoints_new : Extension :=
  {| critical := false; value := CRLDistributionPointsValue [] |}.
Definition AuthorityInformationAccess_new : Extension :=
  {| critical := false; value := AuthorityInformationAccessValue [] [] |}.
Definition IssuerAlternativeName_new : Extension :=
  {| critical := false; value := IssuerAlternativeNameValue [] |}.
Definition SubjectAlternativeName_new : Extension :=
  {| critical := false; value := SubjectAlternativeNameValue [] |}.
Definition OCSPNoCheck_new : Extension :=
  {| critical := false; value := OCSPNoCheckValue |}.

(** [ext.value] read as a truth value: an empty container is false. *)
Definition value_truthy (e : Extension) : bool :=
  match value e with
  | AuthorityInformationAccessValue [] [] => false
  | CRLDistributionPointsValue [] => false
  | ExtendedKeyUsageValue [] => false
  | IssuerAlternativeNameValue [] => false
  | KeyUsageValue [] => false
  | NameConstraintsValue [] [] => false
  | SubjectAlternativeNameValue [] => false
  | TLSFeatureValue [] => false
  | _ => true
  end.

(** A subject: the mapping from a field ('CN', 'O', ...) to its value. *)
Abbreviation Subject := (gmap string string).

(** [subject.get('CN')] read as a truth value. *)
Definition has_CN (s : Subject) : bool := Py.truthy (s !! "CN").

(** Modelled from the spec: [SubjectAlternativeName.get_common_name], the
    value of the first DNS entry, [None] when there is none. *)
Fixpoint first_dns (names : list GeneralName) : option string :=
  match names with
  | [] => None
  | DNSName v :: _ => Some v
  | _ :: rest => first_dns rest
  end.

(** Keys, certificates and requests are opaque to the code; the model keeps
    what identifies them. *)
Record PrivateKey := { key_id : string }.
Record CSR := { csr_public_key : string }.

(** [constants.ReasonFlags]: the ten revocation reasons. *)
Inductive ReasonFlags :=
| unspecified
| key_compromise
| ca_compromise
| affiliation_changed
| superseded
| cessation_of_operation
| certificate_hold
| privilege_withdrawn
| aa_compromise
| remove_from_crl.

#[global] Instance ReasonFlags_eq_dec : EqDecision ReasonFlags.
Proof. solve_decision. Defined.

(** A parsed certificate ([obj.x509]). *)
Record X509 := {
  x509_serial : string;
  x509_subject : Subject;
  x509_public_key : string;
}.

(** Modelled from the spec: the fields [models.Certificate] and
    [models.CertificateAuthority] share ([models.py] is not among the
    sources): serial, the signed certificate and the revocation state
    (boolean, reason, timestamp). *)
Record X509CertMixin := {
  serial : string;
  x509 : X509;
  revoked : bool;
  revoked_reason : ReasonFlags;
  revoked_date : Z;
}.

(** Modelled from the spec: [models.CertificateAuthority].  [parent] is the
    serial of the parent, [get_password] the password configured for the
    key, [ca_key] what [ca.key(password)] does for each password (the key,
    or the exception of the key store). *)
Record CertificateAuthority := {
  ca_base : X509CertMixin;
  ca_name : string;
  ca_cn : string;
  ca_parent : option string;
  crl_url : option string;
  ocsp_url : option string;
  issuer_url : option string;
  issuer_alt_name : option string;
  get_authority_key_identifier_extension : Extension;
  get_password : option string;
  ca_key : option string -> result PrivateKey;
}.

(** Modelled from the spec: [models.Certificate]; [cert_ca] is the serial
    of the owning authority. *)
Record Certificate := {
  cert_base : X509CertMixin;
  cert_ca : string;
}.

(** An extension of an OCSP request as [cryptography] decodes it: the
    value is an [OCSPNonce] or an extension the library does not know. *)
Inductive RequestExtensionValue :=
| OCSPNonce (nonce : string)
| UnrecognizedExtension (oid : string) (data : string).

Record RequestExtension := {
  ext_critical : bool;
  ext_value : RequestExtensionValue;
}.

(** A decoded OCSP request. *)
Record OCSPRequest := {
  serial_number : Z;
  request_extensions : list RequestExtension;
}.

(** The functions the code imports from modules that are not among the
    sources ([utils], [extensions], [signals]) and from the cryptography
    libraries.  Every property below holds for any implementation of them. *)
Class Library := {
  (** [utils.parse_general_name]; raises [IDNAError] or [ValueError] *)
  parse_general_name : string -> result GeneralName;
  (** [utils.parse_hash_algorithm]; [None] gives the configured default *)
  parse_hash_algorithm : option string -> result string;
  (** [utils.shlex_split(s, sep)] *)
  shlex_split : string -> string -> list string;
  (** [utils.int_to_hex] *)
  int_to_hex : Z -> string;
  (** [K(value)] for the extension class [K] with key [k]:
      [Extension_init k value]; [K()] passes [PyNone] *)
  Extension_init : string -> Py.PyVal -> result Extension;
  (** [ca_settings.CA_DEFAULT_SUBJECT], [ca_settings.CA_DEFAULT_EXPIRES] *)
  CA_DEFAULT_SUBJECT : Subject;
  CA_DEFAULT_EXPIRES : Z;
  (** [x509.SubjectKeyIdentifier.from_public_key] *)
  key_identifier_of : string -> string;
  (** [base64.b64decode] *)
  b64decode : string -> result string;
  (** [serialization.load_pem_private_key(data, None, backend)] *)
  load_pem_private_key : string -> result PrivateKey;
  (** [load_pem_x509_certificate(data, backend)] *)
  load_pem_x509_certificate : string -> result X509;
  (** [ocsp.load_der_ocsp_request] *)
  load_der_ocsp_request : string -> result OCSPRequest;
  (** [signals.pre_issue_cert.send(...)]: a receiver may raise *)
  pre_issue_cert_send :
    CertificateAuthority -> CSR -> Z -> string -> Subject ->
    gmap string Extension -> option string -> result unit;
}.

(** What the code reads from outside: the two tables of the database, the
    files of the file system by path, and the clock. *)
Record Env := {
  certificate_authorities : list CertificateAuthority;
  certificates : list Certificate;
  files : gmap string string;
  utcnow : Z;
}.

(* ===================================================================== *)
(** ** profiles.py *)
(* ===================================================================== *)

Module profiles.
Import Py.

Record Profile := {
  name : string;
  subject : Subject;
  algorithm : string;
  extensions : gmap string Extension;
  cn_in_san : bool;
  expires : Z;
  issuer_name : option Subject;
  add_crl_url : bool;
  add_ocsp_url : bool;
  add_issuer_url : bool;
  add_issuer_alternative_name : bool;
  description : PyVal;
}.

(** An entry of the [extensions] argument of [Profile]: an [Extension]
    instance, or the literal its class is built from. *)
Inductive ExtensionArg :=
| Instance_ (e : Extension)
| Literal (v : PyVal).

(** What [builder.sign] is given: the certificate that is signed. *)
Record SignedCertificate := {
  tbs_public_key : string;
  tbs_issuer : Subject;
  tbs_subject : Subject;
  tbs_extensions : gmap string Extension;
  tbs_expires : Z;
  signed_with : PrivateKey;
  signed_algorithm : string;
}.

Section WithLibrary.
Context `{Library}.

Definition known_keys : list string :=
  [ Key.AuthorityInformationAccess; Key.AuthorityKeyIdentifier;
    Key.BasicConstraints; Key.CRLDistributionPoints; Key.ExtendedKeyUsage;
    Key.IssuerAlternativeName; Key.KeyUsage; Key.NameConstraints;
    Key.OCSPNoCheck; Key.SubjectAlternativeName; Key.SubjectKeyIdentifier;
    Key.TLSFeature ].

(** [KEY_TO_EXTENSION[key](value)] *)
Definition KEY_TO_EXTENSION (k : string) (v : PyVal) : result Extension :=
  if decide (k ∈ known_keys) then Extension_init k v else Raise (KeyError k).

(** One turn of the loop of lines 97-99. *)
Definition cast_extension (kv : string * ExtensionArg) : result (string * Extension) :=
  match kv.2 with
  | Instance_ e => Ok (kv.1, e)
  | Literal v => let* e := KEY_TO_EXTENSION kv.1 v in Ok (kv.1, e)
  end.

(** Lines 96-99: cast extensions to their respective classes. *)
Definition cast_extensions (exts : gmap string ExtensionArg) : result (gmap string Extension) :=
  let* l := mapR cast_extension (map_to_list exts) in
  Ok (list_to_map l).

(** A deprecated keyword that stands for one extension (lines 104-117). *)
Definition deprecated_extension (kwargs : gmap string PyVal) (kw k : string)
    (st : gmap string Extension * list string) : result (gmap string Extension * list string) :=
  match kwargs !! kw with
  | Some v =>
      let* e := Extension_init k v in
      Ok (<[k := e]> st.1,
          (st.2 ++ [kw +:+ " in profile is deprecated, use extensions -> " +:+ k +:+ " instead."])%list)
  | None => Ok st
  end.

(** Lines 86 and 96-125 of [Profile.__init__]: the extension mapping, the
    warnings and the description before the last default is applied. *)
Definition init_extensions (extensions : option (gmap string ExtensionArg))
    (description : PyVal) (kwargs : gmap string PyVal)
  : result (gmap string Extension * list string * PyVal) :=
  let* exts := cast_extensions (default ∅ extensions) in
  (* set some sane extension defaults *)
  let* bc := Extension_init Key.BasicConstraints PyNone in
  let exts := setdefault Key.BasicConstraints bc exts in
  let* st := deprecated_extension kwargs "keyUsage" Key.KeyUsage (exts, []) in
  let* st := deprecated_extension kwargs "extendedKeyUsage" Key.ExtendedKeyUsage st in
  let* st := deprecated_extension kwargs "TLSFeature" Key.TLSFeature st in
  let '(description, st) :=
    match kwargs !! "desc" with
    | Some d =>
        (d, (st.1, (st.2 ++ ["desc in profile is deprecated, use description instead."])%list))
    | None => (description, st)
    end in
  let st :=
    match kwargs !! "ocsp_no_check" with
    | Some _ =>
        (<[Key.OCSPNoCheck := OCSPNoCheck_new]> st.1,
         (st.2 ++ ["ocsp_no_check in profile is deprecated, use extensions -> "
                     +:+ Key.OCSPNoCheck +:+ " instead."])%list)
    | None => st
    end in
  Ok (st.1, st.2, description).

(** The literal [{'value': {'ca': False}}] of line 128. *)
Definition not_a_ca : PyVal := PyDict [("value", PyDict [("ca", PyBool false)])].

(** [Profile.__init__]: the profile and the deprecation warnings emitted. *)
Definition Profile_init (name : string) (subject : option Subject) (algorithm : option string)
    (extensions : option (gmap string ExtensionArg)) (cn_in_san : bool) (expires : option Z)
    (issuer_name : option Subject) (description : PyVal)
    (add_crl_url add_ocsp_url add_issuer_url add_issuer_alternative_name : bool)
    (kwargs : gmap string PyVal) : result (Profile * list string) :=
  let subject := default CA_DEFAULT_SUBJECT subject in
  let* algorithm := parse_hash_algorithm algorithm in
  let expires :=
    match expires with
    | Some e => if decide (e = 0%Z) then CA_DEFAULT_EXPIRES else e
    | None => CA_DEFAULT_EXPIRES
    end in
  let* (exts, warned, description) := init_extensions extensions description kwargs in
  (* set some defaults *)
  let* bc := Extension_init Key.BasicConstraints not_a_ca in
  let exts := setdefault Key.BasicConstraints bc exts in
  Ok ({| name := name; subject := subject; algorithm := algorithm; extensions := exts;
         cn_in_san := cn_in_san; expires := expires; issuer_name := issuer_name;
         add_crl_url := add_crl_url; add_ocsp_url := add_ocsp_url;
         add_issuer_url := add_issuer_url;
         add_issuer_alternative_name := add_issuer_alternative_name;
         description := description |}, warned).

(** [extensions[k] = f(extensions[k])] for an in-place change of the object
    stored under [k]. *)
Definition modify (k : string) (f : Extension -> result Extension)
    (exts : gmap string Extension) : result (gmap string Extension) :=
  match exts !! k with
  | Some e => let* e' := f e in Ok (<[k := e']> exts)
  | None => Raise (KeyError k)
  end.

Definition with_value (e : Extension) (v : ExtensionValue) : Extension :=
  {| critical := critical e; value := v |}.

(** [ext.value.append(DistributionPoint(...))] *)
Definition append_point (dp : DistributionPoint) (e : Extension) : result Extension :=
  match value e with
  | CRLDistributionPointsValue l => Ok (with_value e (CRLDistributionPointsValue (l ++ [dp])%list))
  | _ => Raise (AttributeError "append")
  end.

(** [ext.value['ocsp'].append(name)] *)
Definition append_ocsp (g : GeneralName) (e : Extension) : result Extension :=
  match value e with
  | AuthorityInformationAccessValue i o =>
      Ok (with_value e (AuthorityInformationAccessValue i (o ++ [g])%list))
  | _ => Raise (TypeError "ocsp")
  end.

(** [ext.value['issuers'].append(name)] *)
Definition append_issuers (g : GeneralName) (e : Extension) : result Extension :=
  match value e with
  | AuthorityInformationAccessValue i o =>
      Ok (with_value e (AuthorityInformationAccessValue (i ++ [g])%list o))
  | _ => Raise (TypeError "issuers")
  end.

(** [ext.extend(values)]: every value is parsed as a general name. *)
Definition extend_names (values : list string) (e : Extension) : result Extension :=
  match value e with
  | IssuerAlternativeNameValue l =>
      let* gs := mapR parse_general_name values in
      Ok (with_value e (IssuerAlternativeNameValue (l ++ gs)%list))
  | _ => Raise (AttributeError "extend")
  end.

(** [Profile._update_from_ca]: the issuer name and the updated mapping. *)
Definition _update_from_ca (self : Profile) (ca : CertificateAuthority)
    (extensions : gmap string Extension)
    (add_crl_url add_ocsp_url add_issuer_url add_issuer_alternative_name : bool)
  : result (Subject * gmap string Extension) :=
  let extensions :=
    setdefault Key.AuthorityKeyIdentifier (get_authority_key_identifier_extension ca) extensions in
  let* extensions :=
    if add_crl_url && truthy (crl_url ca) then
      let extensions := setdefault Key.CRLDistributionPoints CRLDistributionPoints_new extensions in
      modify Key.CRLDistributionPoints
        (append_point {| full_name := strip <$> split (default "" (crl_url ca)) |}) extensions
    else Ok extensions in
  let* extensions :=
    if add_ocsp_url && truthy (ocsp_url ca) then
      let extensions :=
        setdefault Key.AuthorityInformationAccess AuthorityInformationAccess_new extensions in
      let* g := parse_general_name (default "" (ocsp_url ca)) in
      modify Key.AuthorityInformationAccess (append_ocsp g) extensions
    else Ok extensions in
  let* extensions :=
    if add_issuer_url && truthy (issuer_url ca) then
      let extensions :=
        setdefault Key.AuthorityInformationAccess AuthorityInformationAccess_new extensions in
      let* g := parse_general_name (default "" (issuer_url ca)) in
      modify Key.AuthorityInformationAccess (append_issuers g) extensions
    else Ok extensions in
  let* extensions :=
    if add_issuer_alternative_name && truthy (issuer_alt_name ca) then
      let extensions :=
        setdefault Key.IssuerAlternativeName IssuerAlternativeName_new extensions in
      modify Key.IssuerAlternativeName
        (extend_names (shlex_split (default "" (issuer_alt_name ca)) ",")) extensions
    else Ok extensions in
  match issuer_name self with
  | Some n => if decide (n = ∅) then Ok (x509_subject (x509 (ca_base ca)), extensions)
              else Ok (n, extensions)
  | None => Ok (x509_subject (x509 (ca_base ca)), extensions)
  end.

(** [parse_general_name(subject['CN'])] under the [try] of lines 330-333. *)
Definition parse_common_name (cn : string) : result GeneralName :=
  match parse_general_name cn with
  | Raise IDNAError =>
      Raise (ValueError (cn +:+ ": Could not parse CommonName as subjectAlternativeName."))
  | r => r
  end.

(** [if cn not in ext: ext.append(cn)] *)
Definition append_if_missing (cn : GeneralName) (e : Extension) : result Extension :=
  match value e with
  | SubjectAlternativeNameValue l =>
      if decide (cn ∈ l) then Ok e
      else Ok (with_value e (SubjectAlternativeNameValue (l ++ [cn])%list))
  | _ => Raise (AttributeError "append")
  end.

(** [ext.get_common_name()] *)
Definition get_common_name (e : Extension) : result (option string) :=
  match value e with
  | SubjectAlternativeNameValue l => Ok (first_dns l)
  | _ => Raise (AttributeError "get_common_name")
  end.

(** [Profile._update_san_from_cn]: the subject and the mapping after it. *)
Definition _update_san_from_cn (cn_in_san : bool) (subject : Subject)
    (extensions : gmap string Extension) : result (Subject * gmap string Extension) :=
  if has_CN subject && cn_in_san then
    let* cn := parse_common_name (default "" (subject !! "CN")) in
    let extensions :=
      setdefault Key.SubjectAlternativeName SubjectAlternativeName_new extensions in
    let* extensions := modify Key.SubjectAlternativeName (append_if_missing cn) extensions in
    Ok (subject, extensions)
  else if negb (has_CN subject) then
    match extensions !! Key.SubjectAlternativeName with
    | Some san =>
        let* cn := get_common_name san in
        match cn with
        | Some cn => Ok (<["CN" := cn]> subject, extensions)
        | None => Ok (subject, extensions)
        end
    | None => Ok (subject, extensions)
    end
  else Ok (subject, extensions).

(** [{e.key: e for e in extensions}]: a later entry replaces an earlier one
    of the same class. *)
Definition by_key (l : list Extension) : gmap string Extension :=
  foldl (fun d e => <[key e := e]> d) ∅ l.

(** The caller's dictionary as it reads after the in-place changes made
    through [cert_extensions]: [cert_extensions.update(extensions)] stores
    the caller's objects themselves, nothing replaces them afterwards, so
    [extensions[k]] is the object [cert_extensions[k]] for every key of the
    caller. *)
Definition shared (extensions cert_extensions : gmap string Extension)
  : gmap string Extension :=
  map_imap (fun k _ => cert_extensions !! k) extensions.

Definition no_identity : exn :=
  ValueError "Must name at least a CN or a subjectAlternativeName.".

(** [Profile.create_cert] *)
Definition create_cert (self : Profile) (ca : CertificateAuthority) (csr : CSR)
    (subject : option Subject) (expires : option Z) (algorithm : option string)
    (extensions : option (list Extension))
    (cn_in_san add_crl_url add_ocsp_url add_issuer_url add_issuer_alternative_name : option bool)
    (password : option string) : result SignedCertificate :=
  (* Compute default values *)
  let extensions := match extensions with None => ∅ | Some l => by_key l end in
  (* Get overrides values from profile if not passed as parameter *)
  let cn_in_san := default (profiles.cn_in_san self) cn_in_san in
  let add_crl_url := default (profiles.add_crl_url self) add_crl_url in
  let add_ocsp_url := default (profiles.add_ocsp_url self) add_ocsp_url in
  let add_issuer_url := default (profiles.add_issuer_url self) add_issuer_url in
  let add_issuer_alternative_name :=
    default (profiles.add_issuer_alternative_name self) add_issuer_alternative_name in
  let cert_extensions := update (profiles.extensions self) extensions in
  let cert_subject := profiles.subject self in
  let* (issuer_name, cert_extensions) :=
    _update_from_ca self ca cert_extensions add_crl_url add_ocsp_url add_issuer_url
      add_issuer_alternative_name in
  let subject := default ∅ subject in
  let cert_subject := update cert_subject subject in
  let expires := default (profiles.expires self) expires in
  let* algorithm :=
    match algorithm with
    | None => Ok (profiles.algorithm self)
    | Some a => parse_hash_algorithm (Some a)
    end in
  (* Finally, update SAN with the current CN, if set and requested *)
  let* (cert_subject, cert_extensions) :=
    _update_san_from_cn cn_in_san cert_subject cert_extensions in
  let extensions := shared extensions cert_extensions in
  if negb (has_CN subject)
     && match extensions !! Key.SubjectAlternativeName with
        | None => true
        | Some san => negb (value_truthy san)
        end
  then Raise no_identity
  else
    let* _ := pre_issue_cert_send ca csr expires algorithm cert_subject cert_extensions password in
    let public_key := csr_public_key csr in
    (* Add the SubjectKeyIdentifier *)
    let built :=
      setdefault Key.SubjectKeyIdentifier
        {| critical := false; value := SubjectKeyIdentifierValue (key_identifier_of public_key) |}
        cert_extensions in
    let* private_key := ca_key ca password in
    Ok {| tbs_public_key := public_key; tbs_issuer := issuer_name;
          tbs_subject := cert_subject; tbs_extensions := built; tbs_expires := expires;
          signed_with := private_key; signed_algorithm := algorithm |}.

End WithLibrary.
End profiles.

(* ===================================================================== *)
(** ** models.py and managers.py *)
(* ===================================================================== *)

Module models.

(** [QuerySet.get]: exactly one row, or [DoesNotExist], or
    [MultipleObjectsReturned]. *)
Definition get {A} (model : ModelKind) (rows : list A) : result A :=
  match rows with
  | [] => Raise (DoesNotExist model)
  | [x] => Ok x
  | _ => Raise (MultipleObjectsReturned model)
  end.

(** Modelled from the spec: [CertificateAuthority.objects.get_by_serial_or_cn]
    of [managers.py], which is not among the sources: the authority whose
    serial or common name is the identifier. *)
Definition get_by_serial_or_cn (env : Env) (identifier : string) : result CertificateAuthority :=
  get CertificateAuthorityModel
    (filter (fun ca => serial (ca_base ca) = identifier \/ ca_cn ca = identifier)
       (certificate_authorities env)).

(** Modelled from the spec: [get_revocation_reason] of [models.py], which
    is not among the sources: [None] for a certificate that is not revoked
    (as [test_get_revocation_reason] has it), the stored reason otherwise. *)
Definition get_revocation_reason (c : X509CertMixin) : option ReasonFlags :=
  if revoked c then Some (revoked_reason c) else None.

(** Modelled from the spec: [get_revocation_time] of [models.py]: [None]
    for a certificate that is not revoked, the stored timestamp otherwise. *)
Definition get_revocation_time (c : X509CertMixin) : option Z :=
  if revoked c then Some (revoked_date c) else None.

Record RevokedCertificate := {
  entry_serial : string;
  entry_date : Z;
  entry_reason : option ReasonFlags;
}.

Record IssuingDistributionPoint := {
  idp_full_name : list GeneralName;
  only_contains_ca_certs : bool;
  only_contains_user_certs : bool;
  only_contains_attribute_certs : bool;
}.

Record CertificateRevocationList := {
  crl_issuer : Subject;
  crl_number : Z;
  crl_entries : list RevokedCertificate;
  crl_idp : option IssuingDistributionPoint;
  last_update : Z;
  next_update : Z;
  crl_algorithm : string;
  crl_signed_with : PrivateKey;
}.

(** The persisted CRL counters: one per authority (by serial), scope and
    counter key. *)
Abbreviation Counters := (gmap (string * option string * option string) Z).

(** The shared cache: (serial, digest, encoding, scope) to the encoded CRL
    (the encoding and the list it encodes) and its lifetime in seconds. *)
Abbreviation Cache :=
  (gmap (string * string * string * option string) (string * CertificateRevocationList * Z)).

Record Override := {
  skip : bool;
  override_password : option string;
  override_encodings : option (list string);
}.

(** A CRL-distribution profile of the configuration. *)
Record CrlProfile := {
  scope : option string;
  encodings : list string;
  algorithm : string;
  expires : Z;
  OVERRIDES : gmap string Override;
}.

Definition revocation (c : X509CertMixin) : RevokedCertificate :=
  {| entry_serial := serial c; entry_date := revoked_date c;
     entry_reason := get_revocation_reason c |}.

Definition valid_scope (scope : option string) : bool :=
  match scope with
  | None => true
  | Some s => bool_decide (s ∈ ["ca"; "user"; "attribute"])
  end.

Fixpoint lines_from (cur s : string) : list string :=
  match s with
  | EmptyString => Py.flush cur
  | String c rest =>
      if Ascii.eqb c "010"%char then [cur] ++ lines_from EmptyString rest
      else lines_from (cur +:+ String c EmptyString) rest
  end.

(** The revoked entries of a scope. *)
Definition revoked_entries (env : Env) (ca : CertificateAuthority) (scope : option string)
  : list RevokedCertificate :=
  let me := serial (ca_base ca) in
  let cas :=
    filter (fun c => ca_parent c = Some me /\ revoked (ca_base c) = true)
      (certificate_authorities env) in
  let certs :=
    filter (fun c => cert_ca c = me /\ revoked (cert_base c) = true) (certificates env) in
  if decide (scope = Some "ca") then revocation <$> (ca_base <$> cas)
  else if decide (scope = Some "user") then revocation <$> (cert_base <$> certs)
  else if decide (scope = Some "attribute") then []
  else (revocation <$> (cert_base <$> certs)) ++ (revocation <$> (ca_base <$> cas)).

(** Modelled from the spec: [CertificateAuthority.get_crl] of [models.py],
    which is not among the sources ([generate] of the spec).  The scope is
    checked, the entries are those of the scope, the distribution point
    takes the given full name or the lines of [crl_url], the CRL number is
    read from the counter of (authority, scope, counter key), 0 when it was
    never used, and the counter is stored incremented once the list is
    signed. *)
Definition get_crl (env : Env) (counters : Counters) (ca : CertificateAuthority)
    (scope : option string) (full_name : option (list GeneralName)) (counter : option string)
    (algorithm : string) (expires : Z) (password : option string)
  : result (CertificateRevocationList * Counters) :=
  if negb (valid_scope scope) then Raise InvalidScopeError
  else
    let full_name :=
      match full_name with
      | Some names => Some names
      | None =>
          if Py.truthy (crl_url ca)
          then Some (UniformResourceIdentifier <$> lines_from "" (default "" (crl_url ca)))
          else None
      end in
    let idp :=
      (fun names =>
         {| idp_full_name := names;
            only_contains_ca_certs := bool_decide (scope = Some "ca");
            only_contains_user_certs := bool_decide (scope = Some "user");
            only_contains_attribute_certs := bool_decide (scope = Some "attribute") |})
        <$> full_name in
    let slot := (serial (ca_base ca), scope, counter) in
    let number := default 0%Z (counters !! slot) in
    let* private_key := ca_key ca password in
    let crl :=
      {| crl_issuer := x509_subject (x509 (ca_base ca)); crl_number := number;
         crl_entries := revoked_entries env ca scope; crl_idp := idp;
         last_update := utcnow env; next_update := (utcnow env + expires)%Z;
         crl_algorithm := algorithm; crl_signed_with := private_key |} in
    Ok (crl, <[slot := (number + 1)%Z]> counters).





(** [cache.add(key, value, timeout)] of the cache framework: an entry that
    is there is kept. *)
Definition add (slot : string * string * string * option string)
    (entry : string * CertificateRevocationList * Z) (cache : Cache) : Cache :=
  match cache !! slot with
  | Some _ => cache
  | None => <[slot := entry]> cache
  end.


(** Each encoding of the CRL is added under its slot, with the expiry of
    the profile as lifetime. *)
Definition store (ca : CertificateAuthority) (profile : CrlProfile)
    (crl : CertificateRevocationList) (cache : Cache) (encs : list string) : Cache :=
  foldl (fun cache enc =>
           add (serial (ca_base ca), algorithm profile, enc, scope profile)
             (enc, crl, expires profile) cache)
    cache encs.



End models.

(* ===================================================================== *)
(** ** views.py: the OCSP responder *)
(* ===================================================================== *)

Module views.

(** [ocsp.OCSPResponseStatus] *)
Inductive OCSPResponseStatus :=
| SUCCESSFUL
| MALFORMED_REQUEST
| INTERNAL_ERROR
| TRY_LATER
| SIG_REQUIRED
| UNAUTHORIZED.

(** [ocsp.OCSPCertStatus] *)
Inductive OCSPCertStatus := GOOD | REVOKED | UNKNOWN.

(** The single response [builder.add_response] is given. *)
Record SingleResponse := {
  response_cert : X509;
  response_issuer : X509;
  response_algorithm : string;
  cert_status : OCSPCertStatus;
  this_update : Z;
  next_update : Z;
  revocation_time : option Z;
  revocation_reason : option ReasonFlags;
}.

(** An OCSP response: [build_unsuccessful(status)], or a signed response
    with its single response, responder, certificates and extensions. *)
Inductive OCSPResponse :=
| Unsuccessful (status : OCSPResponseStatus)
| Successful (response : SingleResponse) (responder_id : X509) (certificates : list X509)
    (extensions : list RequestExtension) (private_key : PrivateKey) (algorithm : string).

(** [HttpResponse]; the body is the DER encoding of [content]. *)
Record HttpResponse := {
  content : OCSPResponse;
  status : Z;
  content_type : string;
}.

(** The attributes of an [OCSPView]. *)
Record OCSPView := {
  ca : string;
  responder_key : string;
  responder_cert : string;
  expires : Z;
  ca_ocsp : bool;
}.

#[global] Instance OCSPResponseStatus_eq_dec : EqDecision OCSPResponseStatus.
Proof. solve_decision. Defined.
#[global] Instance OCSPCertStatus_eq_dec : EqDecision OCSPCertStatus.
Proof. solve_decision. Defined.

(** [OCSPBaseView.http_response] *)
Definition http_response (data : OCSPResponse) : HttpResponse :=
  {| content := data; status := 200; content_type := "application/ocsp-response" |}.

(** [OCSPView.fail] *)
Definition fail (status : OCSPResponseStatus) : HttpResponse :=
  http_response (Unsuccessful status).

(** [OCSPView.malformed_request] *)
Definition malformed_request : HttpResponse := fail MALFORMED_REQUEST.

(** [OCSPBaseView.get_ca] *)
Definition get_ca (self : OCSPView) (env : Env) : result CertificateAuthority :=
  models.get_by_serial_or_cn env (ca self).

(** [OCSPBaseView.get_cert] *)
Definition get_cert (self : OCSPView) (env : Env) (ca : CertificateAuthority) (serial_ : string)
  : result X509CertMixin :=
  if ca_ocsp self then
    let* c :=
      models.get CertificateAuthorityModel
        (filter (fun c => serial (ca_base c) = serial_)
           (filter (fun c => ca_parent c = Some (serial (ca_base ca)))
              (certificate_authorities env))) in
    Ok (ca_base c)
  else
    let* c :=
      models.get CertificateModel
        (filter (fun c => serial (cert_base c) = serial_)
           (filter (fun c => cert_ca c = serial (ca_base ca)) (certificates env))) in
    Ok (cert_base c).

(** [open(path, 'rb').read()] *)
Definition read_file (env : Env) (path : string) : result string :=
  match files env !! path with
  | Some data => Ok data
  | None => Raise (IOError path)
  end.

(** The checks [OCSPResponseBuilder.add_response] makes on its arguments. *)
Definition add_response (r : SingleResponse) : result SingleResponse :=
  match cert_status r with
  | REVOKED =>
      match revocation_time r with
      | Some _ => Ok r
      | None => Raise (TypeError "revocation_time must be a datetime object")
      end
  | _ =>
      match revocation_time r, revocation_reason r with
      | None, None => Ok r
      | Some _, _ =>
          Raise (ValueError "revocation_time can only be provided if the certificate is revoked")
      | None, Some _ =>
          Raise (ValueError "revocation_reason can only be provided if the certificate is revoked")
      end
  end.

(** [extensions.get_extension_for_class(OCSPNonce)]; [None] stands for
    [ExtensionNotFound]. *)
Fixpoint get_nonce (exts : list RequestExtension) : option RequestExtension :=
  match exts with
  | [] => None
  | e :: rest =>
      match ext_value e with
      | OCSPNonce _ => Some e
      | UnrecognizedExtension _ _ => get_nonce rest
      end
  end.

(** [ext.critical and not isinstance(ext.value, OCSPNonce)] *)
Definition not_understood (e : RequestExtension) : bool :=
  ext_critical e
  && match ext_value e with
     | OCSPNonce _ => false
     | UnrecognizedExtension _ _ => true
     end.

Section WithLibrary.
Context `{Library}.

(** [OCSPView.get_responder_key] *)
Definition get_responder_key (self : OCSPView) (env : Env) : result PrivateKey :=
  let* key := read_file env (responder_key self) in
  load_pem_private_key key.

(** [OCSPView.get_responder_cert] *)
Definition get_responder_cert (self : OCSPView) (env : Env) : result X509 :=
  if bool_decide (is_Some (files env !! responder_cert self)) then
    let* data := read_file env (responder_cert self) in
    load_pem_x509_certificate data
  else
    let* c :=
      models.get CertificateModel
        (filter (fun c => serial (cert_base c) = responder_cert self) (certificates env)) in
    Ok (x509 (cert_base c)).

(** [OCSPView.process_ocsp_request], the class defined when
    [CRYPTOGRAPHY_OCSP is True].  [Raise] is an exception that leaves the
    method. *)
Definition process_ocsp_request (self : OCSPView) (env : Env) (data : string)
  : result HttpResponse :=
  match load_der_ocsp_request data with
  | Raise _ => Ok malformed_request
  | Ok ocsp_req =>
      (* Fail if there are any critical extensions that we do not understand *)
      if existsb not_understood (request_extensions ocsp_req) then Ok malformed_request
      else
        (* Get CA and certificate *)
        match get_ca self env with
        | Raise (DoesNotExist CertificateAuthorityModel) => Ok (fail INTERNAL_ERROR)
        | Raise e => Raise e
        | Ok ca =>
            match get_cert self env ca (int_to_hex (serial_number ocsp_req)) with
            | Raise (DoesNotExist _) => Ok (fail INTERNAL_ERROR)
            | Raise e => Raise e
            | Ok cert =>
                (* get key/cert for OCSP responder *)
                let* responder_key := get_responder_key self env in
                let* responder_cert := get_responder_cert self env in
                (* get the certificate status *)
                let status := if revoked cert then REVOKED else GOOD in
                let* response :=
                  add_response
                    {| response_cert := x509 cert; response_issuer := x509 (ca_base ca);
                       response_algorithm := "sha1"; cert_status := status;
                       this_update := utcnow env;
                       next_update := (utcnow env + expires self)%Z;
                       revocation_time := models.get_revocation_time cert;
                       revocation_reason := models.get_revocation_reason cert |} in
                (* Add OCSP nonce if present *)
                let extensions :=
                  match get_nonce (request_extensions ocsp_req) with
                  | Some nonce => [nonce]
                  | None => []
                  end in
                Ok (http_response
                      (Successful response responder_cert [responder_cert] extensions
                         responder_key "sha256"))
            end
        end
  end.

(** [OCSPBaseView.get]: every exception is logged and answered by
    [self.fail()]. *)
Definition get (self : OCSPView) (env : Env) (data : string) : result HttpResponse :=
  match (let* raw := b64decode data in process_ocsp_request self env raw) with
  | Ok response => Ok response
  | Raise _ => Ok (fail INTERNAL_ERROR)
  end.

(** [OCSPBaseView.post] *)
Definition post (self : OCSPView) (env : Env) (body : string) : result HttpResponse :=
  process_ocsp_request self env body.

End WithLibrary.
End views.

(* ===================================================================== *)
(** ** A concrete installation, for the examples *)
(* ===================================================================== *)

Module fixtures.

Definition newline : string := String "010"%char EmptyString.

(** A small [parse_general_name]: a name that starts with a hyphen is not
    a valid IDNA label, a URL is a URI, anything else a DNS name. *)
Definition parse_name (s : string) : result GeneralName :=
  match s with
  | EmptyString => Raise (ValueError "empty name")
  | String "-"%char _ => Raise IDNAError
  | _ =>
      if String.prefix "http" s then Ok (UniformResourceIdentifier s) else Ok (DNSName s)
  end.

(** A small constructor of extensions: BasicConstraints reads [ca] as
    false, the key usages are taken as one usage. *)
Definition init (k : string) (v : Py.PyVal) : result Extension :=
  if decide (k = Key.BasicConstraints)
  then Ok {| critical := true; value := BasicConstraintsValue false None |}
  else if decide (k = Key.KeyUsage) then
    match v with
    | Py.PyStr s => Ok {| critical := true; value := KeyUsageValue [s] |}
    | _ => Raise (ValueError "KeyUsage")
    end
  else Raise (ValueError k).

Definition decode (data : string) : result OCSPRequest :=
  match data with
  | "good" => Ok {| serial_number := 1; request_extensions := [] |}
  | "gone" => Ok {| serial_number := 2; request_extensions := [] |}
  | "nonce" =>
      Ok {| serial_number := 1;
            request_extensions := [ {| ext_critical := true; ext_value := OCSPNonce "n" |} ] |}
  | "critical" =>
      Ok {| serial_number := 1;
            request_extensions :=
              [ {| ext_critical := false; ext_value := OCSPNonce "n" |};
                {| ext_critical := true; ext_value := UnrecognizedExtension "1.2.3" "x" |} ] |}
  | _ => Raise (ValueError "error parsing asn1 value")
  end.

Definition library : Library := {|
  parse_general_name := parse_name;
  parse_hash_algorithm := fun a => Ok (default "sha512" a);
  shlex_split := fun s _ => [Py.strip s];
  int_to_hex := fun z => match z with 1%Z => "1" | 2%Z => "2" | _ => "0" end;
  Extension_init := init;
  CA_DEFAULT_SUBJECT := ∅;
  CA_DEFAULT_EXPIRES := 730;
  key_identifier_of := fun public_key => public_key;
  b64decode := fun s => Ok s;
  load_pem_private_key := fun s => Ok {| key_id := s |};
  load_pem_x509_certificate :=
    fun s => Ok {| x509_serial := s; x509_subject := ∅; x509_public_key := s |};
  load_der_ocsp_request := decode;
  pre_issue_cert_send := fun _ _ _ _ _ _ _ => Ok tt;
|}.

Definition certificate_of (serial_ cn : string) : X509 :=
  {| x509_serial := serial_; x509_subject := {["CN" := cn]}; x509_public_key := serial_ |}.

(** An authority with two CRL URLs whose key is protected by 'secret'. *)
Definition root : CertificateAuthority := {|
  ca_base :=
    {| serial := "A1"; x509 := certificate_of "A1" "ca.example.com"; revoked := false;
       revoked_reason := unspecified; revoked_date := 0 |};
  ca_name := "root";
  ca_cn := "ca.example.com";
  ca_parent := None;
  crl_url := Some ("http://crl.example.com" +:+ newline +:+ "http://crl.example.org");
  ocsp_url := None;
  issuer_url := None;
  issuer_alt_name := None;
  get_authority_key_identifier_extension :=
    {| critical := false; value := AuthorityKeyIdentifierValue "A1" |};
  get_password := Some "secret";
  ca_key := fun password =>
    if decide (password = Some "secret") then Ok {| key_id := "A1" |}
    else Raise (TypeError "Bad decrypt. Incorrect password?");
|}.

(** A good certificate and one revoked for key compromise at time 17. *)
Definition good_cert : Certificate := {|
  cert_base :=
    {| serial := "1"; x509 := certificate_of "1" "good.example.com"; revoked := false;
       revoked_reason := unspecified; revoked_date := 0 |};
  cert_ca := "A1";
|}.

Definition revoked_cert : Certificate := {|
  cert_base :=
    {| serial := "1"; x509 := certificate_of "1" "bad.example.com"; revoked := true;
       revoked_reason := key_compromise; revoked_date := 17 |};
  cert_ca := "A1";
|}.

Definition env_with (certs : list Certificate) (fs : gmap string string) : Env :=
  {| certificate_authorities := [root]; certificates := certs; files := fs; utcnow := 100 |}.

Definition responder_files : gmap string string :=
  {[ "/ocsp/key.pem" := "responder-key"; "/ocsp/cert.pem" := "responder-cert" ]}.

Definition view : views.OCSPView :=
  {| views.ca := "A1"; views.responder_key := "/ocsp/key.pem";
     views.responder_cert := "/ocsp/cert.pem"; views.expires := 600;
     views.ca_ocsp := false |}.

(** A profile whose own subject names the common name. *)
Definition named_profile : profiles.Profile := {|
  profiles.name := "named";
  profiles.subject := {["CN" := "example.com"]};
  profiles.algorithm := "sha512";
  profiles.extensions :=
    {[ Key.BasicConstraints := {| critical := true; value := BasicConstraintsValue false None |} ]};
  profiles.cn_in_san := true;
  profiles.expires := 730;
  profiles.issuer_name := None;
  profiles.add_crl_url := true;
  profiles.add_ocsp_url := true;
  profiles.add_issuer_url := true;
  profiles.add_issuer_alternative_name := true;
  profiles.description := Py.PyStr "";
|}.

(** The same profile with the default subject, which names nothing. *)
Definition webserver : profiles.Profile := {|
  profiles.name := "webserver";
  profiles.subject := ∅;
  profiles.algorithm := "sha512";
  profiles.extensions := profiles.extensions named_profile;
  profiles.cn_in_san := true;
  profiles.expires := 730;
  profiles.issuer_name := None;
  profiles.add_crl_url := true;
  profiles.add_ocsp_url := true;
  profiles.add_issuer_url := true;
  profiles.add_issuer_alternative_name := true;
  profiles.description := Py.PyStr "";
|}.

Definition csr : CSR := {| csr_public_key := "public-key" |}.

(** What a caller passes: a subject and a SubjectAlternativeName. *)
Definition caller_subject : Subject := {["CN" := "cn.example.com"]}.

Definition caller_san : Extension :=
  {| critical := false; value := SubjectAlternativeNameValue [DNSName "example.com"] |}.




(** A view whose authority is not in the database. *)
Definition stray_view : views.OCSPView :=
  {| views.ca := "ZZ"; views.responder_key := "/ocsp/key.pem";
     views.responder_cert := "/ocsp/cert.pem"; views.expires := 600;
     views.ca_ocsp := false |}.

End fixtures.

(* ===================================================================== *)
(** ** What the properties read off an extension set *)
(* ===================================================================== *)

(** The distribution points of the CRLDistributionPoints entry, none when
    the entry is absent. *)
Definition points (entry : option Extension) : list DistributionPoint :=
  match value <$> entry with
  | Some (CRLDistributionPointsValue l) => l
  | _ => []
  end.

(** All its full-name entries, in order. *)
Definition full_names (entry : option Extension) : list string :=
  concat (full_name <$> points entry).

(** The names of the SubjectAlternativeName entry, none when absent. *)
Definition san_names (entry : option Extension) : list GeneralName :=
  match value <$> entry with
  | Some (SubjectAlternativeNameValue l) => l
  | _ => []
  end.

(** The extension set [create_cert] starts from: the defaults of the
    profile, overridden by the extensions of the caller. *)
Definition requested (self : profiles.Profile) (extensions : option (list Extension))
  : gmap string Extension :=
  Py.update (profiles.extensions self)
    (match extensions with None => ∅ | Some l => profiles.by_key l end).

(** The resolved subject: the subject of the profile updated with the
    subject of the caller. *)
Definition resolved_subject (self : profiles.Profile) (subject : option Subject) : Subject :=
  Py.update (profiles.subject self) (default ∅ subject).




(** A word without whitespace. *)
Fixpoint nospace (s : string) : bool :=
  match s with
  | EmptyString => true
  | String c rest => negb (Py.isspace c) && nospace rest
  end.

(** The [ocsp] and [issuers] sub-lists of the AuthorityInformationAccess
    entry and the names of the IssuerAlternativeName entry, empty when the
    entry is absent. *)
Definition aia_ocsp (entry : option Extension) : list GeneralName :=
  match value <$> entry with
  | Some (AuthorityInformationAccessValue _ o) => o
  | _ => []
  end.

Definition aia_issuers (entry : option Extension) : list GeneralName :=
  match value <$> entry with
  | Some (AuthorityInformationAccessValue i _) => i
  | _ => []
  end.

Definition ian_names (entry : option Extension) : list GeneralName :=
  match value <$> entry with
  | Some (IssuerAlternativeNameValue l) => l
  | _ => []
  end.

(** The keys [create_cert] appends to instead of replacing. *)
Definition cumulative_keys : list string :=
  [ Key.CRLDistributionPoints; Key.AuthorityInformationAccess; Key.IssuerAlternativeName;
    Key.SubjectAlternativeName ].

(** The keyword arguments [Profile.__init__] still reads in place of an
    entry of [extensions] or of [description]. *)
Definition deprecated_keywords : list string :=
  ["keyUsage"; "extendedKeyUsage"; "TLSFeature"; "desc"; "ocsp_no_check"].


(** [kw in kwargs] *)
Definition given (kwargs : gmap string Py.PyVal) (kw : string) : bool :=
  match kwargs !! kw with
  | Some _ => true
  | None => false
  end.

(* ===================================================================== *)
(** ** profiles.py: the profiles of the settings and their cache *)
(* ===================================================================== *)

Module profile_cache.

(** An entry of [ca_settings.CA_PROFILES]: the keyword arguments
    [Profile(name, **config)] is called with.  A field that is [None] is a
    keyword the entry does not give; [kwargs] holds the deprecated ones. *)
Record ProfileConfig := {
  subject : option Subject;
  algorithm : option string;
  extensions : option (gmap string profiles.ExtensionArg);
  cn_in_san : option bool;
  expires : option Z;
  issuer_name : option Subject;
  description : option Py.PyVal;
  add_crl_url : option bool;
  add_ocsp_url : option bool;
  add_issuer_url : option bool;
  add_issuer_alternative_name : option bool;
  kwargs : gmap string Py.PyVal;
}.

(** The two settings the module reads. *)
Record Settings := {
  CA_DEFAULT_PROFILE : string;
  CA_PROFILES : gmap string ProfileConfig;
}.

(** [Profiles._profiles.profiles] of the running thread: [None] while the
    attribute does not exist. *)
Abbreviation Cached := (option (gmap string profiles.Profile)).

Section WithLibrary.
Context `{Library}.

(** [get_profile]: the profile and the warnings of its construction. *)
Definition get_profile (settings : Settings) (name : option string)
  : result (profiles.Profile * list string) :=
  let name := default (CA_DEFAULT_PROFILE settings) name in
  match CA_PROFILES settings !! name with
  | None => Raise (KeyError name)
  | Some config =>
      profiles.Profile_init name (subject config) (algorithm config) (extensions config)
        (default true (cn_in_san config)) (expires config) (issuer_name config)
        (default (Py.PyStr "") (description config))
        (default true (add_crl_url config)) (default true (add_ocsp_url config))
        (default true (add_issuer_url config))
        (default true (add_issuer_alternative_name config)) (kwargs config)
  end.

(** [Profiles.__getitem__]: what is returned or raised, the warnings, and
    the cache afterwards. *)
Definition getitem (settings : Settings) (cached : Cached) (name : option string)
  : result (profiles.Profile * list string) * Cached :=
  let name := default (CA_DEFAULT_PROFILE settings) name in
  match cached ≫= (fun m => m !! name) with
  | Some p => (Ok (p, []), cached)
  | None =>
      (* except AttributeError: self._profiles.profiles = {}; except KeyError: pass *)
      let m := default ∅ cached in
      match get_profile settings (Some name) with
      | Ok (p, warned) => (Ok (p, warned), Some (<[name := p]> m))
      | Raise e => (Raise e, Some m)
      end
  end.

(** [Profiles._reset] *)
Definition _reset (cached : Cached) : Cached := None.

(** [DefaultProfileProxy.__getattr__]: the attribute is read off
    [profiles[ca_settings.CA_DEFAULT_PROFILE]]. *)
Definition proxy_getattr {A} (settings : Settings) (cached : Cached)
    (attr : profiles.Profile -> A) : result A * Cached :=
  match getitem settings cached (Some (CA_DEFAULT_PROFILE settings)) with
  | (Ok (p, _), cached) => (Ok (attr p), cached)
  | (Raise e, cached) => (Raise e, cached)
  end.

End WithLibrary.
End profile_cache.

(* ===================================================================== *)
(** ** views.py: the CRL view *)
(* ===================================================================== *)

Module crl_view.

(** [serialization.Encoding]: the members of the enumeration. *)
Inductive Encoding := PEM | DER | OpenSSH | Raw | X962 | SMIME.

#[global] Instance Encoding_eq_dec : EqDecision Encoding.
Proof. solve_decision. Defined.

(** [str(encoding)] *)
Definition Encoding_str (e : Encoding) : string :=
  match e with
  | PEM => "Encoding.PEM"
  | DER => "Encoding.DER"
  | OpenSSH => "Encoding.OpenSSH"
  | Raw => "Encoding.Raw"
  | X962 => "Encoding.X962"
  | SMIME => "Encoding.SMIME"
  end.

(** The attributes of a [CertificateRevocationListView]; [digest] is
    [self.digest.name]. *)
Record CertificateRevocationListView := {
  password : option string;
  type : Encoding;
  ca_crl : bool;
  expires : Z;
  digest : string;
  content_type : option string;
}.

(** The Django cache: a key to the cached bytes and their timeout. *)
Abbreviation DjangoCache := (gmap string (string * Z)).

(** What [get] ends in. *)
Inductive Outcome :=
| HttpResponse (content : string) (content_type : string)
| HttpResponseServerError
| Http404
| Raised (e : exn).

(** [crl.get_crl], which is not among the sources: the encoded CRL of an
    authority, or the exception of its generation. *)
Class CrlLibrary := {
  get_crl : CertificateAuthority -> Encoding -> Z -> string -> option string -> bool
            -> result string;
}.

(** Lines 86-88: the cache key. *)
Definition cache_key (self : CertificateRevocationListView) (serial_ : string) : string :=
  let cache_key :=
    "crl_" +:+ serial_ +:+ "_" +:+ Encoding_str (type self) +:+ "_" +:+ digest self in
  if ca_crl self then cache_key +:+ "_ca" else cache_key.

(** [SingleObjectMixin.get_object] over [CertificateAuthority.objects.all()]
    with [serial] as slug: a missing row is [Http404]. *)
Definition get_object (env : Env) (serial_ : string) : Outcome + CertificateAuthority :=
  match models.get CertificateAuthorityModel
          (filter (fun ca => serial (ca_base ca) = serial_) (certificate_authorities env)) with
  | Ok ca => inr ca
  | Raise (DoesNotExist _) => inl Http404
  | Raise e => inl (Raised e)
  end.

(** Lines 97-107: the response for the bytes of a CRL. *)
Definition respond (self : CertificateRevocationListView) (crl : string) : Outcome :=
  match content_type self with
  | Some content_type => HttpResponse crl content_type
  | None =>
      match type self with
      | DER => HttpResponse crl "application/pkix-crl"
      | PEM => HttpResponse crl "text/plain"
      | _ => HttpResponseServerError
      end
  end.

Section WithLibrary.
Context `{CrlLibrary}.

(** [CertificateRevocationListView.get]: the outcome and the cache after. *)
Definition get (self : CertificateRevocationListView) (env : Env) (cache : DjangoCache)
    (serial_ : string) : Outcome * DjangoCache :=
  let cache_key := cache_key self serial_ in
  match cache !! cache_key with
  | Some entry => (respond self entry.1, cache)
  | None =>
      match get_object env serial_ with
      | inl failed => (failed, cache)
      | inr ca =>
          match get_crl ca (type self) (expires self) (digest self) (password self)
                  (ca_crl self) with
          | Raise e => (Raised e, cache)
          | Ok crl => (respond self crl, <[cache_key := (crl, expires self)]> cache)
          end
      end
  end.

End WithLibrary.
End crl_view.

(* ===================================================================== *)
(** ** acme.py *)
(* ===================================================================== *)

Module acme.

(** The response classes of the module. *)
Inductive AcmeClass :=
| AcmeResponseError
| AcmeResponseMalformed
| AcmeResponseUnauthorized
| AcmeResponseBadNonce
| AcmeResponseUnsupportedMediaType.

(** The class a class is derived from, below [AcmeResponse]. *)
Definition base (c : AcmeClass) : option AcmeClass :=
  match c with
  | AcmeResponseError => None
  | AcmeResponseMalformed => Some AcmeResponseError
  | AcmeResponseUnauthorized => Some AcmeResponseError
  | AcmeResponseBadNonce => Some AcmeResponseError
  | AcmeResponseUnsupportedMediaType => Some AcmeResponseMalformed
  end.

(** The attributes a class body sets itself. *)
Definition own_status_code (c : AcmeClass) : option Z :=
  match c with
  | AcmeResponseError => Some 500%Z
  | AcmeResponseMalformed => Some 400%Z
  | AcmeResponseUnauthorized => Some 401%Z
  | AcmeResponseBadNonce => Some 400%Z
  | AcmeResponseUnsupportedMediaType => Some 415%Z
  end.

Definition own_type (c : AcmeClass) : option string :=
  match c with
  | AcmeResponseError => Some "serverInternal"
  | AcmeResponseMalformed => Some "malformed"
  | AcmeResponseUnauthorized => Some "unauthorized"
  | AcmeResponseBadNonce => Some "badNonce"
  | AcmeResponseUnsupportedMediaType => None
  end.

Definition own_message (c : AcmeClass) : option string :=
  match c with
  | AcmeResponseError => Some ""
  | AcmeResponseMalformed => None
  | AcmeResponseUnauthorized => Some "You are not authorized to perform this request."
  | AcmeResponseBadNonce => Some "Bad or invalid nonce."
  | AcmeResponseUnsupportedMediaType =>
      Some "Requests must use the application/jose+json content type."
  end.

(** Attribute lookup along the base classes; the chain has at most three
    classes. *)
Fixpoint getattr_from {A} (depth : nat) (own : AcmeClass -> option A) (c : AcmeClass)
  : option A :=
  match own c with
  | Some a => Some a
  | None =>
      match depth, base c with
      | S depth, Some b => getattr_from depth own b
      | _, _ => None
      end
  end.

Definition getattr {A} (own : AcmeClass -> option A) (c : AcmeClass) : option A :=
  getattr_from 3 own c.

(** A member of the [details] dictionary. *)
Inductive JsonValue :=
| JsonString (s : string)
| JsonNumber (n : Z).

(** The response: [content] is the dictionary [json.dumps] is given. *)
Record AcmeResponse := {
  content : list (string * JsonValue);
  content_type : string;
  status_code : Z;
}.

(** [AcmeResponseError.__init__] for an instance of class [c]. *)
Definition AcmeResponseError_init (c : AcmeClass) (message : string) : option AcmeResponse :=
  type ← getattr own_type c;
  status ← getattr own_status_code c;
  class_message ← getattr own_message c;
  let details :=
    [ ("type", JsonString ("urn:ietf:params:acme:error:" +:+ type));
      ("status", JsonNumber status) ] in
  let message := match message with EmptyString => class_message | _ => message end in
  let details :=
    match message with
    | EmptyString => details
    | _ => details ++ [("detail", JsonString message)]
    end in
  Some {| content := details; content_type := "application/problem+json";
          status_code := status |}.

(** [details[k]] *)
Fixpoint member (k : string) (d : list (string * JsonValue)) : option JsonValue :=
  match d with
  | [] => None
  | (k', v) :: rest => if decide (k = k') then Some v else member k rest
  end.

End acme.

(* ===================================================================== *)
(** ** More of the concrete installation *)
(* ===================================================================== *)

Module examples.

(** An authority below [fixtures.root] that names an OCSP responder, an
    issuer URL and an issuer alternative name but no CRL; its key has no
    password. *)
Definition intermediate : CertificateAuthority := {|
  ca_base :=
    {| serial := "B2"; x509 := fixtures.certificate_of "B2" "intermediate.example.com";
       revoked := false; revoked_reason := unspecified; revoked_date := 0 |};
  ca_name := "intermediate";
  ca_cn := "intermediate.example.com";
  ca_parent := Some "A1";
  crl_url := None;
  ocsp_url := Some "http://ocsp.example.com";
  issuer_url := Some "http://issuer.example.com/ca.der";
  issuer_alt_name := Some "https://ca.example.com";
  get_authority_key_identifier_extension :=
    {| critical := false; value := AuthorityKeyIdentifierValue "B2" |};
  get_password := None;
  ca_key := fun _ => Ok {| key_id := "B2" |};
|}.

(** The extensions of a request: a SubjectAlternativeName and an
    AuthorityInformationAccess that already names an OCSP responder. *)
Definition own_aia : Extension :=
  {| critical := false;
     value := AuthorityInformationAccessValue [] [UniformResourceIdentifier "http://own.example.com"] |}.

Definition requested_exts : gmap string Extension :=
  {[ Key.SubjectAlternativeName := fixtures.caller_san;
     Key.AuthorityInformationAccess := own_aia ]}.

(** The [extensions] argument of a profile: a key usage given as a literal. *)
Definition profile_extensions : gmap string profiles.ExtensionArg :=
  {[ Key.KeyUsage := profiles.Literal (Py.PyStr "digitalSignature") ]}.

(** Keyword arguments: two deprecated ones, and one that is misspelt. *)
Definition deprecated_kwargs : gmap string Py.PyVal :=
  {[ "keyUsage" := Py.PyStr "keyAgreement"; "ocsp_no_check" := Py.PyBool false ]}.

Definition misspelt_kwargs : gmap string Py.PyVal :=
  {[ "cn_in_sann" := Py.PyBool false ]}.

(** Settings with one profile, and the same settings once it is removed. *)
Definition webserver_config : profile_cache.ProfileConfig := {|
  profile_cache.subject := None;
  profile_cache.algorithm := None;
  profile_cache.extensions := Some profile_extensions;
  profile_cache.cn_in_san := Some true;
  profile_cache.expires := None;
  profile_cache.issuer_name := None;
  profile_cache.description := Some (Py.PyStr "A web server");
  profile_cache.add_crl_url := None;
  profile_cache.add_ocsp_url := None;
  profile_cache.add_issuer_url := None;
  profile_cache.add_issuer_alternative_name := None;
  profile_cache.kwargs := ∅;
|}.

Definition settings : profile_cache.Settings :=
  {| profile_cache.CA_DEFAULT_PROFILE := "webserver";
     profile_cache.CA_PROFILES := {[ "webserver" := webserver_config ]} |}.

Definition emptied_settings : profile_cache.Settings :=
  {| profile_cache.CA_DEFAULT_PROFILE := "webserver"; profile_cache.CA_PROFILES := ∅ |}.

(** A [get_crl] that needs the key of the authority, and one that always
    fails. *)
Definition crl_library : crl_view.CrlLibrary :=
  {| crl_view.get_crl := fun ca _ _ _ password _ =>
       let* _ := ca_key ca password in Ok ("crl of " +:+ serial (ca_base ca)) |}.

Definition broken_crl_library : crl_view.CrlLibrary :=
  {| crl_view.get_crl := fun _ _ _ _ _ _ => Raise (RuntimeError "no backend") |}.

(** A view as the URL configuration sets it up, for DER and for an
    encoding the view has no content type for. *)
Definition crl_view_of (encoding : crl_view.Encoding) (ca_crl : bool)
  : crl_view.CertificateRevocationListView :=
  {| crl_view.password := Some "secret"; crl_view.type := encoding;
     crl_view.ca_crl := ca_crl; crl_view.expires := 600; crl_view.digest := "sha512";
     crl_view.content_type := None |}.

End examples.

(* ===================================================================== *)
(** ** What the properties read off the profile cache *)
(* ===================================================================== *)

(** Every cached profile is filed under its own name. *)
Definition well_filed (cached : profile_cache.Cached) : Prop :=
  forall m n p, cached = Some m -> m !! n = Some p -> profiles.name p = n.

(* ===================================================================== *)
(** ** Properties *)
(* ===================================================================== *)

(** *** Fallible computations *)

Lemma bind_Ok {A B} (m : result A) (k : A -> result B) (b : B) :
  bind m k = Ok b -> exists a, m = Ok a /\ k a = Ok b.
Proof. destruct m as [a|e]; simpl; [eauto | discriminate]. Qed.

Tactic Notation "inv_bind" hyp(H) :=
  let a := fresh "a" in
  let Ha := fresh "H" a in
  apply bind_Ok in H; destruct H as [a [Ha H]].

Tactic Notation "inv_bind" hyp(H) "as" ident(a) ident(Ha) :=
  apply bind_Ok in H; destruct H as [a [Ha H]].

Lemma mapR_Ok {A B} (f : A -> result B) (l : list A) (k : list B) :
  mapR f l = Ok k -> Forall2 (fun x y => f x = Ok y) l k.
Proof.
  revert k. induction l as [|x l IH]; simpl; intros k Hk.
  - injection Hk as <-. constructor.
  - inv_bind Hk. inv_bind Hk. injection Hk as <-. constructor; auto.
Qed.

(** *** Dictionaries *)

Lemma setdefault_lookup_eq {V} (k : string) (v : V) (d : gmap string V) :
  Py.setdefault k v d !! k = Some (default v (d !! k)).
Proof.
  unfold Py.setdefault. destruct (d !! k) eqn:E; simpl.
  - exact E.
  - apply lookup_insert_eq.
Qed.

Lemma setdefault_lookup_ne {V} (k k' : string) (v : V) (d : gmap string V) :
  k <> k' -> Py.setdefault k v d !! k' = d !! k'.
Proof.
  intros Hne. unfold Py.setdefault. destruct (d !! k); [reflexivity|].
  by apply lookup_insert_ne.
Qed.

Lemma setdefault_present {V} (k : string) (v w : V) (d : gmap string V) :
  d !! k = Some w -> Py.setdefault k v d = d.
Proof. intros E. unfold Py.setdefault. by rewrite E. Qed.

Lemma update_lookup {V} (d other : gmap string V) (k : string) :
  Py.update d other !! k = match other !! k with Some v => Some v | None => d !! k end.
Proof.
  unfold Py.update. destruct (other !! k) eqn:E.
  - by apply lookup_union_Some_l.
  - rewrite lookup_union_r; auto.
Qed.

(** *** Profile construction *)

Section ProfileInit.
Context `{Library}.

Lemma cast_extension_key kv kv' : profiles.cast_extension kv = Ok kv' -> kv'.1 = kv.1.
Proof.
  unfold profiles.cast_extension. destruct kv as [k [e|v]]; simpl.
  - intros [= <-]. reflexivity.
  - intros Hb. inv_bind Hb. injection Hb as <-. reflexivity.
Qed.

Lemma cast_extensions_keys l l' :
  Forall2 (fun x y => profiles.cast_extension x = Ok y) l l' -> l'.*1 = l.*1.
Proof.
  induction 1 as [|x y l l' Hxy _ IH]; [reflexivity|].
  rewrite !fmap_cons. f_equal; [by apply cast_extension_key | exact IH].
Qed.

Lemma cast_extensions_lookup_None exts exts' k :
  profiles.cast_extensions exts = Ok exts' -> exts !! k = None -> exts' !! k = None.
Proof.
  unfold profiles.cast_extensions. intros Hb Hk. inv_bind Hb. injection Hb as <-.
  apply mapR_Ok, cast_extensions_keys in Ha. apply not_elem_of_list_to_map_1.
  rewrite Ha. intros Hin. apply list_elem_of_fmap in Hin as [[k' e'] [-> Hin]].
  apply elem_of_map_to_list in Hin. simpl in Hk. congruence.
Qed.

Lemma deprecated_extension_other kwargs kw k st st' k' :
  profiles.deprecated_extension kwargs kw k st = Ok st' -> k <> k' -> st'.1 !! k' = st.1 !! k'.
Proof.
  unfold profiles.deprecated_extension. destruct (kwargs !! kw).
  - intros Hb Hne. inv_bind Hb. injection Hb as <-. simpl. by apply lookup_insert_ne.
  - intros [= <-]. reflexivity.
Qed.

Lemma init_extensions_BasicConstraints extensions description kwargs exts warned d :
  profiles.init_extensions extensions description kwargs = Ok (exts, warned, d) ->
  exists first cast,
    Extension_init Key.BasicConstraints Py.PyNone = Ok first
    /\ profiles.cast_extensions (default ∅ extensions) = Ok cast
    /\ exts !! Key.BasicConstraints = Some (default first (cast !! Key.BasicConstraints)).
Proof.
  unfold profiles.init_extensions. intros Hb.
  inv_bind Hb as cast Hcast. inv_bind Hb as first Hfirst.
  inv_bind Hb as st1 Hst1. inv_bind Hb as st2 Hst2. inv_bind Hb as st3 Hst3.
  exists first, cast. split; [assumption|]. split; [assumption|].
  apply deprecated_extension_other with (k' := Key.BasicConstraints) in Hst1; [|done].
  apply deprecated_extension_other with (k' := Key.BasicConstraints) in Hst2; [|done].
  apply deprecated_extension_other with (k' := Key.BasicConstraints) in Hst3; [|done].
  simpl in Hst1. rewrite setdefault_lookup_eq in Hst1.
  destruct st3 as [exts3 w3]. simpl in *.
  destruct (kwargs !! "desc"), (kwargs !! "ocsp_no_check");
    simpl in Hb; injection Hb as <- _ _;
    rewrite ?lookup_insert_ne by done; congruence.
Qed.

(** C10: a profile that was constructed has a BasicConstraints entry; when
    the caller supplied none it is [BasicConstraints()], the default of
    line 102, and the mapping of the profile is the one computed before the
    default of line 128, which therefore never takes effect. *)
Theorem Profile_init_BasicConstraints_default name subject algorithm extensions cn_in_san
    expires issuer_name description add_crl_url add_ocsp_url add_issuer_url
    add_issuer_alternative_name kwargs p warned :
  profiles.Profile_init name subject algorithm extensions cn_in_san expires issuer_name
    description add_crl_url add_ocsp_url add_issuer_url add_issuer_alternative_name kwargs
  = Ok (p, warned) ->
  exists first,
    Extension_init Key.BasicConstraints Py.PyNone = Ok first
    /\ is_Some (profiles.extensions p !! Key.BasicConstraints)
    /\ (default ∅ extensions !! Key.BasicConstraints = None ->
        profiles.extensions p !! Key.BasicConstraints = Some first)
    /\ exists d, profiles.init_extensions extensions description kwargs
                 = Ok (profiles.extensions p, warned, d).
Proof.
  unfold profiles.Profile_init. intros Hb.
  inv_bind Hb as alg Halg. inv_bind Hb as r Hr. destruct r as [[exts w] d].
  inv_bind Hb as later Hlater. injection Hb as <- <-. simpl.
  destruct (init_extensions_BasicConstraints _ _ _ _ _ _ Hr) as [first [cast [Hf [Hc Hl]]]].
  rewrite (setdefault_present _ _ _ _ Hl).
  exists first. split; [assumption|]. split; [eauto|]. split; [|eauto].
  intros Hnone. rewrite Hl.
  by rewrite (cast_extensions_lookup_None _ _ _ Hc Hnone).
Qed.

End ProfileInit.

(** *** Splitting on whitespace *)

Lemma nospace_snoc cur c :
  nospace cur = true -> Py.isspace c = false -> nospace (cur +:+ String c EmptyString) = true.
Proof.
  intros Hcur Hc. induction cur as [|a cur IH]; simpl in *.
  - by rewrite Hc.
  - apply andb_true_iff in Hcur as [-> Hcur]. simpl. auto.
Qed.

Lemma split_from_nospace cur s :
  nospace cur = true -> Forall (fun w => nospace w = true) (Py.split_from cur s).
Proof.
  revert cur. induction s as [|c s IH]; intros cur Hcur; simpl.
  - destruct cur; simpl; auto.
  - destruct (Py.isspace c) eqn:Hc.
    + apply Forall_app. split; [destruct cur; simpl; auto | by apply IH].
    + apply IH. by apply nospace_snoc.
Qed.

Lemma rstrip_nospace w : nospace w = true -> Py.rstrip w = w.
Proof.
  induction w as [|c w IH]; simpl; [reflexivity|].
  intros Hw. apply andb_true_iff in Hw as [Hc Hw]. rewrite (IH Hw).
  apply negb_true_iff in Hc. rewrite Hc. by destruct w.
Qed.

Lemma strip_nospace w : nospace w = true -> Py.strip w = w.
Proof.
  intros Hw. unfold Py.strip.
  assert (Py.lstrip w = w) as ->; [|by apply rstrip_nospace].
  destruct w as [|c w]; simpl in *; [reflexivity|].
  apply andb_true_iff in Hw as [Hc _]. apply negb_true_iff in Hc. by rewrite Hc.
Qed.

(** [url.strip() for url in s.split()] is [s.split()]. *)
Lemma strip_split s : Py.strip <$> Py.split s = Py.split s.
Proof.
  unfold Py.split. pose proof (split_from_nospace EmptyString s eq_refl) as Hall.
  induction Hall as [|w l Hw _ IH]; [reflexivity|].
  rewrite fmap_cons, IH. f_equal. by apply strip_nospace.
Qed.

(** The no-break space and NEL separate words as the ASCII whitespace
    does. *)
Lemma split_latin1_whitespace :
  Py.split ("a" +:+ String "160"%char "b" +:+ String "133"%char "c d") = ["a"; "b"; "c"; "d"].
Proof. reflexivity. Qed.

(** *** The steps of issuance *)

Section Issuance.
Context `{Library}.
Implicit Types exts : gmap string Extension.

Lemma modify_Ok k f exts exts' :
  profiles.modify k f exts = Ok exts' ->
  exists e e', exts !! k = Some e /\ f e = Ok e' /\ exts' = <[k := e']> exts.
Proof.
  unfold profiles.modify. destruct (exts !! k) as [e|]; [|discriminate].
  intros Hb. inv_bind Hb as e' He'. injection Hb as <-. eauto.
Qed.

(** Appending under a key that [setdefault] has filled leaves the other
    keys alone. *)
Lemma setdefault_modify_other k d f exts exts' k' :
  profiles.modify k f (Py.setdefault k d exts) = Ok exts' -> k <> k' ->
  exts' !! k' = exts !! k'.
Proof.
  intros Hm Hne. apply modify_Ok in Hm as [e [e' [_ [_ ->]]]].
  rewrite lookup_insert_ne by done. by apply setdefault_lookup_ne.
Qed.

Lemma setdefault_modify_same k d f exts exts' :
  profiles.modify k f (Py.setdefault k d exts) = Ok exts' ->
  exists e', f (default d (exts !! k)) = Ok e' /\ exts' !! k = Some e'.
Proof.
  intros Hm. apply modify_Ok in Hm as [e [e' [He [Hf ->]]]].
  rewrite setdefault_lookup_eq in He. injection He as <-.
  exists e'. split; [assumption | apply lookup_insert_eq].
Qed.

(** The four CA-derived steps, as [_update_from_ca] chains them. *)
Lemma _update_from_ca_Ok self ca exts a o i n issuer exts' :
  profiles._update_from_ca self ca exts a o i n = Ok (issuer, exts') ->
  exists e1 e2 e3 : gmap string Extension,
    (if a && Py.truthy (crl_url ca) then
       profiles.modify Key.CRLDistributionPoints
         (profiles.append_point {| full_name := Py.strip <$> Py.split (default "" (crl_url ca)) |})
         (Py.setdefault Key.CRLDistributionPoints CRLDistributionPoints_new
            (Py.setdefault Key.AuthorityKeyIdentifier
               (get_authority_key_identifier_extension ca) exts))
     else Ok (Py.setdefault Key.AuthorityKeyIdentifier
                (get_authority_key_identifier_extension ca) exts)) = Ok e1
    /\ (forall k, k <> Key.AuthorityInformationAccess -> e2 !! k = e1 !! k)
    /\ (forall k, k <> Key.AuthorityInformationAccess -> e3 !! k = e2 !! k)
    /\ (forall k, k <> Key.IssuerAlternativeName -> exts' !! k = e3 !! k).
Proof.
  unfold profiles._update_from_ca. intros Hb.
  inv_bind Hb as e1 He1. inv_bind Hb as e2 He2. inv_bind Hb as e3 He3.
  inv_bind Hb as e4 He4.
  assert (exts' = e4) as ->.
  { destruct (profiles.issuer_name self) as [nm|]; [destruct (decide (nm = ∅))|];
      by injection Hb as _ <-. }
  exists e1, e2, e3. split; [exact He1|]. repeat split; intros k Hk.
  - destruct (o && Py.truthy (ocsp_url ca)); [|by injection He2 as <-].
    inv_bind He2 as g Hg. by eapply setdefault_modify_other.
  - destruct (i && Py.truthy (issuer_url ca)); [|by injection He3 as <-].
    inv_bind He3 as g Hg. by eapply setdefault_modify_other.
  - destruct (n && Py.truthy (issuer_alt_name ca)); [|by injection He4 as <-].
    by eapply setdefault_modify_other.
Qed.

(** Only the four CA-derived keys change in [_update_from_ca]. *)
Lemma _update_from_ca_other self ca exts a o i n issuer exts' k :
  profiles._update_from_ca self ca exts a o i n = Ok (issuer, exts') ->
  k <> Key.AuthorityKeyIdentifier -> k <> Key.CRLDistributionPoints ->
  k <> Key.AuthorityInformationAccess -> k <> Key.IssuerAlternativeName ->
  exts' !! k = exts !! k.
Proof.
  intros Hu H1 H2 H3 H4.
  apply _update_from_ca_Ok in Hu as [e1 [e2 [e3 [He1 [He2 [He3 He4]]]]]].
  rewrite He4, He3, He2 by done.
  destruct (a && Py.truthy (crl_url ca)).
  - erewrite setdefault_modify_other; [|exact He1|done]. by apply setdefault_lookup_ne.
  - injection He1 as <-. by apply setdefault_lookup_ne.
Qed.

(** The CRL step appends one distribution point that holds the URLs of the
    field, after the points that were there. *)
Lemma _update_from_ca_crl self ca exts o i n issuer exts' :
  profiles._update_from_ca self ca exts true o i n = Ok (issuer, exts') ->
  Py.truthy (crl_url ca) = true ->
  exists e',
    exts' !! Key.CRLDistributionPoints = Some e'
    /\ value e' = CRLDistributionPointsValue
                    (points (exts !! Key.CRLDistributionPoints)
                       ++ [{| full_name := Py.split (default "" (crl_url ca)) |}]).
Proof.
  intros Hu Ht.
  apply _update_from_ca_Ok in Hu as [e1 [e2 [e3 [He1 [He2 [He3 He4]]]]]].
  rewrite Ht in He1. simpl in He1.
  apply setdefault_modify_same in He1 as [e' [Hf He']].
  rewrite setdefault_lookup_ne in Hf by done.
  exists e'. split; [by rewrite He4, He3, He2|].
  rewrite strip_split in Hf. unfold profiles.append_point, points in *.
  destruct (exts !! Key.CRLDistributionPoints) as [e|]; simpl in *.
  - destruct (value e); try discriminate. by injection Hf as <-.
  - by injection Hf as <-.
Qed.

Lemma _update_san_from_cn_other cn_in_san subject exts subject' exts' k :
  profiles._update_san_from_cn cn_in_san subject exts = Ok (subject', exts') ->
  k <> Key.SubjectAlternativeName -> exts' !! k = exts !! k.
Proof.
  unfold profiles._update_san_from_cn. intros Hb Hk.
  destruct (has_CN subject && cn_in_san).
  - inv_bind Hb as cn Hcn. inv_bind Hb as e1 He1. injection Hb as _ <-.
    by eapply setdefault_modify_other.
  - destruct (negb (has_CN subject)); [|by injection Hb as _ <-].
    destruct (exts !! Key.SubjectAlternativeName); [|by injection Hb as _ <-].
    inv_bind Hb as cn Hcn. by destruct cn; injection Hb as _ <-.
Qed.

(** Without [cn_in_san] the extensions are left as they are. *)
Lemma _update_san_from_cn_false subject exts subject' exts' :
  profiles._update_san_from_cn false subject exts = Ok (subject', exts') -> exts' = exts.
Proof.
  unfold profiles._update_san_from_cn. rewrite andb_false_r. intros Hb.
  destruct (negb (has_CN subject)); [|by injection Hb as _ <-].
  destruct (exts !! Key.SubjectAlternativeName); [|by injection Hb as _ <-].
  inv_bind Hb as cn Hcn. by destruct cn; injection Hb as _ <-.
Qed.

(** With [cn_in_san] and a common name, the parsed name is in the
    SubjectAlternativeName: appended when it was missing. *)
Lemma _update_san_from_cn_true subject exts subject' exts' :
  has_CN subject = true ->
  profiles._update_san_from_cn true subject exts = Ok (subject', exts') ->
  exists g e',
    parse_general_name (default "" (subject !! "CN")) = Ok g
    /\ subject' = subject
    /\ exts' !! Key.SubjectAlternativeName = Some e'
    /\ let before := san_names (exts !! Key.SubjectAlternativeName) in
       value e' = SubjectAlternativeNameValue
                    (if decide (g ∈ before) then before else before ++ [g]).
Proof.
  unfold profiles._update_san_from_cn. intros -> Hb. simpl in Hb.
  inv_bind Hb as g Hg. inv_bind Hb as e1 He1. injection Hb as <- <-.
  apply setdefault_modify_same in He1 as [e' [Hf He']].
  exists g, e'. split.
  { unfold profiles.parse_common_name in Hg.
    destruct (parse_general_name _) as [g'|[]]; congruence. }
  split; [reflexivity|]. split; [assumption|].
  unfold profiles.append_if_missing, san_names in *.
  destruct (exts !! Key.SubjectAlternativeName) as [e|]; simpl in *.
  - destruct (value e) eqn:Ev; try discriminate.
    destruct (decide (g ∈ names)); injection Hf as <-; simpl; congruence.
  - destruct (decide (g ∈ [])) as [Hin|_]; [by apply elem_of_nil in Hin|].
    by injection Hf as <-.
Qed.

(** A common name that IDNA rejects is reported as a [ValueError]. *)
Lemma _update_san_from_cn_IDNA subject exts :
  has_CN subject = true ->
  parse_general_name (default "" (subject !! "CN")) = Raise IDNAError ->
  profiles._update_san_from_cn true subject exts
  = Raise (ValueError (default "" (subject !! "CN")
                         +:+ ": Could not parse CommonName as subjectAlternativeName.")).
Proof.
  intros Hcn Hp. unfold profiles._update_san_from_cn, profiles.parse_common_name.
  rewrite Hcn, Hp. reflexivity.
Qed.

(** What a successful [create_cert] went through. *)
Lemma create_cert_Ok self ca csr subject expires algorithm extensions cn_in_san
    add_crl_url add_ocsp_url add_issuer_url add_issuer_alternative_name password cert :
  profiles.create_cert self ca csr subject expires algorithm extensions cn_in_san add_crl_url
    add_ocsp_url add_issuer_url add_issuer_alternative_name password = Ok cert ->
  exists issuer exts1 subject2 exts2,
    profiles._update_from_ca self ca (requested self extensions)
      (default (profiles.add_crl_url self) add_crl_url)
      (default (profiles.add_ocsp_url self) add_ocsp_url)
      (default (profiles.add_issuer_url self) add_issuer_url)
      (default (profiles.add_issuer_alternative_name self) add_issuer_alternative_name)
    = Ok (issuer, exts1)
    /\ profiles._update_san_from_cn (default (profiles.cn_in_san self) cn_in_san)
         (resolved_subject self subject) exts1 = Ok (subject2, exts2)
    /\ profiles.tbs_subject cert = subject2
    /\ forall k, k <> Key.SubjectKeyIdentifier -> profiles.tbs_extensions cert !! k = exts2 !! k.
Proof.
  unfold profiles.create_cert. fold (requested self extensions).
  fold (resolved_subject self subject). intros Hb.
  inv_bind Hb as r1 Hr1. destruct r1 as [issuer exts1].
  inv_bind Hb as alg Halg. inv_bind Hb as r2 Hr2. destruct r2 as [subject2 exts2].
  match type of Hb with (if ?c then _ else _) = _ => destruct c end; [discriminate|].
  inv_bind Hb as u Hu. inv_bind Hb as private_key Hkey. injection Hb as <-. simpl.
  exists issuer, exts1, subject2, exts2. repeat split; try assumption.
  intros k Hk. by apply setdefault_lookup_ne.
Qed.

(** The check of lines 254-256 did not fire. *)
Lemma create_cert_checked self ca csr subject expires algorithm extensions cn_in_san
    add_crl_url add_ocsp_url add_issuer_url add_issuer_alternative_name password cert :
  profiles.create_cert self ca csr subject expires algorithm extensions cn_in_san add_crl_url
    add_ocsp_url add_issuer_url add_issuer_alternative_name password = Ok cert ->
  has_CN (default ∅ subject) = true
  \/ exists san,
       profiles.tbs_extensions cert !! Key.SubjectAlternativeName = Some san
       /\ value_truthy san = true.
Proof.
  unfold profiles.create_cert.
  set (given := match extensions with None => ∅ | Some l => profiles.by_key l end).
  intros Hb.
  inv_bind Hb as r1 Hr1. destruct r1 as [issuer exts1].
  inv_bind Hb as alg Halg. inv_bind Hb as r2 Hr2. destruct r2 as [subject2 exts2].
  destruct (has_CN (default ∅ subject)); [by left|]. right. simpl in Hb.
  unfold profiles.shared in Hb. rewrite map_lookup_imap in Hb.
  destruct (given !! Key.SubjectAlternativeName) as [g|]; simpl in Hb; [|discriminate].
  destruct (exts2 !! Key.SubjectAlternativeName) as [san|] eqn:Hsan; [|discriminate].
  destruct (value_truthy san) eqn:Htruthy; [|discriminate]. simpl in Hb.
  inv_bind Hb as u Hu. inv_bind Hb as private_key Hkey. injection Hb as <-. simpl.
  exists san. split; [|assumption]. by rewrite setdefault_lookup_ne.
Qed.

Lemma _update_san_from_cn_keeps_CN cn_in_san subject exts subject' exts' :
  has_CN subject = true ->
  profiles._update_san_from_cn cn_in_san subject exts = Ok (subject', exts') ->
  subject' = subject.
Proof.
  unfold profiles._update_san_from_cn. intros -> Hb. simpl in Hb.
  destruct cn_in_san; [|by injection Hb as <- _].
  inv_bind Hb as cn Hcn. inv_bind Hb as e1 He1. by injection Hb as <- _.
Qed.

(** X1: every certificate [create_cert] issues names its holder: its subject
    has a common name or its SubjectAlternativeName is not empty. *)
Theorem create_cert_issues_named_certificates self ca csr subject expires algorithm
    extensions cn_in_san add_crl_url add_ocsp_url add_issuer_url add_issuer_alternative_name
    password cert :
  profiles.create_cert self ca csr subject expires algorithm extensions cn_in_san add_crl_url
    add_ocsp_url add_issuer_url add_issuer_alternative_name password = Ok cert ->
  has_CN (profiles.tbs_subject cert) = true
  \/ exists san,
       profiles.tbs_extensions cert !! Key.SubjectAlternativeName = Some san
       /\ value_truthy san = true.
Proof.
  intros Hc. destruct (create_cert_checked _ _ _ _ _ _ _ _ _ _ _ _ _ _ Hc) as [Hcn|Hsan];
    [left|by right].
  apply create_cert_Ok in Hc as [issuer [exts1 [subject2 [exts2 [_ [Hsan [Hsub _]]]]]]].
  rewrite Hsub.
  assert (Hres : has_CN (resolved_subject self subject) = true).
  { unfold has_CN, resolved_subject in *. rewrite update_lookup.
    by destruct (default ∅ subject !! "CN") as [[|c s]|]. }
  by rewrite (_update_san_from_cn_keeps_CN _ _ _ _ _ Hres Hsan).
Qed.

Lemma split_truthy field u l : Py.split (default "" field) = u :: l -> Py.truthy field = true.
Proof. by destruct field as [[|c s]|]. Qed.

(** C5: with [add_crl_url] and a CRL-URL field of two whitespace-separated
    URLs, the CRLDistributionPoints extension of the issued certificate is
    the requested one followed by one distribution point whose full names
    are the two URLs in the order of the field: no earlier entry is dropped,
    and without earlier entries the full names are exactly the two URLs. *)
Theorem create_cert_two_crl_urls self ca csr subject expires algorithm extensions cn_in_san
    add_crl_url add_ocsp_url add_issuer_url add_issuer_alternative_name password cert u1 u2 :
  Py.split (default "" (crl_url ca)) = [u1; u2] ->
  default (profiles.add_crl_url self) add_crl_url = true ->
  profiles.create_cert self ca csr subject expires algorithm extensions cn_in_san add_crl_url
    add_ocsp_url add_issuer_url add_issuer_alternative_name password = Ok cert ->
  let before := requested self extensions !! Key.CRLDistributionPoints in
  let after := profiles.tbs_extensions cert !! Key.CRLDistributionPoints in
  is_Some after
  /\ points after = points before ++ [{| full_name := [u1; u2] |}]
  /\ full_names after = full_names before ++ [u1; u2]
  /\ (before = None -> full_names after = [u1; u2]).
Proof.
  intros Hsplit Hflag Hc before after.
  apply create_cert_Ok in Hc as [issuer [exts1 [subject2 [exts2 [Hca [Hsan [_ Hext]]]]]]].
  rewrite Hflag in Hca.
  apply _update_from_ca_crl in Hca as [e' [He' Hv]]; [|by eapply split_truthy].
  assert (Hafter : after = Some e').
  { unfold after. rewrite Hext by done.
    by rewrite (_update_san_from_cn_other _ _ _ _ _ _ Hsan). }
  assert (Hpoints : points after = points before ++ [{| full_name := [u1; u2] |}]).
  { rewrite Hafter. unfold points at 1. simpl. rewrite Hv. by rewrite Hsplit. }
  assert (Hnames : full_names after = full_names before ++ [u1; u2]).
  { unfold full_names. rewrite Hpoints, fmap_app, concat_app. simpl.
    by rewrite ?app_nil_r. }
  split; [rewrite Hafter; eauto|]. split; [assumption|]. split; [assumption|].
  intros Hnone. rewrite Hnames, Hnone. reflexivity.
Qed.

(** C4: for a resolved subject with a common name, a certificate issued
    with [cn_in_san] has the general name parsed from the common name in
    its SubjectAlternativeName (appended after the requested names when it
    was not among them); a common name IDNA rejects makes [create_cert]
    raise the [ValueError] of [_update_san_from_cn]; and without
    [cn_in_san] the SubjectAlternativeName is the requested one. *)
Theorem create_cert_cn_in_san self ca csr subject expires algorithm extensions cn_in_san
    add_crl_url add_ocsp_url add_issuer_url add_issuer_alternative_name password :
  let cn := default "" (resolved_subject self subject !! "CN") in
  let before := san_names (requested self extensions !! Key.SubjectAlternativeName) in
  let issue :=
    profiles.create_cert self ca csr subject expires algorithm extensions cn_in_san
      add_crl_url add_ocsp_url add_issuer_url add_issuer_alternative_name password in
  has_CN (resolved_subject self subject) = true ->
  (forall cert,
     default (profiles.cn_in_san self) cn_in_san = true -> issue = Ok cert ->
     exists g,
       parse_general_name cn = Ok g
       /\ g ∈ san_names (profiles.tbs_extensions cert !! Key.SubjectAlternativeName)
       /\ san_names (profiles.tbs_extensions cert !! Key.SubjectAlternativeName)
          = if decide (g ∈ before) then before else before ++ [g])
  /\ (forall issuer exts1,
       default (profiles.cn_in_san self) cn_in_san = true ->
       parse_general_name cn = Raise IDNAError ->
       profiles._update_from_ca self ca (requested self extensions)
         (default (profiles.add_crl_url self) add_crl_url)
         (default (profiles.add_ocsp_url self) add_ocsp_url)
         (default (profiles.add_issuer_url self) add_issuer_url)
         (default (profiles.add_issuer_alternative_name self) add_issuer_alternative_name)
       = Ok (issuer, exts1) ->
       is_Ok (from_option (fun a => parse_hash_algorithm (Some a)) (Ok "") algorithm) = true ->
       issue = Raise (ValueError
                        (cn +:+ ": Could not parse CommonName as subjectAlternativeName.")))
  /\ (forall cert,
       default (profiles.cn_in_san self) cn_in_san = false -> issue = Ok cert ->
       profiles.tbs_extensions cert !! Key.SubjectAlternativeName
       = requested self extensions !! Key.SubjectAlternativeName).
Proof.
  intros cn before issue Hcn. split; [|split].
  - intros cert Hflag Hc.
    apply create_cert_Ok in Hc as [issuer [exts1 [subject2 [exts2 [Hca [Hsan [_ Hext]]]]]]].
    rewrite Hflag in Hsan.
    apply _update_san_from_cn_true in Hsan as [g [e' [Hg [_ [He' Hv]]]]]; [|assumption].
    rewrite (_update_from_ca_other _ _ _ _ _ _ _ _ _ _ Hca) in Hv by done.
    fold before in Hv. simpl in Hv.
    exists g. split; [assumption|]. rewrite Hext, He' by done.
    unfold san_names at 1 2. simpl. rewrite Hv. split; [|reflexivity].
    destruct (decide (g ∈ before)); [assumption|].
    apply elem_of_app. right. by apply list_elem_of_singleton.
  - intros issuer exts1 Hflag Hparse Hca Halg.
    unfold issue, profiles.create_cert. fold (requested self extensions).
    fold (resolved_subject self subject). rewrite Hca. simpl.
    rewrite Hflag, (_update_san_from_cn_IDNA _ _ Hcn Hparse).
    destruct algorithm as [a|]; simpl in *; [|reflexivity].
    destruct (parse_hash_algorithm (Some a)); [reflexivity|discriminate].
  - intros cert Hflag Hc.
    apply create_cert_Ok in Hc as [issuer [exts1 [subject2 [exts2 [Hca [Hsan [_ Hext]]]]]]].
    rewrite Hflag in Hsan. apply _update_san_from_cn_false in Hsan as ->.
    rewrite Hext by done. by apply (_update_from_ca_other _ _ _ _ _ _ _ _ _ _ Hca).
Qed.

End Issuance.

(** *** Issuance on the concrete installation *)

Lemma Profile_init_BasicConstraints_default_witness :
  exists p warned,
    profiles.Profile_init (H := fixtures.library) "webserver" None None None true None None
      (Py.PyStr "") true true true true {["keyUsage" := Py.PyStr "digitalSignature"]}
    = Ok (p, warned)
    /\ profiles.extensions p !! Key.BasicConstraints
       = Some {| critical := true; value := BasicConstraintsValue false None |}
    /\ profiles.extensions p !! Key.KeyUsage
       = Some {| critical := true; value := KeyUsageValue ["digitalSignature"] |}.
Proof.
  destruct (profiles.Profile_init (H := fixtures.library) "webserver" None None None true
              None None (Py.PyStr "") true true true true
              {["keyUsage" := Py.PyStr "digitalSignature"]}) as [[p warned]|e] eqn:E;
    [|vm_compute in E; discriminate].
  exists p, warned. split; [reflexivity|].
  destruct (Profile_init_BasicConstraints_default (H := fixtures.library) _ _ _ _ _ _ _ _ _ _
              _ _ _ _ _ E) as [first [Hfirst [_ [Hnone _]]]].
  split.
  - rewrite (Hnone eq_refl). vm_compute in Hfirst. congruence.
  - vm_compute in E. injection E as <- _. reflexivity.
Defined.

Lemma create_cert_two_crl_urls_witness :
  Py.split (default "" (crl_url fixtures.root))
  = ["http://crl.example.com"; "http://crl.example.org"]
  /\ exists cert,
       profiles.create_cert (H := fixtures.library) fixtures.webserver fixtures.root
         fixtures.csr (Some fixtures.caller_subject) None None None None None None None None
         (Some "secret") = Ok cert
       /\ full_names (profiles.tbs_extensions cert !! Key.CRLDistributionPoints)
          = ["http://crl.example.com"; "http://crl.example.org"].
Proof.
  split; [vm_compute; reflexivity|].
  destruct (profiles.create_cert (H := fixtures.library) fixtures.webserver fixtures.root
              fixtures.csr (Some fixtures.caller_subject) None None None None None None
              None None (Some "secret")) as [cert|e] eqn:E;
    [|vm_compute in E; discriminate].
  exists cert. split; [reflexivity|].
  assert (Hthm :=
    create_cert_two_crl_urls (H := fixtures.library) fixtures.webserver fixtures.root
      fixtures.csr (Some fixtures.caller_subject) None None None None None None None None
      (Some "secret") cert "http://crl.example.com" "http://crl.example.org"
      ltac:(vm_compute; reflexivity) eq_refl E).
  cbv zeta in Hthm. destruct Hthm as (_ & _ & _ & Hexact).
  apply Hexact. vm_compute. reflexivity.
Defined.

Lemma create_cert_cn_in_san_witness :
  has_CN (resolved_subject fixtures.webserver (Some fixtures.caller_subject)) = true
  /\ exists cert,
       profiles.create_cert (H := fixtures.library) fixtures.webserver fixtures.root
         fixtures.csr (Some fixtures.caller_subject) None None (Some [fixtures.caller_san])
         None None None None None (Some "secret") = Ok cert
       /\ san_names (profiles.tbs_extensions cert !! Key.SubjectAlternativeName)
          = [DNSName "example.com"; DNSName "cn.example.com"].
Proof.
  split; [vm_compute; reflexivity|].
  destruct (profiles.create_cert (H := fixtures.library) fixtures.webserver fixtures.root
              fixtures.csr (Some fixtures.caller_subject) None None
              (Some [fixtures.caller_san]) None None None None None (Some "secret"))
    as [cert|e] eqn:E; [|vm_compute in E; discriminate].
  exists cert. split; [reflexivity|].
  destruct (create_cert_cn_in_san (H := fixtures.library) fixtures.webserver fixtures.root
              fixtures.csr (Some fixtures.caller_subject) None None
              (Some [fixtures.caller_san]) None None None None None (Some "secret")
              ltac:(vm_compute; reflexivity)) as [Hissued _].
  destruct (Hissued cert eq_refl E) as [g [Hg [_ Hnames]]].
  rewrite Hnames. vm_compute in Hg. injection Hg as <-. vm_compute. reflexivity.
Defined.

Lemma create_cert_issues_named_certificates_witness :
  exists cert,
    profiles.create_cert (H := fixtures.library) fixtures.webserver fixtures.root
      fixtures.csr None None None (Some [fixtures.caller_san]) None None None None None
      (Some "secret") = Ok cert
    /\ (has_CN (profiles.tbs_subject cert) = true
        \/ exists san,
             profiles.tbs_extensions cert !! Key.SubjectAlternativeName = Some san
             /\ value_truthy san = true).
Proof.
  destruct (profiles.create_cert (H := fixtures.library) fixtures.webserver fixtures.root
              fixtures.csr None None None (Some [fixtures.caller_san]) None None None None
              None (Some "secret")) as [cert|e] eqn:E; [|vm_compute in E; discriminate].
  exists cert. split; [reflexivity|].
  exact (create_cert_issues_named_certificates (H := fixtures.library) fixtures.webserver
           fixtures.root fixtures.csr None None None (Some [fixtures.caller_san]) None None
           None None None (Some "secret") cert E).
Defined.

(** C1, as the code has it: the check of lines 254-256 reads the subject
    and the extensions the caller passed, not the resolved ones.  The
    profile names the common name, so the resolved subject has one, and
    the call still fails with the no-identity error. *)
Theorem create_cert_ignores_profile_subject :
  has_CN (resolved_subject fixtures.named_profile None) = true
  /\ profiles.create_cert (H := fixtures.library) fixtures.named_profile fixtures.root
       fixtures.csr None None None None None None None None None (Some "secret")
     = Raise profiles.no_identity.
Proof. split; vm_compute; reflexivity. Qed.

(** *** The OCSP responder *)

Section Responder.
Context `{Library}.

Lemma existsb_not_understood exts e :
  e ∈ exts -> ext_critical e = true -> (forall n, ext_value e <> OCSPNonce n) ->
  existsb views.not_understood exts = true.
Proof.
  intros Hin Hc Hv. apply existsb_exists. exists e. split; [by apply list_elem_of_In|].
  unfold views.not_understood. rewrite Hc. simpl.
  destruct (ext_value e) as [n|oid d]; [by destruct (Hv n)|reflexivity].
Qed.

(** C6: a decodable request with a critical extension that is not a nonce
    is answered with the malformed-request response, by [post] and by
    [get], whatever the database, the files and the view hold: neither a
    lookup nor the signature is reached. *)
Theorem critical_extension_is_malformed self env data req e :
  load_der_ocsp_request data = Ok req ->
  e ∈ request_extensions req ->
  ext_critical e = true ->
  (forall n, ext_value e <> OCSPNonce n) ->
  views.process_ocsp_request self env data = Ok views.malformed_request
  /\ views.post self env data = Ok views.malformed_request
  /\ (forall raw, b64decode raw = Ok data -> views.get self env raw = Ok views.malformed_request)
  /\ views.content views.malformed_request = views.Unsuccessful views.MALFORMED_REQUEST
  /\ (forall self' env',
        views.process_ocsp_request self' env' data = views.process_ocsp_request self env data).
Proof.
  intros Hreq Hin Hc Hv.
  assert (Hall : forall self' env',
             views.process_ocsp_request self' env' data = Ok views.malformed_request).
  { intros self' env'. unfold views.process_ocsp_request.
    by rewrite Hreq, (existsb_not_understood _ _ Hin Hc Hv). }
  split; [apply Hall|]. split; [apply Hall|]. split; [|split; [reflexivity|]].
  - intros raw Hraw. unfold views.get. rewrite Hraw. simpl. by rewrite Hall.
  - intros self' env'. by rewrite !Hall.
Qed.

(** C7: a request whose authority is unknown and a request whose
    certificate is unknown get the same answer, the internal-error
    response: the wire does not tell the two misses apart. *)
Theorem lookup_misses_are_internal_errors self1 env1 data1 req1 self2 env2 data2 req2 ca2 m :
  load_der_ocsp_request data1 = Ok req1 ->
  existsb views.not_understood (request_extensions req1) = false ->
  views.get_ca self1 env1 = Raise (DoesNotExist CertificateAuthorityModel) ->
  load_der_ocsp_request data2 = Ok req2 ->
  existsb views.not_understood (request_extensions req2) = false ->
  views.get_ca self2 env2 = Ok ca2 ->
  views.get_cert self2 env2 ca2 (int_to_hex (serial_number req2)) = Raise (DoesNotExist m) ->
  views.process_ocsp_request self1 env1 data1 = Ok (views.fail views.INTERNAL_ERROR)
  /\ views.process_ocsp_request self2 env2 data2 = Ok (views.fail views.INTERNAL_ERROR)
  /\ views.post self1 env1 data1 = views.post self2 env2 data2
  /\ (forall raw1 raw2, b64decode raw1 = Ok data1 -> b64decode raw2 = Ok data2 ->
        views.get self1 env1 raw1 = views.get self2 env2 raw2)
  /\ views.content (views.fail views.INTERNAL_ERROR)
     = views.Unsuccessful views.INTERNAL_ERROR.
Proof.
  intros Hreq1 Hext1 Hca1 Hreq2 Hext2 Hca2 Hcert2.
  assert (H1 : views.process_ocsp_request self1 env1 data1
               = Ok (views.fail views.INTERNAL_ERROR)).
  { unfold views.process_ocsp_request. by rewrite Hreq1, Hext1, Hca1. }
  assert (H2 : views.process_ocsp_request self2 env2 data2
               = Ok (views.fail views.INTERNAL_ERROR)).
  { unfold views.process_ocsp_request. by rewrite Hreq2, Hext2, Hca2, Hcert2. }
  split; [exact H1|]. split; [exact H2|]. split; [|split; [|reflexivity]].
  - unfold views.post. by rewrite H1, H2.
  - intros raw1 raw2 Hraw1 Hraw2. unfold views.get. rewrite Hraw1, Hraw2. simpl.
    by rewrite H1, H2.
Qed.

(** The lookups miss when the database holds no matching row. *)
Lemma get_ca_unknown self env :
  Forall (fun c => serial (ca_base c) <> views.ca self /\ ca_cn c <> views.ca self)
    (certificate_authorities env) ->
  views.get_ca self env = Raise (DoesNotExist CertificateAuthorityModel).
Proof.
  intros Hall. unfold views.get_ca, models.get_by_serial_or_cn.
  assert (filter (fun ca => serial (ca_base ca) = views.ca self \/ ca_cn ca = views.ca self)
            (certificate_authorities env) = []) as ->; [|reflexivity].
  induction Hall as [|c l [Hs Hc] _ IH]; [reflexivity|].
  rewrite filter_cons. destruct (decide _) as [[?|?]|_]; [done|done|exact IH].
Qed.

Lemma get_cert_unknown self env ca serial_ :
  views.ca_ocsp self = false ->
  Forall (fun c => cert_ca c = serial (ca_base ca) -> serial (cert_base c) <> serial_)
    (certificates env) ->
  views.get_cert self env ca serial_ = Raise (DoesNotExist CertificateModel).
Proof.
  intros Hmode Hall. unfold views.get_cert. rewrite Hmode.
  assert (filter (fun c => serial (cert_base c) = serial_)
            (filter (fun c => cert_ca c = serial (ca_base ca)) (certificates env)) = [])
    as ->; [|reflexivity].
  induction Hall as [|c l Hc _ IH]; [reflexivity|].
  rewrite filter_cons. destruct (decide _) as [Hca|_]; [|exact IH].
  rewrite filter_cons. destruct (decide _) as [Hs|_]; [by destruct (Hc Hca)|exact IH].
Qed.

(** C3: when the request decodes, passes the extension check, both lookups
    succeed and the responder key and certificate load, the response is the
    signed one and its status is decided by [revoked] alone: REVOKED with
    the stored time and the stored reason, or GOOD with neither; it is
    never UNKNOWN. *)
Theorem found_certificate_status self env data req ca cert responder_key responder_cert :
  load_der_ocsp_request data = Ok req ->
  existsb views.not_understood (request_extensions req) = false ->
  views.get_ca self env = Ok ca ->
  views.get_cert self env ca (int_to_hex (serial_number req)) = Ok cert ->
  views.get_responder_key self env = Ok responder_key ->
  views.get_responder_cert self env = Ok responder_cert ->
  exists response certs exts,
    views.process_ocsp_request self env data
    = Ok (views.http_response
            (views.Successful response responder_cert certs exts responder_key "sha256"))
    /\ views.response_cert response = x509 cert
    /\ (revoked cert = true ->
        views.cert_status response = views.REVOKED
        /\ views.revocation_time response = Some (revoked_date cert)
        /\ views.revocation_reason response = Some (revoked_reason cert))
    /\ (revoked cert = false ->
        views.cert_status response = views.GOOD
        /\ views.revocation_time response = None
        /\ views.revocation_reason response = None)
    /\ views.cert_status response <> views.UNKNOWN.
Proof.
  intros Hreq Hext Hca Hcert Hkey Hrc.
  unfold views.process_ocsp_request. rewrite Hreq, Hext, Hca, Hcert, Hkey. simpl.
  rewrite Hrc. simpl.
  unfold models.get_revocation_time, models.get_revocation_reason.
  destruct (revoked cert) eqn:Hrev; simpl;
    eexists _, _, _; (split; [reflexivity|]); simpl; repeat split; try discriminate; done.
Qed.

(** X2: whatever happens, [get] answers, and an answer that is not the signed
    response carries the malformed-request or the internal-error status. *)
Lemma get_always_answers self env raw :
  exists response,
    views.get self env raw = Ok response
    /\ match views.content response with
       | views.Unsuccessful st => st = views.MALFORMED_REQUEST \/ st = views.INTERNAL_ERROR
       | views.Successful _ _ _ _ _ _ => True
       end.
Proof.
  unfold views.get.
  destruct (b64decode raw) as [data|e]; simpl;
    [|eexists; split; [reflexivity|simpl; auto]].
  destruct (views.process_ocsp_request self env data) as [r|e] eqn:E;
    [|eexists; split; [reflexivity|simpl; auto]].
  exists r. split; [reflexivity|].
  unfold views.process_ocsp_request in E.
  destruct (load_der_ocsp_request data) as [req|]; [|injection E as <-; simpl; auto].
  destruct (existsb _ _); [injection E as <-; simpl; auto|].
  destruct (views.get_ca self env) as [ca|[]]; try discriminate.
  2: { destruct model; [discriminate|]. injection E as <-. simpl. auto. }
  destruct (views.get_cert _ _ _ _) as [cert|[]]; try discriminate.
  2: { injection E as <-. simpl. auto. }
  inv_bind E as k Hk. inv_bind E as c Hc. inv_bind E as resp Hresp.
  injection E as <-. simpl. exact I.
Qed.

End Responder.

Lemma critical_extension_is_malformed_witness :
  views.post (H := fixtures.library) fixtures.view (fixtures.env_with [] ∅) "critical"
  = Ok views.malformed_request.
Proof.
  refine (proj1 (proj2
    (critical_extension_is_malformed (H := fixtures.library) fixtures.view
       (fixtures.env_with [] ∅) "critical"
       {| serial_number := 1;
          request_extensions :=
            [ {| ext_critical := false; ext_value := OCSPNonce "n" |};
              {| ext_critical := true; ext_value := UnrecognizedExtension "1.2.3" "x" |} ] |}
       {| ext_critical := true; ext_value := UnrecognizedExtension "1.2.3" "x" |}
       eq_refl _ eq_refl _))).
  - apply list_elem_of_In. simpl. auto.
  - intros n. discriminate.
Defined.

Lemma lookup_misses_are_internal_errors_witness :
  views.post (H := fixtures.library) fixtures.stray_view
    (fixtures.env_with [fixtures.good_cert] fixtures.responder_files) "good"
  = views.post (H := fixtures.library) fixtures.view
      (fixtures.env_with [fixtures.good_cert] fixtures.responder_files) "gone".
Proof.
  refine (proj1 (proj2 (proj2
    (lookup_misses_are_internal_errors (H := fixtures.library) fixtures.stray_view
       (fixtures.env_with [fixtures.good_cert] fixtures.responder_files) "good"
       {| serial_number := 1; request_extensions := [] |}
       fixtures.view (fixtures.env_with [fixtures.good_cert] fixtures.responder_files) "gone"
       {| serial_number := 2; request_extensions := [] |}
       fixtures.root CertificateModel eq_refl eq_refl _ eq_refl eq_refl _ _)))).
  - vm_compute. reflexivity.
  - vm_compute. reflexivity.
  - vm_compute. reflexivity.
Defined.

Lemma found_certificate_status_witness :
  exists response certs exts key rc,
    views.post (H := fixtures.library) fixtures.view
      (fixtures.env_with [fixtures.revoked_cert] fixtures.responder_files) "good"
    = Ok (views.http_response (views.Successful response rc certs exts key "sha256"))
    /\ views.cert_status response = views.REVOKED
    /\ views.revocation_time response = Some 17%Z
    /\ views.revocation_reason response = Some key_compromise.
Proof.
  destruct (found_certificate_status (H := fixtures.library) fixtures.view
              (fixtures.env_with [fixtures.revoked_cert] fixtures.responder_files) "good"
              {| serial_number := 1; request_extensions := [] |}
              fixtures.root (cert_base fixtures.revoked_cert)
              {| key_id := "responder-key" |}
              {| x509_serial := "responder-cert"; x509_subject := ∅;
                 x509_public_key := "responder-cert" |}
              eq_refl eq_refl ltac:(vm_compute; reflexivity) ltac:(vm_compute; reflexivity)
              ltac:(vm_compute; reflexivity) ltac:(vm_compute; reflexivity))
    as [response [certs [exts [Hp [_ [Hrev _]]]]]].
  exists response, certs, exts, {| key_id := "responder-key" |},
    {| x509_serial := "responder-cert"; x509_subject := ∅;
       x509_public_key := "responder-cert" |}.
  split; [exact Hp|]. exact (Hrev eq_refl).
Defined.

(** C8, as the code has it: [post] has no [try] around
    [process_ocsp_request].  For a well-formed request for a known
    certificate and an unreadable responder key, the exception of [open]
    leaves [post], while [get] answers the same request with the
    internal-error response. *)
Theorem post_lets_exceptions_escape :
  views.post (H := fixtures.library) fixtures.view
    (fixtures.env_with [fixtures.good_cert] ∅) "good"
  = Raise (IOError "/ocsp/key.pem")
  /\ views.get (H := fixtures.library) fixtures.view
       (fixtures.env_with [fixtures.good_cert] ∅) "good"
     = Ok (views.fail views.INTERNAL_ERROR).
Proof. split; vm_compute; reflexivity. Qed.

(** *** CRL numbers and the CRL cache *)

Section Revocation.
Implicit Types (counters : models.Counters) (cache : models.Cache).

Lemma get_crl_Ok env counters ca scope full_name counter algorithm expires password
    private_key :
  models.valid_scope scope = true ->
  ca_key ca password = Ok private_key ->
  exists crl,
    models.get_crl env counters ca scope full_name counter algorithm expires password
    = Ok (crl, <[(serial (ca_base ca), scope, counter) := (models.crl_number crl + 1)%Z]>
                 counters)
    /\ models.crl_number crl
       = default 0%Z (counters !! (serial (ca_base ca), scope, counter)).
Proof.
  intros Hscope Hkey. unfold models.get_crl. rewrite Hscope, Hkey. simpl.
  match goal with |- exists crl, Ok (?c, _) = _ /\ _ => exists c; split; reflexivity end.
Qed.

Lemma get_crl_inv env counters ca scope full_name counter algorithm expires password crl
    counters' :
  models.get_crl env counters ca scope full_name counter algorithm expires password
  = Ok (crl, counters') ->
  models.crl_number crl = default 0%Z (counters !! (serial (ca_base ca), scope, counter))
  /\ counters' = <[(serial (ca_base ca), scope, counter) := (models.crl_number crl + 1)%Z]>
                   counters.
Proof.
  unfold models.get_crl. destruct (models.valid_scope scope); [|discriminate]. simpl.
  intros Hb. inv_bind Hb as k Hk. injection Hb as <- <-. split; reflexivity.
Qed.

(** C2: from a counter that was never used, three generations against the
    same authority, scope and counter key are numbered 0, 1 and 2, and a
    counter key that was never used then starts at 0 again; from any
    counters, a generation against the same authority, scope and counter key
    is numbered one more than the one before it, also after a generation
    against another counter. *)
Theorem get_crl_numbers env counters ca scope full_name counter algorithm expires password
    private_key :
  models.valid_scope scope = true ->
  ca_key ca password = Ok private_key ->
  counters !! (serial (ca_base ca), scope, counter) = None ->
  let generate := fun counters counter =>
    models.get_crl env counters ca scope full_name counter algorithm expires password in
  (exists crl0 counters1 crl1 counters2 crl2 counters3,
     generate counters counter = Ok (crl0, counters1)
     /\ generate counters1 counter = Ok (crl1, counters2)
     /\ generate counters2 counter = Ok (crl2, counters3)
     /\ models.crl_number crl0 = 0%Z
     /\ models.crl_number crl1 = 1%Z
     /\ models.crl_number crl2 = 2%Z
     /\ forall other,
          other <> counter ->
          counters !! (serial (ca_base ca), scope, other) = None ->
          exists crl counters4,
            generate counters3 other = Ok (crl, counters4) /\ models.crl_number crl = 0%Z)
  /\ (forall any crl counters1 crl' counters2,
        generate any counter = Ok (crl, counters1) ->
        generate counters1 counter = Ok (crl', counters2) ->
        models.crl_number crl' = (models.crl_number crl + 1)%Z
        /\ (models.crl_number crl < models.crl_number crl')%Z)
  /\ (forall any crl counters1 ca' scope' counter' full_name' algorithm' expires' password'
             between counters2 crl' counters3,
        generate any counter = Ok (crl, counters1) ->
        (serial (ca_base ca'), scope', counter') <> (serial (ca_base ca), scope, counter) ->
        models.get_crl env counters1 ca' scope' full_name' counter' algorithm' expires'
          password' = Ok (between, counters2) ->
        generate counters2 counter = Ok (crl', counters3) ->
        (models.crl_number crl < models.crl_number crl')%Z).
Proof.
  intros Hscope Hkey Hfresh generate. split; [|split].
  - destruct (get_crl_Ok env counters ca scope full_name counter algorithm expires password
                _ Hscope Hkey) as [crl0 [H0 N0]].
    rewrite Hfresh in N0. simpl in N0. rewrite N0 in H0.
    destruct (get_crl_Ok env (<[(serial (ca_base ca), scope, counter) := (0 + 1)%Z]> counters)
                ca scope full_name counter algorithm expires password _ Hscope Hkey)
      as [crl1 [H1 N1]].
    rewrite lookup_insert_eq in N1. simpl in N1. rewrite N1 in H1.
    rewrite insert_insert_eq in H1.
    destruct (get_crl_Ok env (<[(serial (ca_base ca), scope, counter) := (1 + 1)%Z]> counters)
                ca scope full_name counter algorithm expires password _ Hscope Hkey)
      as [crl2 [H2 N2]].
    rewrite lookup_insert_eq in N2. simpl in N2. rewrite N2 in H2.
    rewrite insert_insert_eq in H2.
    eexists crl0, _, crl1, _, crl2, _. repeat split; try eassumption.
    intros other Hother Hnone.
    destruct (get_crl_Ok env (<[(serial (ca_base ca), scope, counter) := (2 + 1)%Z]> counters)
                ca scope full_name other algorithm expires password _ Hscope Hkey)
      as [crl [H3 N3]].
    rewrite lookup_insert_ne, Hnone in N3 by congruence.
    eexists crl, _. split; [exact H3 | exact N3].
  - intros any crl counters1 crl' counters2 Ha Hb.
    apply get_crl_inv in Ha as [_ ->]. apply get_crl_inv in Hb as [Hn _].
    rewrite lookup_insert_eq in Hn. simpl in Hn. lia.
  - intros any crl counters1 ca' scope' counter' full_name' algorithm' expires' password'
      between counters2 crl' counters3 Ha Hne Hbetween Hb.
    apply get_crl_inv in Ha as [_ ->]. apply get_crl_inv in Hbetween as [_ ->].
    apply get_crl_inv in Hb as [Hn _].
    rewrite lookup_insert_ne, lookup_insert_eq in Hn by done. simpl in Hn. lia.
Qed.

Lemma add_lookup_ne slot slot' entry cache :
  slot <> slot' -> models.add slot entry cache !! slot' = cache !! slot'.
Proof.
  intros Hne. unfold models.add. destruct (cache !! slot); [reflexivity|].
  by apply lookup_insert_ne.
Qed.


Lemma add_present slot entry cache :
  is_Some (cache !! slot) -> models.add slot entry cache = cache.
Proof. intros [v Hv]. unfold models.add. by rewrite Hv. Qed.

Lemma add_keeps slot slot' entry cache :
  is_Some (cache !! slot') -> models.add slot entry cache !! slot' = cache !! slot'.
Proof.
  intros Hs. destruct (decide (slot = slot')) as [->|Hne].
  - by rewrite add_present.
  - by apply add_lookup_ne.
Qed.


(** An entry that is cached is kept by [store]. *)
Lemma store_keeps ca profile crl cache encs slot :
  is_Some (cache !! slot) -> models.store ca profile crl cache encs !! slot = cache !! slot.
Proof.
  unfold models.store. revert cache. induction encs as [|enc encs IH]; intros cache Hs.
  - reflexivity.
  - simpl. rewrite IH; [by apply add_keeps|]. by rewrite add_keeps.
Qed.














End Revocation.

Lemma get_crl_numbers_witness :
  exists crl0 counters1 crl1 counters2 crl2 counters3 crl3 counters4,
    models.get_crl (fixtures.env_with [] ∅) ∅ fixtures.root None None (Some "test")
      "sha512" 86400 (Some "secret") = Ok (crl0, counters1)
    /\ models.get_crl (fixtures.env_with [] ∅) counters1 fixtures.root None None (Some "test")
         "sha512" 86400 (Some "secret") = Ok (crl1, counters2)
    /\ models.get_crl (fixtures.env_with [] ∅) counters2 fixtures.root None None (Some "test")
         "sha512" 86400 (Some "secret") = Ok (crl2, counters3)
    /\ models.get_crl (fixtures.env_with [] ∅) counters3 fixtures.root None None None
         "sha512" 86400 (Some "secret") = Ok (crl3, counters4)
    /\ models.crl_number crl0 = 0%Z /\ models.crl_number crl1 = 1%Z
    /\ models.crl_number crl2 = 2%Z /\ models.crl_number crl3 = 0%Z.
Proof.
  destruct (get_crl_numbers (fixtures.env_with [] ∅) (∅ : models.Counters) fixtures.root
              None None (Some "test") "sha512" 86400%Z (Some "secret") {| key_id := "A1" |}
              eq_refl eq_refl (lookup_empty _))
    as [(crl0 & c1 & crl1 & c2 & crl2 & c3 & H0 & H1 & H2 & N0 & N1 & N2 & Hother) _].
  destruct (Hother None ltac:(discriminate) (lookup_empty _)) as (crl3 & c4 & H3 & N3).
  exists crl0, c1, crl1, c2, crl2, c3, crl3, c4. repeat split; assumption.
Defined.


(** *** More on the steps of issuance *)

Section IssuanceSteps.
Context `{Library}.
Implicit Types exts : gmap string Extension.

(** The four blocks of [_update_from_ca], one equation each. *)
Lemma _update_from_ca_inv self ca exts a o i n issuer exts' :
  profiles._update_from_ca self ca exts a o i n = Ok (issuer, exts') ->
  let e0 :=
    Py.setdefault Key.AuthorityKeyIdentifier (get_authority_key_identifier_extension ca) exts in
  exists e1 e2 e3 : gmap string Extension,
    (if a && Py.truthy (crl_url ca) then
       profiles.modify Key.CRLDistributionPoints
         (profiles.append_point {| full_name := Py.strip <$> Py.split (default "" (crl_url ca)) |})
         (Py.setdefault Key.CRLDistributionPoints CRLDistributionPoints_new e0)
     else Ok e0) = Ok e1
    /\ (if o && Py.truthy (ocsp_url ca) then
         let* g := parse_general_name (default "" (ocsp_url ca)) in
         profiles.modify Key.AuthorityInformationAccess (profiles.append_ocsp g)
           (Py.setdefault Key.AuthorityInformationAccess AuthorityInformationAccess_new e1)
       else Ok e1) = Ok e2
    /\ (if i && Py.truthy (issuer_url ca) then
         let* g := parse_general_name (default "" (issuer_url ca)) in
         profiles.modify Key.AuthorityInformationAccess (profiles.append_issuers g)
           (Py.setdefault Key.AuthorityInformationAccess AuthorityInformationAccess_new e2)
       else Ok e2) = Ok e3
    /\ (if n && Py.truthy (issuer_alt_name ca) then
         profiles.modify Key.IssuerAlternativeName
           (profiles.extend_names (shlex_split (default "" (issuer_alt_name ca)) ","))
           (Py.setdefault Key.IssuerAlternativeName IssuerAlternativeName_new e3)
       else Ok e3) = Ok exts'
    /\ issuer = match profiles.issuer_name self with
                | Some nm => if decide (nm = ∅) then x509_subject (x509 (ca_base ca)) else nm
                | None => x509_subject (x509 (ca_base ca))
                end.
Proof.
  intros Hb. cbv zeta. unfold profiles._update_from_ca in Hb.
  inv_bind Hb as e1 He1. inv_bind Hb as e2 He2. inv_bind Hb as e3 He3.
  inv_bind Hb as e4 He4.
  exists e1, e2, e3. split; [exact He1|]. split; [exact He2|]. split; [exact He3|].
  destruct (profiles.issuer_name self) as [nm|]; [destruct (decide (nm = ∅))|];
    injection Hb as <- <-; split; (exact He4 || reflexivity).
Qed.

(** What each block leaves alone, and that a block that is off does
    nothing. *)
Lemma _update_from_ca_blocks self ca exts a o i n issuer exts' :
  profiles._update_from_ca self ca exts a o i n = Ok (issuer, exts') ->
  exists e1 e2 e3 : gmap string Extension,
    (forall k, k <> Key.CRLDistributionPoints ->
       e1 !! k = Py.setdefault Key.AuthorityKeyIdentifier
                   (get_authority_key_identifier_extension ca) exts !! k)
    /\ (forall k, k <> Key.AuthorityInformationAccess -> e2 !! k = e1 !! k)
    /\ (forall k, k <> Key.AuthorityInformationAccess -> e3 !! k = e2 !! k)
    /\ (forall k, k <> Key.IssuerAlternativeName -> exts' !! k = e3 !! k)
    /\ (a && Py.truthy (crl_url ca) = false ->
        e1 = Py.setdefault Key.AuthorityKeyIdentifier
               (get_authority_key_identifier_extension ca) exts)
    /\ (o && Py.truthy (ocsp_url ca) = false -> e2 = e1)
    /\ (i && Py.truthy (issuer_url ca) = false -> e3 = e2)
    /\ (n && Py.truthy (issuer_alt_name ca) = false -> exts' = e3)
    /\ (if o && Py.truthy (ocsp_url ca) then
         let* g := parse_general_name (default "" (ocsp_url ca)) in
         profiles.modify Key.AuthorityInformationAccess (profiles.append_ocsp g)
           (Py.setdefault Key.AuthorityInformationAccess AuthorityInformationAccess_new e1)
       else Ok e1) = Ok e2
    /\ (if i && Py.truthy (issuer_url ca) then
         let* g := parse_general_name (default "" (issuer_url ca)) in
         profiles.modify Key.AuthorityInformationAccess (profiles.append_issuers g)
           (Py.setdefault Key.AuthorityInformationAccess AuthorityInformationAccess_new e2)
       else Ok e2) = Ok e3
    /\ (if n && Py.truthy (issuer_alt_name ca) then
         profiles.modify Key.IssuerAlternativeName
           (profiles.extend_names (shlex_split (default "" (issuer_alt_name ca)) ","))
           (Py.setdefault Key.IssuerAlternativeName IssuerAlternativeName_new e3)
       else Ok e3) = Ok exts'.
Proof.
  intros Hu. pose proof (_update_from_ca_inv _ _ _ _ _ _ _ _ _ Hu) as Hinv.
  cbv zeta in Hinv. destruct Hinv as [e1 [e2 [e3 [He1 [He2 [He3 [He4 _]]]]]]].
  exists e1, e2, e3.
  repeat match goal with |- _ /\ _ => split end; try assumption.
  - intros k Hk. destruct (a && _); [|by injection He1 as <-].
    by eapply setdefault_modify_other.
  - intros k Hk. destruct (o && _); [|by injection He2 as <-].
    inv_bind He2 as g Hg. by eapply setdefault_modify_other.
  - intros k Hk. destruct (i && _); [|by injection He3 as <-].
    inv_bind He3 as g Hg. by eapply setdefault_modify_other.
  - intros k Hk. destruct (n && _); [|by injection He4 as <-].
    by eapply setdefault_modify_other.
  - intros Hoff. rewrite Hoff in He1. by injection He1 as <-.
  - intros Hoff. rewrite Hoff in He2. by injection He2 as <-.
  - intros Hoff. rewrite Hoff in He3. by injection He3 as <-.
  - intros Hoff. rewrite Hoff in He4. by injection He4 as <-.
Qed.

(** The issuer name and the AuthorityKeyIdentifier after the step. *)
Lemma _update_from_ca_issuer self ca exts a o i n issuer exts' :
  profiles._update_from_ca self ca exts a o i n = Ok (issuer, exts') ->
  issuer = match profiles.issuer_name self with
           | Some nm => if decide (nm = ∅) then x509_subject (x509 (ca_base ca)) else nm
           | None => x509_subject (x509 (ca_base ca))
           end.
Proof.
  intros Hu. pose proof (_update_from_ca_inv _ _ _ _ _ _ _ _ _ Hu) as Hinv. cbv zeta in Hinv.
  by destruct Hinv as (_ & _ & _ & _ & _ & _ & _ & Hissuer).
Qed.

Lemma _update_from_ca_aki self ca exts a o i n issuer exts' :
  profiles._update_from_ca self ca exts a o i n = Ok (issuer, exts') ->
  exts' !! Key.AuthorityKeyIdentifier
  = Some (default (get_authority_key_identifier_extension ca)
            (exts !! Key.AuthorityKeyIdentifier)).
Proof.
  intros Hu.
  destruct (_update_from_ca_blocks _ _ _ _ _ _ _ _ _ Hu)
    as (e1 & e2 & e3 & F1 & F2 & F3 & F4 & _).
  rewrite F4, F3, F2, F1 by done. apply setdefault_lookup_eq.
Qed.

(** X3: [_update_from_ca] takes the issuer name from the profile when it
    has one and from the certificate of the authority otherwise; it keeps
    an AuthorityKeyIdentifier that is already requested and otherwise sets
    the one of the authority; a block whose flag is off or whose field of
    the authority is empty leaves its extension as it was; and no key
    besides the four is touched. *)
Theorem _update_from_ca_frame self ca exts a o i n issuer exts' :
  profiles._update_from_ca self ca exts a o i n = Ok (issuer, exts') ->
  issuer = match profiles.issuer_name self with
           | Some nm => if decide (nm = ∅) then x509_subject (x509 (ca_base ca)) else nm
           | None => x509_subject (x509 (ca_base ca))
           end
  /\ exts' !! Key.AuthorityKeyIdentifier
     = Some (default (get_authority_key_identifier_extension ca)
               (exts !! Key.AuthorityKeyIdentifier))
  /\ (a && Py.truthy (crl_url ca) = false ->
      exts' !! Key.CRLDistributionPoints = exts !! Key.CRLDistributionPoints)
  /\ (o && Py.truthy (ocsp_url ca) = false -> i && Py.truthy (issuer_url ca) = false ->
      exts' !! Key.AuthorityInformationAccess = exts !! Key.AuthorityInformationAccess)
  /\ (n && Py.truthy (issuer_alt_name ca) = false ->
      exts' !! Key.IssuerAlternativeName = exts !! Key.IssuerAlternativeName)
  /\ (forall k,
        k <> Key.AuthorityKeyIdentifier -> k <> Key.CRLDistributionPoints ->
        k <> Key.AuthorityInformationAccess -> k <> Key.IssuerAlternativeName ->
        exts' !! k = exts !! k).
Proof.
  intros Hu.
  destruct (_update_from_ca_blocks _ _ _ _ _ _ _ _ _ Hu)
    as (e1 & e2 & e3 & F1 & F2 & F3 & F4 & O1 & O2 & O3 & O4 & _).
  pose proof (_update_from_ca_inv _ _ _ _ _ _ _ _ _ Hu) as Hinv. cbv zeta in Hinv.
  destruct Hinv as (_ & _ & _ & _ & _ & _ & _ & Hissuer).
  split; [exact Hissuer|]. split; [|split; [|split; [|split]]].
  - rewrite F4, F3, F2, F1 by done. apply setdefault_lookup_eq.
  - intros Hoff. rewrite F4, F3, F2, (O1 Hoff) by done. by apply setdefault_lookup_ne.
  - intros Ho Hi. rewrite F4, (O3 Hi), (O2 Ho), F1 by done. by apply setdefault_lookup_ne.
  - intros Hoff. rewrite (O4 Hoff), F3, F2, F1 by done. by apply setdefault_lookup_ne.
  - intros k. by apply (_update_from_ca_other _ _ _ _ _ _ _ _ _ _ Hu).
Qed.

Lemma append_ocsp_lists g entry e' :
  profiles.append_ocsp g (default AuthorityInformationAccess_new entry) = Ok e' ->
  aia_ocsp (Some e') = aia_ocsp entry ++ [g] /\ aia_issuers (Some e') = aia_issuers entry.
Proof.
  unfold profiles.append_ocsp, aia_ocsp, aia_issuers.
  destruct entry as [e|]; simpl; [destruct (value e); try discriminate|];
    by intros [= <-].
Qed.

Lemma append_issuers_lists g entry e' :
  profiles.append_issuers g (default AuthorityInformationAccess_new entry) = Ok e' ->
  aia_issuers (Some e') = aia_issuers entry ++ [g] /\ aia_ocsp (Some e') = aia_ocsp entry.
Proof.
  unfold profiles.append_issuers, aia_ocsp, aia_issuers.
  destruct entry as [e|]; simpl; [destruct (value e); try discriminate|];
    by intros [= <-].
Qed.

Lemma extend_names_lists values entry e' :
  profiles.extend_names values (default IssuerAlternativeName_new entry) = Ok e' ->
  exists gs, mapR parse_general_name values = Ok gs
             /\ ian_names (Some e') = ian_names entry ++ gs.
Proof.
  unfold profiles.extend_names, ian_names.
  destruct entry as [e|]; simpl; [destruct (value e); try discriminate|];
    intros Hb; inv_bind Hb as gs Hgs; injection Hb as <-; eauto.
Qed.

(** X4: the AuthorityInformationAccess and IssuerAlternativeName blocks
    append: the OCSP URL of the authority goes to the end of the [ocsp]
    list, the issuer URL to the end of the [issuers] list, and the names
    [shlex_split] finds in [issuer_alt_name] to the end of the
    IssuerAlternativeName; what was requested stays in front, and a block
    that is off adds nothing to its list. *)
Theorem _update_from_ca_appends self ca exts a o i n issuer exts' :
  profiles._update_from_ca self ca exts a o i n = Ok (issuer, exts') ->
  let before := exts !! Key.AuthorityInformationAccess in
  let after := exts' !! Key.AuthorityInformationAccess in
  (if o && Py.truthy (ocsp_url ca)
   then exists g, parse_general_name (default "" (ocsp_url ca)) = Ok g
                  /\ aia_ocsp after = aia_ocsp before ++ [g]
   else aia_ocsp after = aia_ocsp before)
  /\ (if i && Py.truthy (issuer_url ca)
      then exists g, parse_general_name (default "" (issuer_url ca)) = Ok g
                     /\ aia_issuers after = aia_issuers before ++ [g]
      else aia_issuers after = aia_issuers before)
  /\ (if n && Py.truthy (issuer_alt_name ca)
      then exists gs,
             mapR parse_general_name (shlex_split (default "" (issuer_alt_name ca)) ",")
             = Ok gs
             /\ ian_names (exts' !! Key.IssuerAlternativeName)
                = ian_names (exts !! Key.IssuerAlternativeName) ++ gs
      else ian_names (exts' !! Key.IssuerAlternativeName)
           = ian_names (exts !! Key.IssuerAlternativeName)).
Proof.
  intros Hu before after.
  destruct (_update_from_ca_blocks _ _ _ _ _ _ _ _ _ Hu)
    as (e1 & e2 & e3 & F1 & F2 & F3 & F4 & O1 & O2 & O3 & O4 & He2 & He3 & He4).
  assert (Hb1 : e1 !! Key.AuthorityInformationAccess = before).
  { rewrite F1 by done. by apply setdefault_lookup_ne. }
  assert (Ha3 : after = e3 !! Key.AuthorityInformationAccess) by (by apply F4).
  assert (Hn3 : e3 !! Key.IssuerAlternativeName = exts !! Key.IssuerAlternativeName).
  { rewrite F3, F2, F1 by done. by apply setdefault_lookup_ne. }
  (* the OCSP block, from e1 to e2 *)
  assert (H2 : (if o && Py.truthy (ocsp_url ca)
                then exists g, parse_general_name (default "" (ocsp_url ca)) = Ok g
                     /\ aia_ocsp (e2 !! Key.AuthorityInformationAccess)
                        = aia_ocsp before ++ [g]
                else aia_ocsp (e2 !! Key.AuthorityInformationAccess) = aia_ocsp before)
               /\ aia_issuers (e2 !! Key.AuthorityInformationAccess) = aia_issuers before).
  { destruct (o && _).
    - inv_bind He2 as g Hg. apply setdefault_modify_same in He2 as (e' & Hf & ->).
      rewrite Hb1 in Hf. apply append_ocsp_lists in Hf as [-> ->]. eauto.
    - injection He2 as <-. by rewrite Hb1. }
  destruct H2 as [H2o H2i].
  (* the issuer block, from e2 to e3 *)
  assert (H3 : (if i && Py.truthy (issuer_url ca)
                then exists g, parse_general_name (default "" (issuer_url ca)) = Ok g
                     /\ aia_issuers after = aia_issuers before ++ [g]
                else aia_issuers after = aia_issuers before)
               /\ aia_ocsp after = aia_ocsp (e2 !! Key.AuthorityInformationAccess)).
  { rewrite Ha3. destruct (i && _).
    - inv_bind He3 as g Hg. apply setdefault_modify_same in He3 as (e' & Hf & ->).
      apply append_issuers_lists in Hf as [-> ->]. rewrite H2i. eauto.
    - injection He3 as <-. by rewrite H2i. }
  destruct H3 as [H3i H3o].
  split; [|split; [exact H3i|]].
  - destruct (o && _); [destruct H2o as (g & Hg & Hl); exists g|]; by rewrite H3o.
  - destruct (n && _).
    + apply setdefault_modify_same in He4 as (e' & Hf & ->). rewrite Hn3 in Hf.
      by apply extend_names_lists in Hf.
    + injection He4 as <-. by rewrite Hn3.
Qed.

(** Everything a successful [create_cert] went through. *)
Lemma create_cert_inv self ca csr subject expires algorithm extensions cn_in_san
    add_crl_url add_ocsp_url add_issuer_url add_issuer_alternative_name password cert :
  profiles.create_cert self ca csr subject expires algorithm extensions cn_in_san add_crl_url
    add_ocsp_url add_issuer_url add_issuer_alternative_name password = Ok cert ->
  exists issuer exts1 alg subject2 exts2 private_key,
    profiles._update_from_ca self ca (requested self extensions)
      (default (profiles.add_crl_url self) add_crl_url)
      (default (profiles.add_ocsp_url self) add_ocsp_url)
      (default (profiles.add_issuer_url self) add_issuer_url)
      (default (profiles.add_issuer_alternative_name self) add_issuer_alternative_name)
    = Ok (issuer, exts1)
    /\ match algorithm with
       | None => Ok (profiles.algorithm self)
       | Some a => parse_hash_algorithm (Some a)
       end = Ok alg
    /\ profiles._update_san_from_cn (default (profiles.cn_in_san self) cn_in_san)
         (resolved_subject self subject) exts1 = Ok (subject2, exts2)
    /\ pre_issue_cert_send ca csr (default (profiles.expires self) expires) alg subject2 exts2
         password = Ok tt
    /\ ca_key ca password = Ok private_key
    /\ cert = {| profiles.tbs_public_key := csr_public_key csr;
                 profiles.tbs_issuer := issuer;
                 profiles.tbs_subject := subject2;
                 profiles.tbs_extensions :=
                   Py.setdefault Key.SubjectKeyIdentifier
                     {| critical := false;
                        value := SubjectKeyIdentifierValue
                                   (key_identifier_of (csr_public_key csr)) |} exts2;
                 profiles.tbs_expires := default (profiles.expires self) expires;
                 profiles.signed_with := private_key;
                 profiles.signed_algorithm := alg |}.
Proof.
  unfold profiles.create_cert. fold (requested self extensions).
  fold (resolved_subject self subject). intros Hb.
  inv_bind Hb as r1 Hr1. destruct r1 as [issuer exts1].
  inv_bind Hb as alg Halg. inv_bind Hb as r2 Hr2. destruct r2 as [subject2 exts2].
  match type of Hb with (if ?c then _ else _) = _ => destruct c end; [discriminate|].
  inv_bind Hb as u Hu. destruct u. inv_bind Hb as private_key Hkey. injection Hb as <-.
  by exists issuer, exts1, alg, subject2, exts2, private_key.
Qed.

(** X5: what [create_cert] signs.  The public key is the one of the CSR,
    the expiry and the algorithm are the caller's when given and the
    profile's otherwise, the issuer is the issuer name of the profile or
    the subject of the authority, the key is the one [ca.key(password)]
    returned, and the receivers of [pre_issue_cert] were sent the subject
    that is signed and the extensions that are signed, short of a
    SubjectKeyIdentifier added afterwards. *)
Theorem create_cert_signs self ca csr subject expires algorithm extensions cn_in_san
    add_crl_url add_ocsp_url add_issuer_url add_issuer_alternative_name password cert :
  profiles.create_cert self ca csr subject expires algorithm extensions cn_in_san add_crl_url
    add_ocsp_url add_issuer_url add_issuer_alternative_name password = Ok cert ->
  profiles.tbs_public_key cert = csr_public_key csr
  /\ profiles.tbs_expires cert = default (profiles.expires self) expires
  /\ match algorithm with
     | None => profiles.signed_algorithm cert = profiles.algorithm self
     | Some a => parse_hash_algorithm (Some a) = Ok (profiles.signed_algorithm cert)
     end
  /\ profiles.tbs_issuer cert
     = match profiles.issuer_name self with
       | Some nm => if decide (nm = ∅) then x509_subject (x509 (ca_base ca)) else nm
       | None => x509_subject (x509 (ca_base ca))
       end
  /\ ca_key ca password = Ok (profiles.signed_with cert)
  /\ exists sent,
       pre_issue_cert_send ca csr (profiles.tbs_expires cert) (profiles.signed_algorithm cert)
         (profiles.tbs_subject cert) sent password = Ok tt
       /\ profiles.tbs_extensions cert
          = Py.setdefault Key.SubjectKeyIdentifier
              {| critical := false;
                 value := SubjectKeyIdentifierValue (key_identifier_of (csr_public_key csr)) |}
              sent.
Proof.
  intros Hc.
  apply create_cert_inv in Hc
    as (issuer & exts1 & alg & subject2 & exts2 & key & Hca & Halg & Hsan & Hsent & Hkey & ->).
  simpl. split; [reflexivity|]. split; [reflexivity|]. split.
  { destruct algorithm; [exact Halg|congruence]. }
  split. { exact (_update_from_ca_issuer _ _ _ _ _ _ _ _ _ Hca). }
  split; [exact Hkey|]. by exists exts2.
Qed.

(** X6: the extensions of a certificate outside the four cumulative keys.
    Under such a key the certificate holds the extension of the caller, else
    the one of the profile, else, for the AuthorityKeyIdentifier, the one
    of the authority and, for the SubjectKeyIdentifier, the non-critical
    identifier of the public key of the CSR, else none. *)
Theorem create_cert_replaces_by_key self ca csr subject expires algorithm extensions
    cn_in_san add_crl_url add_ocsp_url add_issuer_url add_issuer_alternative_name password
    cert k :
  profiles.create_cert self ca csr subject expires algorithm extensions cn_in_san add_crl_url
    add_ocsp_url add_issuer_url add_issuer_alternative_name password = Ok cert ->
  k ∉ cumulative_keys ->
  profiles.tbs_extensions cert !! k
  = match (match extensions with None => ∅ | Some l => profiles.by_key l end) !! k with
    | Some e => Some e
    | None =>
        match profiles.extensions self !! k with
        | Some e => Some e
        | None =>
            if decide (k = Key.AuthorityKeyIdentifier)
            then Some (get_authority_key_identifier_extension ca)
            else if decide (k = Key.SubjectKeyIdentifier)
            then Some {| critical := false;
                         value := SubjectKeyIdentifierValue
                                    (key_identifier_of (csr_public_key csr)) |}
            else None
        end
    end.
Proof.
  intros Hc Hk.
  apply create_cert_inv in Hc
    as (issuer & exts1 & alg & subject2 & exts2 & key & Hca & Halg & Hsan & Hsent & Hkey & ->).
  simpl. unfold cumulative_keys in Hk.
  repeat (apply not_elem_of_cons in Hk as [? Hk]).
  assert (Hexts2 : exts2 !! k = exts1 !! k)
    by (by apply (_update_san_from_cn_other _ _ _ _ _ _ Hsan)).
  pose proof (_update_from_ca_aki _ _ _ _ _ _ _ _ _ Hca) as Haki.
  pose proof (fun k => _update_from_ca_other _ _ _ _ _ _ _ _ _ k Hca) as Hother.
  pose proof (update_lookup (profiles.extensions self)
                (match extensions with None => ∅ | Some l => profiles.by_key l end) k) as Hreq.
  fold (requested self extensions) in Hreq.
  set (caller := match extensions with None => ∅ | Some l => profiles.by_key l end) in *.
  destruct (decide (k = Key.SubjectKeyIdentifier)) as [->|Hski].
  - rewrite setdefault_lookup_eq, Hexts2, Hother, Hreq by done.
    destruct (caller !! Key.SubjectKeyIdentifier) as [e|]; [reflexivity|].
    destruct (profiles.extensions self !! Key.SubjectKeyIdentifier); [reflexivity|].
    by repeat case_decide.
  - rewrite setdefault_lookup_ne, Hexts2 by done.
    destruct (decide (k = Key.AuthorityKeyIdentifier)) as [->|Haki'].
    + rewrite Haki, Hreq.
      destruct (caller !! Key.AuthorityKeyIdentifier) as [e|]; [reflexivity|].
      destruct (profiles.extensions self !! Key.AuthorityKeyIdentifier); [reflexivity|].
      by repeat case_decide.
    + rewrite Hother, Hreq by done.
      destruct (caller !! k) as [e|]; [reflexivity|].
      destruct (profiles.extensions self !! k); [reflexivity|].
      by repeat case_decide.
Qed.

Lemma _update_san_from_cn_backfill cn_in_san (subject : Subject) exts subject' exts' :
  has_CN subject = false ->
  profiles._update_san_from_cn cn_in_san subject exts = Ok (subject', exts') ->
  exts' = exts
  /\ subject' = match first_dns (san_names (exts !! Key.SubjectAlternativeName)) with
                | Some cn => <["CN" := cn]> subject
                | None => subject
                end.
Proof.
  unfold profiles._update_san_from_cn, san_names. intros -> Hb. simpl in Hb.
  destruct (exts !! Key.SubjectAlternativeName) as [san|]; simpl.
  - unfold profiles.get_common_name in Hb.
    destruct (value san); try discriminate. simpl in Hb.
    by destruct (first_dns names); injection Hb as <- <-.
  - by injection Hb as <- <-.
Qed.

(** X7: a certificate issued for a resolved subject without a common name
    takes its common name from the first DNS name of the requested
    SubjectAlternativeName, with or without [cn_in_san]; when that holds no
    DNS name the subject is signed without a common name.  The extensions
    are not changed by this step. *)
Theorem create_cert_backfills_common_name self ca csr subject expires algorithm extensions
    cn_in_san add_crl_url add_ocsp_url add_issuer_url add_issuer_alternative_name password
    cert :
  has_CN (resolved_subject self subject) = false ->
  profiles.create_cert self ca csr subject expires algorithm extensions cn_in_san add_crl_url
    add_ocsp_url add_issuer_url add_issuer_alternative_name password = Ok cert ->
  let requested_names :=
    san_names (requested self extensions !! Key.SubjectAlternativeName) in
  profiles.tbs_subject cert
  = match first_dns requested_names with
    | Some cn => <["CN" := cn]> (resolved_subject self subject)
    | None => resolved_subject self subject
    end
  /\ san_names (profiles.tbs_extensions cert !! Key.SubjectAlternativeName) = requested_names.
Proof.
  intros Hcn Hc names.
  apply create_cert_inv in Hc
    as (issuer & exts1 & alg & subject2 & exts2 & key & Hca & Halg & Hsan & Hsent & Hkey & ->).
  simpl in *.
  apply _update_san_from_cn_backfill in Hsan as [-> ->]; [|assumption].
  rewrite setdefault_lookup_ne in * by done.
  rewrite (_update_from_ca_other _ _ _ _ _ _ _ _ _ _ Hca) in * by done.
  fold names. split; reflexivity.
Qed.

End IssuanceSteps.

(** *** The steps of issuance on the concrete installation *)

Lemma _update_from_ca_frame_witness :
  exists issuer exts',
    profiles._update_from_ca (H := fixtures.library) fixtures.webserver examples.intermediate
      examples.requested_exts true false false true = Ok (issuer, exts')
    /\ issuer = x509_subject (x509 (ca_base examples.intermediate))
    /\ exts' !! Key.AuthorityKeyIdentifier
       = Some {| critical := false; value := AuthorityKeyIdentifierValue "B2" |}
    /\ exts' !! Key.CRLDistributionPoints = None
    /\ exts' !! Key.AuthorityInformationAccess = Some examples.own_aia
    /\ exts' !! Key.SubjectAlternativeName = Some fixtures.caller_san.
Proof.
  assert (Hok : is_Ok (profiles._update_from_ca (H := fixtures.library) fixtures.webserver
                         examples.intermediate examples.requested_exts true false false true) = true)
    by (vm_compute; reflexivity).
  destruct (profiles._update_from_ca (H := fixtures.library) fixtures.webserver
              examples.intermediate examples.requested_exts true false false true)
    as [[issuer exts']|e] eqn:E; [|simpl in Hok; discriminate].
  exists issuer, exts'. split; [reflexivity|].
  destruct (_update_from_ca_frame (H := fixtures.library) fixtures.webserver
              examples.intermediate examples.requested_exts true false false true issuer exts' E)
    as (Hissuer & Haki & Hcrl & Haia & _ & Hother).
  split; [exact Hissuer|]. split; [exact Haki|].
  split; [exact (Hcrl eq_refl)|]. split; [exact (Haia eq_refl eq_refl)|].
  rewrite Hother; [vm_compute; reflexivity|discriminate..].
Defined.

Lemma _update_from_ca_appends_witness :
  exists issuer exts',
    profiles._update_from_ca (H := fixtures.library) fixtures.webserver examples.intermediate
      examples.requested_exts true true true true = Ok (issuer, exts')
    /\ aia_ocsp (exts' !! Key.AuthorityInformationAccess)
       = [UniformResourceIdentifier "http://own.example.com";
          UniformResourceIdentifier "http://ocsp.example.com"]
    /\ aia_issuers (exts' !! Key.AuthorityInformationAccess)
       = [UniformResourceIdentifier "http://issuer.example.com/ca.der"]
    /\ ian_names (exts' !! Key.IssuerAlternativeName)
       = [UniformResourceIdentifier "https://ca.example.com"].
Proof.
  assert (Hok : is_Ok (profiles._update_from_ca (H := fixtures.library) fixtures.webserver
                         examples.intermediate examples.requested_exts true true true true) = true)
    by (vm_compute; reflexivity).
  destruct (profiles._update_from_ca (H := fixtures.library) fixtures.webserver
              examples.intermediate examples.requested_exts true true true true)
    as [[issuer exts']|e] eqn:E; [|simpl in Hok; discriminate].
  exists issuer, exts'. split; [reflexivity|].
  pose proof (_update_from_ca_appends (H := fixtures.library) fixtures.webserver
                examples.intermediate examples.requested_exts true true true true issuer
                exts' E) as Hthm.
  cbv zeta in Hthm. destruct Hthm as (Hocsp & Hissuers & Hian).
  change (true && Py.truthy (ocsp_url examples.intermediate)) with true in Hocsp.
  change (true && Py.truthy (issuer_url examples.intermediate)) with true in Hissuers.
  change (true && Py.truthy (issuer_alt_name examples.intermediate)) with true in Hian.
  destruct Hocsp as (g1 & Hg1 & ->). destruct Hissuers as (g2 & Hg2 & ->).
  destruct Hian as (gs & Hgs & ->).
  vm_compute in Hg1, Hg2, Hgs. injection Hg1 as <-. injection Hg2 as <-. injection Hgs as <-.
  repeat split; vm_compute; reflexivity.
Defined.

Lemma create_cert_signs_witness :
  exists cert,
    profiles.create_cert (H := fixtures.library) fixtures.webserver fixtures.root
      fixtures.csr (Some fixtures.caller_subject) (Some 30%Z) (Some "sha256") None None None
      None None None (Some "secret") = Ok cert
    /\ profiles.tbs_public_key cert = "public-key"
    /\ profiles.tbs_expires cert = 30%Z
    /\ profiles.signed_algorithm cert = "sha256"
    /\ profiles.tbs_issuer cert = x509_subject (x509 (ca_base fixtures.root))
    /\ profiles.signed_with cert = {| key_id := "A1" |}.
Proof.
  destruct (profiles.create_cert (H := fixtures.library) fixtures.webserver fixtures.root
              fixtures.csr (Some fixtures.caller_subject) (Some 30%Z) (Some "sha256") None
              None None None None None (Some "secret")) as [cert|e] eqn:E;
    [|vm_compute in E; discriminate].
  exists cert. split; [reflexivity|].
  destruct (create_cert_signs (H := fixtures.library) fixtures.webserver fixtures.root
              fixtures.csr (Some fixtures.caller_subject) (Some 30%Z) (Some "sha256") None
              None None None None None (Some "secret") cert E)
    as (Hpk & Hexp & Halg & Hissuer & Hkey & _).
  split; [exact Hpk|]. split; [exact Hexp|].
  split; [by injection Halg as <-|]. split; [exact Hissuer|].
  by injection Hkey as <-.
Defined.

Lemma create_cert_replaces_by_key_witness :
  exists cert,
    profiles.create_cert (H := fixtures.library) fixtures.webserver fixtures.root
      fixtures.csr (Some fixtures.caller_subject) None None None None None None None None
      (Some "secret") = Ok cert
    /\ profiles.tbs_extensions cert !! Key.SubjectKeyIdentifier
       = Some {| critical := false; value := SubjectKeyIdentifierValue "public-key" |}
    /\ profiles.tbs_extensions cert !! Key.KeyUsage = None.
Proof.
  destruct (profiles.create_cert (H := fixtures.library) fixtures.webserver fixtures.root
              fixtures.csr (Some fixtures.caller_subject) None None None None None None
              None None (Some "secret")) as [cert|e] eqn:E;
    [|vm_compute in E; discriminate].
  exists cert. split; [reflexivity|]. split.
  - rewrite (create_cert_replaces_by_key (H := fixtures.library) fixtures.webserver
               fixtures.root fixtures.csr (Some fixtures.caller_subject) None None None None
               None None None None (Some "secret") cert Key.SubjectKeyIdentifier E
               ltac:(apply (bool_decide_unpack _); vm_compute; exact I)).
    vm_compute. reflexivity.
  - vm_compute in E. injection E as <-. vm_compute. reflexivity.
Defined.

Lemma create_cert_backfills_common_name_witness :
  has_CN (resolved_subject fixtures.webserver None) = false
  /\ exists cert,
       profiles.create_cert (H := fixtures.library) fixtures.webserver fixtures.root
         fixtures.csr None None None (Some [fixtures.caller_san]) None None None None None
         (Some "secret") = Ok cert
       /\ profiles.tbs_subject cert !! "CN" = Some "example.com".
Proof.
  split; [vm_compute; reflexivity|].
  destruct (profiles.create_cert (H := fixtures.library) fixtures.webserver fixtures.root
              fixtures.csr None None None (Some [fixtures.caller_san]) None None None None
              None (Some "secret")) as [cert|e] eqn:E; [|vm_compute in E; discriminate].
  exists cert. split; [reflexivity|].
  pose proof (create_cert_backfills_common_name (H := fixtures.library) fixtures.webserver
                fixtures.root fixtures.csr None None None (Some [fixtures.caller_san]) None
                None None None None (Some "secret") cert ltac:(vm_compute; reflexivity) E)
    as Hthm.
  cbv zeta in Hthm. destruct Hthm as [-> _]. vm_compute. reflexivity.
Defined.

(** *** The keywords of [Profile.__init__] *)

Section ProfileKeywords.
Context `{Library}.


(** One deprecated keyword: nothing when it is not given, else the
    extension built from its value is stored and one warning is added. *)
Lemma deprecated_extension_inv kwargs kw k st st' :
  profiles.deprecated_extension kwargs kw k st = Ok st' ->
  match kwargs !! kw with
  | Some v =>
      exists e, Extension_init k v = Ok e /\ st'.1 = <[k := e]> st.1
                /\ length st'.2 = S (length st.2)
  | None => st' = st
  end.
Proof.
  unfold profiles.deprecated_extension. destruct (kwargs !! kw) as [v|].
  - intros Hb. inv_bind Hb as e He. injection Hb as <-. exists e. simpl.
    split; [exact He|]. split; [reflexivity|].
    rewrite length_app. simpl. lia.
  - by intros [= <-].
Qed.


(** The five steps of [init_extensions] after the cast. *)
Lemma init_extensions_inv extensions description kwargs exts warned d :
  profiles.init_extensions extensions description kwargs = Ok (exts, warned, d) ->
  exists cast first st1 st2 st3,
    profiles.cast_extensions (default ∅ extensions) = Ok cast
    /\ Extension_init Key.BasicConstraints Py.PyNone = Ok first
    /\ profiles.deprecated_extension kwargs "keyUsage" Key.KeyUsage
         (Py.setdefault Key.BasicConstraints first cast, []) = Ok st1
    /\ profiles.deprecated_extension kwargs "extendedKeyUsage" Key.ExtendedKeyUsage st1 = Ok st2
    /\ profiles.deprecated_extension kwargs "TLSFeature" Key.TLSFeature st2 = Ok st3
    /\ exts = match kwargs !! "ocsp_no_check" with
              | Some _ => <[Key.OCSPNoCheck := OCSPNoCheck_new]> st3.1
              | None => st3.1
              end
    /\ length warned
       = (length st3.2 + (if given kwargs "desc" then 1 else 0)
          + (if given kwargs "ocsp_no_check" then 1 else 0))%nat
    /\ d = default description (kwargs !! "desc").
Proof.
  unfold profiles.init_extensions, given. intros Hb.
  inv_bind Hb as cast Hcast. inv_bind Hb as first Hfirst.
  inv_bind Hb as st1 Hst1. inv_bind Hb as st2 Hst2. inv_bind Hb as st3 Hst3.
  exists cast, first, st1, st2, st3. do 5 (split; [assumption|]).
  destruct st3 as [exts3 w3]. simpl in *.
  destruct (kwargs !! "desc"), (kwargs !! "ocsp_no_check");
    simpl in Hb; injection Hb as <- <- <-; simpl; rewrite ?length_app; simpl;
    (split; [reflexivity|]); (split; [lia|reflexivity]).
Qed.

(** What [Profile.__init__] stores. *)
Lemma Profile_init_inv name subject algorithm extensions cn_in_san expires issuer_name
    description add_crl_url add_ocsp_url add_issuer_url add_issuer_alternative_name kwargs
    p warned :
  profiles.Profile_init name subject algorithm extensions cn_in_san expires issuer_name
    description add_crl_url add_ocsp_url add_issuer_url add_issuer_alternative_name kwargs
  = Ok (p, warned) ->
  profiles.init_extensions extensions description kwargs
  = Ok (profiles.extensions p, warned, profiles.description p)
  /\ profiles.name p = name
  /\ profiles.subject p = default CA_DEFAULT_SUBJECT subject
  /\ parse_hash_algorithm algorithm = Ok (profiles.algorithm p)
  /\ profiles.cn_in_san p = cn_in_san.
Proof.
  unfold profiles.Profile_init. intros Hb.
  inv_bind Hb as alg Halg. inv_bind Hb as r Hr. destruct r as [[exts w] d].
  inv_bind Hb as later Hlater. injection Hb as <- <-. simpl.
  destruct (init_extensions_BasicConstraints _ _ _ _ _ _ Hr) as [first [cast [Hf [Hc Hl]]]].
  rewrite (setdefault_present _ _ _ _ Hl). auto.
Qed.


(** X9: the deprecated keywords of a profile.  [keyUsage],
    [extendedKeyUsage] and [TLSFeature] store the extension built from
    their value under the key of their class, whatever [extensions] holds
    there; [ocsp_no_check] stores [OCSPNoCheck()] whatever its value is,
    [False] included; [desc] replaces the description; and one warning is
    emitted for each of the five that is given. *)
Theorem Profile_init_deprecated_keywords name subject algorithm extensions cn_in_san expires
    issuer_name description add_crl_url add_ocsp_url add_issuer_url
    add_issuer_alternative_name kwargs p warned :
  profiles.Profile_init name subject algorithm extensions cn_in_san expires issuer_name
    description add_crl_url add_ocsp_url add_issuer_url add_issuer_alternative_name kwargs
  = Ok (p, warned) ->
  (forall kw k v,
     (kw, k) ∈ [("keyUsage", Key.KeyUsage); ("extendedKeyUsage", Key.ExtendedKeyUsage);
                ("TLSFeature", Key.TLSFeature)] ->
     kwargs !! kw = Some v ->
     exists e, Extension_init k v = Ok e /\ profiles.extensions p !! k = Some e)
  /\ (given kwargs "ocsp_no_check" = true ->
      profiles.extensions p !! Key.OCSPNoCheck = Some OCSPNoCheck_new)
  /\ profiles.description p = default description (kwargs !! "desc")
  /\ length warned = length (List.filter (given kwargs) deprecated_keywords).
Proof.
  intros Hp. apply Profile_init_inv in Hp as (Hinit & _).
  apply init_extensions_inv in Hinit
    as (cast & first & st1 & st2 & st3 & Hcast & Hfirst & H1 & H2 & H3 & Hexts & Hlen & Hd).
  assert (Hlast : forall k, k <> Key.OCSPNoCheck -> profiles.extensions p !! k = st3.1 !! k).
  { intros k Hne. rewrite Hexts. destruct (kwargs !! "ocsp_no_check"); [|reflexivity].
    by rewrite lookup_insert_ne. }
  split; [|split; [|split]].
  - intros kw k v Hin Hv.
    repeat (apply elem_of_cons in Hin as [[= -> ->]|Hin]); [| |  |by apply elem_of_nil in Hin].
    + pose proof (deprecated_extension_inv _ _ _ _ _ H1) as Hi. rewrite Hv in Hi.
      destruct Hi as (e & He & Hs & _). exists e. split; [exact He|].
      rewrite Hlast by done.
      rewrite (deprecated_extension_other _ _ _ _ _ Key.KeyUsage H3) by done.
      rewrite (deprecated_extension_other _ _ _ _ _ Key.KeyUsage H2) by done.
      rewrite Hs. apply lookup_insert_eq.
    + pose proof (deprecated_extension_inv _ _ _ _ _ H2) as Hi. rewrite Hv in Hi.
      destruct Hi as (e & He & Hs & _). exists e. split; [exact He|].
      rewrite Hlast by done.
      rewrite (deprecated_extension_other _ _ _ _ _ Key.ExtendedKeyUsage H3) by done.
      rewrite Hs. apply lookup_insert_eq.
    + pose proof (deprecated_extension_inv _ _ _ _ _ H3) as Hi. rewrite Hv in Hi.
      destruct Hi as (e & He & Hs & _). exists e. split; [exact He|].
      rewrite Hlast by done. rewrite Hs. apply lookup_insert_eq.
  - unfold given. intros Hg. rewrite Hexts.
    destruct (kwargs !! "ocsp_no_check"); [apply lookup_insert_eq|discriminate].
  - exact Hd.
  - rewrite Hlen.
    apply deprecated_extension_inv in H1, H2, H3.
    unfold deprecated_keywords, given in *. simpl.
    destruct (kwargs !! "keyUsage"); [destruct H1 as (? & _ & _ & L1)|subst st1];
      (destruct (kwargs !! "extendedKeyUsage"); [destruct H2 as (? & _ & _ & L2)|subst st2]);
      (destruct (kwargs !! "TLSFeature"); [destruct H3 as (? & _ & _ & L3)|subst st3]);
      destruct (kwargs !! "desc"), (kwargs !! "ocsp_no_check"); simpl in *; lia.
Qed.

(** X10: the other keywords of [Profile.__init__] are accepted and
    ignored: two calls that agree on the five deprecated keywords build the
    same profile with the same warnings, or fail alike. *)
Theorem Profile_init_ignores_other_keywords name subject algorithm extensions cn_in_san
    expires issuer_name description add_crl_url add_ocsp_url add_issuer_url
    add_issuer_alternative_name kwargs kwargs' :
  (forall kw, kw ∈ deprecated_keywords -> kwargs !! kw = kwargs' !! kw) ->
  profiles.Profile_init name subject algorithm extensions cn_in_san expires issuer_name
    description add_crl_url add_ocsp_url add_issuer_url add_issuer_alternative_name kwargs
  = profiles.Profile_init name subject algorithm extensions cn_in_san expires issuer_name
      description add_crl_url add_ocsp_url add_issuer_url add_issuer_alternative_name kwargs'.
Proof.
  intros Hsame.
  assert (H1 := Hsame "keyUsage" ltac:(set_solver)).
  assert (H2 := Hsame "extendedKeyUsage" ltac:(set_solver)).
  assert (H3 := Hsame "TLSFeature" ltac:(set_solver)).
  assert (H4 := Hsame "desc" ltac:(set_solver)).
  assert (H5 := Hsame "ocsp_no_check" ltac:(set_solver)).
  unfold profiles.Profile_init, profiles.init_extensions, profiles.deprecated_extension.
  by rewrite H1, H2, H3, H4, H5.
Qed.

End ProfileKeywords.


Lemma Profile_init_deprecated_keywords_witness :
  exists p warned,
    profiles.Profile_init (H := fixtures.library) "webserver" None None
      (Some examples.profile_extensions) true None None (Py.PyStr "") true true true true
      examples.deprecated_kwargs
    = Ok (p, warned)
    /\ profiles.extensions p !! Key.KeyUsage
       = Some {| critical := true; value := KeyUsageValue ["keyAgreement"] |}
    /\ profiles.extensions p !! Key.OCSPNoCheck = Some OCSPNoCheck_new
    /\ length warned = 2%nat.
Proof.
  destruct (profiles.Profile_init (H := fixtures.library) "webserver" None None
              (Some examples.profile_extensions) true None None (Py.PyStr "") true true true
              true examples.deprecated_kwargs) as [[p warned]|e] eqn:E;
    [|vm_compute in E; discriminate].
  exists p, warned. split; [reflexivity|].
  destruct (Profile_init_deprecated_keywords (H := fixtures.library) "webserver" None None
              (Some examples.profile_extensions) true None None (Py.PyStr "") true true true
              true examples.deprecated_kwargs p warned E) as (Hkw & Hocsp & _ & Hlen).
  split; [|split; [exact (Hocsp eq_refl)|exact Hlen]].
  destruct (Hkw "keyUsage" Key.KeyUsage (Py.PyStr "keyAgreement")
              ltac:(apply list_elem_of_here) ltac:(vm_compute; reflexivity))
    as (e & He & ->).
  vm_compute in He. by injection He as <-.
Defined.

Lemma Profile_init_ignores_other_keywords_witness :
  profiles.Profile_init (H := fixtures.library) "webserver" None None None false None None
    (Py.PyStr "") true true true true examples.misspelt_kwargs
  = profiles.Profile_init (H := fixtures.library) "webserver" None None None false None None
      (Py.PyStr "") true true true true ∅.
Proof.
  apply (Profile_init_ignores_other_keywords (H := fixtures.library)).
  intros kw Hin. unfold deprecated_keywords in Hin.
  repeat (apply elem_of_cons in Hin as [->|Hin]); try (vm_compute; reflexivity).
  by apply elem_of_nil in Hin.
Defined.

(** *** The answers of the OCSP responder *)

Section ResponderAnswers.
Context `{Library}.

Lemma get_Ok {A} (model : ModelKind) (rows : list A) (x : A) :
  models.get model rows = Ok x -> rows = [x].
Proof. destruct rows as [|y [|z rows]]; simpl; congruence. Qed.

Lemma add_response_Ok r r' : views.add_response r = Ok r' -> r' = r.
Proof.
  unfold views.add_response.
  destruct (views.cert_status r), (views.revocation_time r), (views.revocation_reason r);
    congruence.
Qed.


(** Everything a signed answer went through. *)
Lemma process_ocsp_request_signed self env data r resp rid certs exts key alg :
  views.process_ocsp_request self env data = Ok r ->
  views.content r = views.Successful resp rid certs exts key alg ->
  exists req ca cert,
    load_der_ocsp_request data = Ok req
    /\ existsb views.not_understood (request_extensions req) = false
    /\ views.get_ca self env = Ok ca
    /\ views.get_cert self env ca (int_to_hex (serial_number req)) = Ok cert
    /\ views.get_responder_key self env = Ok key
    /\ views.get_responder_cert self env = Ok rid
    /\ resp = {| views.response_cert := x509 cert;
                 views.response_issuer := x509 (ca_base ca);
                 views.response_algorithm := "sha1";
                 views.cert_status := if revoked cert then views.REVOKED else views.GOOD;
                 views.this_update := utcnow env;
                 views.next_update := (utcnow env + views.expires self)%Z;
                 views.revocation_time := models.get_revocation_time cert;
                 views.revocation_reason := models.get_revocation_reason cert |}
    /\ certs = [rid]
    /\ alg = "sha256"
    /\ exts = match views.get_nonce (request_extensions req) with
              | Some nonce => [nonce]
              | None => []
              end.
Proof.
  unfold views.process_ocsp_request. intros E Hc.
  destruct (load_der_ocsp_request data) as [req|]; [|by injection E as <-].
  destruct (existsb _ _) eqn:Hext; [by injection E as <-|].
  destruct (views.get_ca self env) as [ca|[]] eqn:Hca; try discriminate.
  2: { destruct model; [discriminate|]. by injection E as <-. }
  destruct (views.get_cert _ _ _ _) as [cert|[]] eqn:Hcert; try discriminate.
  2: { by injection E as <-. }
  inv_bind E as k Hk. inv_bind E as c Hrc. inv_bind E as resp' Hresp.
  apply add_response_Ok in Hresp. injection E as <-. simpl in Hc.
  injection Hc as <- <- <- <- <- <-.
  by exists req, ca, cert.
Qed.


(** X12: a signed answer is about a row the configured authority owns.
    The issuer of the single response is the one authority whose serial or
    common name is [self.ca]; its certificate is the one certificate with
    the requested serial among the certificates issued by that authority,
    or, for [ca_ocsp], among the authorities whose parent it is.  A row
    with the same serial under another authority is never answered. *)
Theorem answered_certificate_is_owned self env data r resp rid certs exts key alg :
  views.post self env data = Ok r ->
  views.content r = views.Successful resp rid certs exts key alg ->
  exists req ca,
    load_der_ocsp_request data = Ok req
    /\ filter (fun c => serial (ca_base c) = views.ca self \/ ca_cn c = views.ca self)
         (certificate_authorities env) = [ca]
    /\ views.response_issuer resp = x509 (ca_base ca)
    /\ if views.ca_ocsp self
       then exists c,
              filter (fun c => serial (ca_base c) = int_to_hex (serial_number req))
                (filter (fun c => ca_parent c = Some (serial (ca_base ca)))
                   (certificate_authorities env)) = [c]
              /\ views.response_cert resp = x509 (ca_base c)
       else exists c,
              filter (fun c => serial (cert_base c) = int_to_hex (serial_number req))
                (filter (fun c => cert_ca c = serial (ca_base ca)) (certificates env)) = [c]
              /\ views.response_cert resp = x509 (cert_base c).
Proof.
  unfold views.post. intros E Hc.
  destruct (process_ocsp_request_signed _ _ _ _ _ _ _ _ _ _ E Hc)
    as (req & ca & cert & Hreq & _ & Hca & Hcert & _ & _ & -> & _).
  exists req, ca. split; [exact Hreq|]. split; [by apply get_Ok in Hca|].
  split; [reflexivity|]. simpl.
  unfold views.get_cert in Hcert. destruct (views.ca_ocsp self).
  - inv_bind Hcert as c Hg. injection Hcert as <-. apply get_Ok in Hg. eauto.
  - inv_bind Hcert as c Hg. injection Hcert as <-. apply get_Ok in Hg. eauto.
Qed.

(** X13: every answer of the responder, the error answers included, goes
    out with HTTP status 200 and the OCSP content type. *)
Theorem answers_are_ocsp_responses self env data r :
  views.post self env data = Ok r \/ views.get self env data = Ok r ->
  views.status r = 200%Z /\ views.content_type r = "application/ocsp-response".
Proof.
  assert (Hp : forall raw r', views.process_ocsp_request self env raw = Ok r' ->
                 views.status r' = 200%Z
                 /\ views.content_type r' = "application/ocsp-response").
  { intros raw r' E. unfold views.process_ocsp_request in E.
    destruct (load_der_ocsp_request raw) as [req|]; [|by injection E as <-].
    destruct (existsb _ _); [by injection E as <-|].
    destruct (views.get_ca self env) as [ca|[]]; try discriminate.
    2: { destruct model; [discriminate|]. by injection E as <-. }
    destruct (views.get_cert _ _ _ _) as [cert|[]]; try discriminate.
    2: { by injection E as <-. }
    inv_bind E as k Hk. inv_bind E as c Hrc. inv_bind E as resp' Hresp.
    by injection E as <-. }
  intros [E|E]; [by apply (Hp data)|].
  unfold views.get in E. destruct (b64decode data) as [raw|]; simpl in E.
  - destruct (views.process_ocsp_request self env raw) as [r'|] eqn:E'.
    + injection E as <-. by apply (Hp raw).
    + by injection E as <-.
  - by injection E as <-.
Qed.

End ResponderAnswers.


Lemma answered_certificate_is_owned_witness :
  exists r resp rid certs exts key alg,
    views.post (H := fixtures.library) fixtures.view
      (fixtures.env_with [fixtures.good_cert] fixtures.responder_files) "good" = Ok r
    /\ views.content r = views.Successful resp rid certs exts key alg
    /\ views.response_issuer resp = x509 (ca_base fixtures.root)
    /\ views.response_cert resp = x509 (cert_base fixtures.good_cert).
Proof.
  destruct (views.post (H := fixtures.library) fixtures.view
              (fixtures.env_with [fixtures.good_cert] fixtures.responder_files) "good")
    as [r|e] eqn:E; [|vm_compute in E; discriminate].
  destruct (views.content r) as [st|resp rid certs exts key alg] eqn:Hc;
    [vm_compute in E; injection E as <-; discriminate|].
  exists r, resp, rid, certs, exts, key, alg. split; [reflexivity|]. split; [exact Hc|].
  destruct (answered_certificate_is_owned (H := fixtures.library) fixtures.view
              (fixtures.env_with [fixtures.good_cert] fixtures.responder_files) "good" r
              resp rid certs exts key alg E Hc)
    as (req & ca & Hreq & Hca & Hissuer & Hcert).
  vm_compute in Hreq. injection Hreq as <-.
  change (filter _ (certificate_authorities _)) with [fixtures.root] in Hca.
  injection Hca as <-. split; [exact Hissuer|].
  change (views.ca_ocsp fixtures.view) with false in Hcert.
  destruct Hcert as (c & Hc' & ->).
  change (filter _ (filter _ (certificates _))) with [fixtures.good_cert] in Hc'.
  by injection Hc' as <-.
Defined.

Lemma answers_are_ocsp_responses_witness :
  exists r,
    views.get (H := fixtures.library) fixtures.stray_view (fixtures.env_with [] ∅) "good"
    = Ok r
    /\ views.content r = views.Unsuccessful views.INTERNAL_ERROR
    /\ views.status r = 200%Z.
Proof.
  exists (views.fail views.INTERNAL_ERROR).
  assert (E : views.get (H := fixtures.library) fixtures.stray_view
                (fixtures.env_with [] ∅) "good" = Ok (views.fail views.INTERNAL_ERROR))
    by (vm_compute; reflexivity).
  split; [exact E|]. split; [reflexivity|].
  exact (proj1 (answers_are_ocsp_responses (H := fixtures.library) fixtures.stray_view
                  (fixtures.env_with [] ∅) "good" _ (or_intror E))).
Defined.

(** *** The cache of profiles *)

Section ProfileCache.
Context `{Library}.

Lemma get_profile_name settings name p warned :
  profile_cache.get_profile settings name = Ok (p, warned) ->
  profiles.name p = default (profile_cache.CA_DEFAULT_PROFILE settings) name.
Proof.
  unfold profile_cache.get_profile.
  destruct (profile_cache.CA_PROFILES settings !! _); [|discriminate].
  intros Hp. by apply Profile_init_inv in Hp as (_ & Hname & _).
Qed.

Lemma get_profile_Some settings name :
  profile_cache.get_profile settings
    (Some (default (profile_cache.CA_DEFAULT_PROFILE settings) name))
  = profile_cache.get_profile settings name.
Proof. reflexivity. Qed.

(** What [__getitem__] does on a hit and on a miss. *)
Lemma getitem_hit settings cached name p :
  cached ≫= (fun m => m !! default (profile_cache.CA_DEFAULT_PROFILE settings) name) = Some p ->
  profile_cache.getitem settings cached name = (Ok (p, []), cached).
Proof. unfold profile_cache.getitem. by intros ->. Qed.

Lemma getitem_miss settings cached name :
  cached ≫= (fun m => m !! default (profile_cache.CA_DEFAULT_PROFILE settings) name) = None ->
  profile_cache.getitem settings cached name
  = match profile_cache.get_profile settings name with
    | Ok (p, warned) =>
        (Ok (p, warned),
         Some (<[default (profile_cache.CA_DEFAULT_PROFILE settings) name := p]>
                 (default ∅ cached)))
    | Raise e => (Raise e, Some (default ∅ cached))
    end.
Proof. unfold profile_cache.getitem. intros ->. by rewrite get_profile_Some. Qed.

Lemma well_filed_default cached n p :
  well_filed cached -> default ∅ cached !! n = Some p -> profiles.name p = n.
Proof.
  intros Hw Hl. destruct cached as [m|]; simpl in Hl.
  - by eapply Hw.
  - by rewrite lookup_empty in Hl.
Qed.

(** X14: the cache of [Profiles] files every profile under its own name.
    From a cache that does, [profiles[name]] leaves one that does, and the
    profile it returns is named [name] ([CA_DEFAULT_PROFILE] for [None]) and
    is cached under that name afterwards. *)
Theorem getitem_files_by_name settings cached name :
  well_filed cached ->
  well_filed (profile_cache.getitem settings cached name).2
  /\ forall p warned,
       (profile_cache.getitem settings cached name).1 = Ok (p, warned) ->
       profiles.name p = default (profile_cache.CA_DEFAULT_PROFILE settings) name
       /\ (profile_cache.getitem settings cached name).2
            ≫= (fun m => m !! profiles.name p) = Some p.
Proof.
  intros Hw. set (n := default (profile_cache.CA_DEFAULT_PROFILE settings) name).
  destruct (cached ≫= (fun m => m !! n)) as [q|] eqn:Hc.
  - rewrite (getitem_hit _ _ _ _ Hc). simpl. split; [exact Hw|].
    intros p warned [= <- _].
    assert (Hq : profiles.name q = n).
    { destruct cached as [m|]; [|discriminate]. by eapply Hw. }
    by rewrite Hq.
  - rewrite (getitem_miss _ _ _ Hc). fold n.
    destruct (profile_cache.get_profile settings name) as [[q w]|e] eqn:Hg; simpl.
    + pose proof (get_profile_name _ _ _ _ Hg) as Hq. fold n in Hq. split.
      * intros m k p [= <-] Hl. destruct (decide (k = n)) as [->|Hne].
        -- rewrite lookup_insert_eq in Hl. by injection Hl as <-.
        -- rewrite lookup_insert_ne in Hl by done. by eapply well_filed_default.
      * intros p warned [= <- _]. split; [exact Hq|]. rewrite Hq. apply lookup_insert_eq.
    + split; [|discriminate].
      intros m k p [= <-] Hl. by eapply well_filed_default.
Qed.

(** X15: once [profiles[name]] has returned a profile, it returns that
    profile again without a warning and without touching the cache,
    whatever the settings have become; only [_reset] makes the next
    lookup read the settings again. *)
Theorem getitem_is_stable settings cached name p warned cached' settings' name' :
  profile_cache.getitem settings cached name = (Ok (p, warned), cached') ->
  default (profile_cache.CA_DEFAULT_PROFILE settings') name'
  = default (profile_cache.CA_DEFAULT_PROFILE settings) name ->
  profile_cache.getitem settings' cached' name' = (Ok (p, []), cached')
  /\ profile_cache.getitem settings' (profile_cache._reset cached') name'
     = match profile_cache.get_profile settings' name' with
       | Ok (p', warned') =>
           (Ok (p', warned'),
            Some {[ default (profile_cache.CA_DEFAULT_PROFILE settings') name' := p' ]})
       | Raise e => (Raise e, Some ∅)
       end.
Proof.
  intros Hg Hn. split.
  - apply getitem_hit. rewrite Hn.
    set (n := default (profile_cache.CA_DEFAULT_PROFILE settings) name) in *.
    destruct (cached ≫= (fun m => m !! n)) as [q|] eqn:Hc.
    + rewrite (getitem_hit _ _ _ _ Hc) in Hg. by injection Hg as <- _ <-.
    + rewrite (getitem_miss _ _ _ Hc) in Hg. fold n in Hg.
      destruct (profile_cache.get_profile settings name) as [[q w]|e]; [|discriminate].
      injection Hg as <- _ <-. simpl. apply lookup_insert_eq.
  - rewrite getitem_miss by reflexivity. simpl.
    destruct (profile_cache.get_profile settings' name') as [[q w]|e]; [|reflexivity].
    by rewrite insert_empty.
Qed.

(** X16: a name that is neither cached nor configured raises [KeyError]
    with that name; the failure is not cached, the profiles that were
    cached stay, and a lookup made once the name is configured builds the
    profile. *)
Theorem getitem_unknown_profile settings cached name :
  let n := default (profile_cache.CA_DEFAULT_PROFILE settings) name in
  cached ≫= (fun m => m !! n) = None ->
  profile_cache.CA_PROFILES settings !! n = None ->
  profile_cache.getitem settings cached name = (Raise (KeyError n), Some (default ∅ cached))
  /\ (forall k, default ∅ cached !! k = cached ≫= (fun m => m !! k))
  /\ forall settings' p warned,
       profile_cache.get_profile settings' (Some n) = Ok (p, warned) ->
       profile_cache.getitem settings' (Some (default ∅ cached)) (Some n)
       = (Ok (p, warned), Some (<[n := p]> (default ∅ cached))).
Proof.
  intros n Hc Hs. split; [|split].
  - rewrite (getitem_miss _ _ _ Hc). unfold profile_cache.get_profile. fold n.
    by rewrite Hs.
  - intros k. destruct cached; [reflexivity|apply lookup_empty].
  - intros settings' p warned Hg.
    rewrite getitem_miss; simpl.
    + by rewrite Hg.
    + destruct cached as [m|]; [exact Hc|apply lookup_empty].
Qed.

End ProfileCache.

Lemma getitem_files_by_name_witness :
  exists p warned cached',
    profile_cache.getitem (H := fixtures.library) examples.settings None None
    = (Ok (p, warned), cached')
    /\ profiles.name p = "webserver"
    /\ well_filed cached'.
Proof.
  destruct (profile_cache.getitem (H := fixtures.library) examples.settings None None)
    as [[[p warned]|e] cached'] eqn:E; [|vm_compute in E; discriminate].
  exists p, warned, cached'. split; [reflexivity|].
  destruct (getitem_files_by_name (H := fixtures.library) examples.settings None None
              ltac:(intros m n q; discriminate)) as [Hw Hp].
  rewrite E in Hw, Hp. simpl in Hw, Hp.
  split; [exact (proj1 (Hp p warned eq_refl))|exact Hw].
Defined.

Lemma getitem_is_stable_witness :
  exists p warned cached',
    profile_cache.getitem (H := fixtures.library) examples.settings None None
    = (Ok (p, warned), cached')
    /\ profile_cache.getitem (H := fixtures.library) examples.emptied_settings cached'
         (Some "webserver")
       = (Ok (p, []), cached')
    /\ profile_cache.getitem (H := fixtures.library) examples.emptied_settings
         (profile_cache._reset cached') (Some "webserver")
       = (Raise (KeyError "webserver"), Some ∅).
Proof.
  destruct (profile_cache.getitem (H := fixtures.library) examples.settings None None)
    as [[[p warned]|e] cached'] eqn:E; [|vm_compute in E; discriminate].
  exists p, warned, cached'. split; [reflexivity|].
  exact (getitem_is_stable (H := fixtures.library) examples.settings None None p warned
           cached' examples.emptied_settings (Some "webserver") E eq_refl).
Defined.

Lemma getitem_unknown_profile_witness :
  profile_cache.getitem (H := fixtures.library) examples.settings None (Some "client")
  = (Raise (KeyError "client"), Some ∅).
Proof.
  exact (proj1 (getitem_unknown_profile (H := fixtures.library) examples.settings None
                  (Some "client") eq_refl ltac:(vm_compute; reflexivity))).
Defined.

(** *** The CRL view *)

Lemma append_cons (x : ascii) (a b : string) : String x a +:+ b = String x (a +:+ b).
Proof. reflexivity. Qed.

Lemma append_assoc (a b c : string) : (a +:+ b) +:+ c = a +:+ (b +:+ c).
Proof. induction a as [|x a IH]; [reflexivity|]. rewrite !append_cons. congruence. Qed.

Lemma append_nil_r (a : string) : a +:+ "" = a.
Proof. induction a as [|x a IH]; [reflexivity|]. rewrite append_cons. congruence. Qed.

Lemma append_inj_l (a b c : string) : a +:+ b = a +:+ c -> b = c.
Proof.
  induction a as [|x a IH]; [done|]. rewrite !append_cons. intros [= Heq]. auto.
Qed.

Lemma cache_key_eq self serial_ :
  crl_view.cache_key self serial_
  = "crl_" +:+ serial_ +:+ "_" +:+ crl_view.Encoding_str (crl_view.type self) +:+ "_"
    +:+ crl_view.digest self +:+ (if crl_view.ca_crl self then "_ca" else "").
Proof.
  unfold crl_view.cache_key. cbv zeta. destruct (crl_view.ca_crl self).
  - by rewrite !append_assoc.
  - by rewrite append_nil_r.
Qed.

Section CrlView.
Context (L : crl_view.CrlLibrary).

Lemma get_object_inl env serial_ o :
  crl_view.get_object env serial_ = inl o ->
  o = crl_view.Http404 \/ exists e, o = crl_view.Raised e.
Proof.
  unfold crl_view.get_object.
  destruct (models.get _ _) as [ca|[]]; intros [= <-]; eauto.
Qed.

Lemma get_object_inr env serial_ ca :
  crl_view.get_object env serial_ = inr ca ->
  filter (fun c => serial (ca_base c) = serial_) (certificate_authorities env) = [ca].
Proof.
  unfold crl_view.get_object.
  destruct (models.get _ _) as [c|[]] eqn:Hg; intros [= <-].
  by apply get_Ok in Hg.
Qed.

(** The three ways [get] ends. *)
Lemma crl_view_get_inv self env cache serial_ o cache' :
  crl_view.get self env cache serial_ = (o, cache') ->
  (exists crl t, cache !! crl_view.cache_key self serial_ = Some (crl, t)
                 /\ o = crl_view.respond self crl /\ cache' = cache)
  \/ (cache !! crl_view.cache_key self serial_ = None /\ cache' = cache
      /\ (o = crl_view.Http404 \/ exists e, o = crl_view.Raised e))
  \/ (exists ca crl,
        cache !! crl_view.cache_key self serial_ = None
        /\ filter (fun c => serial (ca_base c) = serial_) (certificate_authorities env) = [ca]
        /\ crl_view.get_crl ca (crl_view.type self) (crl_view.expires self)
             (crl_view.digest self) (crl_view.password self) (crl_view.ca_crl self) = Ok crl
        /\ o = crl_view.respond self crl
        /\ cache' = <[crl_view.cache_key self serial_ := (crl, crl_view.expires self)]> cache).
Proof.
  unfold crl_view.get. cbv zeta.
  destruct (cache !! crl_view.cache_key self serial_) as [[crl t]|] eqn:Hc.
  - intros [= <- <-]. left. by exists crl, t.
  - destruct (crl_view.get_object env serial_) as [failed|ca] eqn:Ho.
    + intros [= <- <-]. right. left. apply get_object_inl in Ho. auto.
    + apply get_object_inr in Ho.
      destruct (crl_view.get_crl ca _ _ _ _ _) as [crl|e] eqn:Hg.
      * intros [= <- <-]. right. right. by exists ca, crl.
      * intros [= <- <-]. right. left. eauto.
Qed.

Lemma respond_not_failure self crl :
  crl_view.respond self crl <> crl_view.Http404
  /\ forall e, crl_view.respond self crl <> crl_view.Raised e.
Proof.
  unfold crl_view.respond.
  destruct (crl_view.content_type self), (crl_view.type self); split; try intros e; discriminate.
Qed.

(** X18: [get] writes at most the slot of its own cache key, only when
    that slot was empty, and only the CRL that [get_crl] returned for the
    one authority with the requested serial, with [expires] as timeout; an
    answer that is a 404 or an exception leaves the cache as it was. *)
Theorem crl_view_writes_own_slot self env cache serial_ o cache' :
  crl_view.get self env cache serial_ = (o, cache') ->
  (forall k, k <> crl_view.cache_key self serial_ -> cache' !! k = cache !! k)
  /\ (is_Some (cache !! crl_view.cache_key self serial_) -> cache' = cache)
  /\ (o = crl_view.Http404 \/ (exists e, o = crl_view.Raised e) -> cache' = cache)
  /\ (cache !! crl_view.cache_key self serial_ = None ->
      forall crl t,
        cache' !! crl_view.cache_key self serial_ = Some (crl, t) ->
        t = crl_view.expires self
        /\ exists ca,
             filter (fun c => serial (ca_base c) = serial_) (certificate_authorities env)
             = [ca]
             /\ crl_view.get_crl ca (crl_view.type self) (crl_view.expires self)
                  (crl_view.digest self) (crl_view.password self) (crl_view.ca_crl self)
                = Ok crl).
Proof.
  intros Hg.
  destruct (crl_view_get_inv _ _ _ _ _ _ Hg)
    as [(crl & t & Hc & -> & ->)|[(Hc & -> & Ho)|(ca & crl & Hc & Hca & Hcrl & -> & ->)]].
  - split; [done|]. split; [done|]. split; [done|]. intros Hn. congruence.
  - split; [done|]. split; [done|]. split; [done|]. intros _ crl t Hl. congruence.
  - split; [|split; [|split]].
    + intros k Hk. by rewrite lookup_insert_ne.
    + intros [v Hv]. congruence.
    + destruct (respond_not_failure self crl) as [H404 Hraised].
      intros [Ho|[e Ho]]; [by destruct H404|by destruct (Hraised e)].
    + intros _ crl' t. rewrite lookup_insert_eq. intros [= <- <-]. eauto.
Qed.

(** X19: the content type of an answer is the one of the view when it
    has one, and otherwise follows the encoding; the CRL of an answer is
    the one in the slot of the cache key afterwards.  A view of another
    encoding without a content type answers with a server error, after
    the CRL was generated and cached. *)
Theorem crl_view_content_type self env cache serial_ o cache' :
  crl_view.get self env cache serial_ = (o, cache') ->
  match o with
  | crl_view.HttpResponse body content_type =>
      match crl_view.content_type self, crl_view.type self with
      | Some c, _ => content_type = c
      | None, crl_view.DER => content_type = "application/pkix-crl"
      | None, crl_view.PEM => content_type = "text/plain"
      | None, _ => False
      end
      /\ exists t, cache' !! crl_view.cache_key self serial_ = Some (body, t)
  | crl_view.HttpResponseServerError =>
      crl_view.content_type self = None
      /\ crl_view.type self <> crl_view.DER
      /\ crl_view.type self <> crl_view.PEM
      /\ is_Some (cache' !! crl_view.cache_key self serial_)
  | _ => True
  end.
Proof.
  intros Hg.
  assert (Hr : forall crl t,
             cache' !! crl_view.cache_key self serial_ = Some (crl, t) ->
             o = crl_view.respond self crl ->
             match o with
             | crl_view.HttpResponse body content_type =>
                 match crl_view.content_type self, crl_view.type self with
                 | Some c, _ => content_type = c
                 | None, crl_view.DER => content_type = "application/pkix-crl"
                 | None, crl_view.PEM => content_type = "text/plain"
                 | None, _ => False
                 end
                 /\ exists t, cache' !! crl_view.cache_key self serial_ = Some (body, t)
             | crl_view.HttpResponseServerError =>
                 crl_view.content_type self = None
                 /\ crl_view.type self <> crl_view.DER
                 /\ crl_view.type self <> crl_view.PEM
                 /\ is_Some (cache' !! crl_view.cache_key self serial_)
             | _ => True
             end).
  { intros crl t Hl ->. unfold crl_view.respond.
    destruct (crl_view.content_type self), (crl_view.type self); simpl;
      repeat split; eauto; discriminate. }
  destruct (crl_view_get_inv _ _ _ _ _ _ Hg)
    as [(crl & t & Hc & Ho & ->)|[(Hc & -> & Ho)|(ca & crl & Hc & Hca & Hcrl & Ho & ->)]].
  - by eapply Hr.
  - by destruct Ho as [->|[e ->]].
  - eapply Hr; [apply lookup_insert_eq|exact Ho].
Qed.

End CrlView.

(** X17: once [get] has answered for a serial with something other than
    a 404 or an exception, it gives the same answer again from the cache
    it left, whatever the database and [get_crl] have become: the
    authority may be gone and its key unusable. *)
Theorem crl_view_answers_from_cache (L L' : crl_view.CrlLibrary) self env env' cache serial_
    o cache' :
  crl_view.get (H := L) self env cache serial_ = (o, cache') ->
  o <> crl_view.Http404 ->
  (forall e, o <> crl_view.Raised e) ->
  crl_view.get (H := L') self env' cache' serial_ = (o, cache').
Proof.
  intros Hg H404 Hraised.
  destruct (crl_view_get_inv _ _ _ _ _ _ _ Hg)
    as [(crl & t & Hc & -> & ->)|[(Hc & -> & Ho)|(ca & crl & Hc & Hca & Hcrl & -> & ->)]].
  - unfold crl_view.get. cbv zeta. by rewrite Hc.
  - destruct Ho as [->|[e ->]]; [done|by destruct (Hraised e)].
  - unfold crl_view.get. cbv zeta. by rewrite lookup_insert_eq.
Qed.

(** X20: two views for the same serial and digest share a cache key only
    when they have the same encoding and the same [ca_crl]: a CRL for
    child authorities is never served as the CRL of leaf certificates, nor
    a PEM one as DER. *)
Theorem cache_key_separates self1 self2 serial_ :
  crl_view.cache_key self1 serial_ = crl_view.cache_key self2 serial_ ->
  crl_view.digest self1 = crl_view.digest self2 ->
  crl_view.type self1 = crl_view.type self2 /\ crl_view.ca_crl self1 = crl_view.ca_crl self2.
Proof.
  rewrite !cache_key_eq. intros Hk Hd. rewrite Hd in Hk.
  apply (append_inj_l "crl_"), append_inj_l, (append_inj_l "_") in Hk.
  destruct (crl_view.type self1), (crl_view.type self2);
    try (by vm_compute in Hk); (split; [reflexivity|]);
    apply append_inj_l, (append_inj_l "_"), append_inj_l in Hk;
    by destruct (crl_view.ca_crl self1), (crl_view.ca_crl self2).
Qed.

Lemma crl_view_answers_from_cache_witness :
  exists cache',
    crl_view.get (H := examples.crl_library) (examples.crl_view_of crl_view.DER false)
      (fixtures.env_with [] ∅) ∅ "A1"
    = (crl_view.HttpResponse "crl of A1" "application/pkix-crl", cache')
    /\ crl_view.get (H := examples.broken_crl_library)
         (examples.crl_view_of crl_view.DER false)
         {| certificate_authorities := []; certificates := []; files := ∅; utcnow := 200 |}
         cache' "A1"
       = (crl_view.HttpResponse "crl of A1" "application/pkix-crl", cache').
Proof.
  assert (Ho : (crl_view.get (H := examples.crl_library)
                  (examples.crl_view_of crl_view.DER false) (fixtures.env_with [] ∅) ∅ "A1").1
               = crl_view.HttpResponse "crl of A1" "application/pkix-crl")
    by (vm_compute; reflexivity).
  destruct (crl_view.get (H := examples.crl_library)
              (examples.crl_view_of crl_view.DER false) (fixtures.env_with [] ∅) ∅ "A1")
    as [o cache'] eqn:E.
  simpl in Ho. subst o. exists cache'. split; [reflexivity|].
  apply (crl_view_answers_from_cache examples.crl_library examples.broken_crl_library _ _ _ _
           _ _ _ E); [discriminate|intros e; discriminate].
Defined.

Lemma crl_view_writes_own_slot_witness :
  exists cache',
    crl_view.get (H := examples.crl_library) (examples.crl_view_of crl_view.DER false)
      (fixtures.env_with [] ∅) ∅ "ZZ"
    = (crl_view.Http404, cache')
    /\ cache' = ∅.
Proof.
  assert (Ho : (crl_view.get (H := examples.crl_library)
                  (examples.crl_view_of crl_view.DER false) (fixtures.env_with [] ∅) ∅ "ZZ").1
               = crl_view.Http404)
    by (vm_compute; reflexivity).
  destruct (crl_view.get (H := examples.crl_library)
              (examples.crl_view_of crl_view.DER false) (fixtures.env_with [] ∅) ∅ "ZZ")
    as [o cache'] eqn:E.
  simpl in Ho. subst o. exists cache'. split; [reflexivity|].
  destruct (crl_view_writes_own_slot examples.crl_library _ _ _ _ _ _ E) as (_ & _ & Hsame & _).
  apply Hsame. by left.
Defined.

Lemma crl_view_content_type_witness :
  exists cache',
    crl_view.get (H := examples.crl_library) (examples.crl_view_of crl_view.OpenSSH false)
      (fixtures.env_with [] ∅) ∅ "A1"
    = (crl_view.HttpResponseServerError, cache')
    /\ is_Some (cache' !! crl_view.cache_key (examples.crl_view_of crl_view.OpenSSH false) "A1").
Proof.
  assert (Ho : (crl_view.get (H := examples.crl_library)
                  (examples.crl_view_of crl_view.OpenSSH false) (fixtures.env_with [] ∅) ∅
                  "A1").1
               = crl_view.HttpResponseServerError)
    by (vm_compute; reflexivity).
  destruct (crl_view.get (H := examples.crl_library)
              (examples.crl_view_of crl_view.OpenSSH false) (fixtures.env_with [] ∅) ∅ "A1")
    as [o cache'] eqn:E.
  simpl in Ho. subst o. exists cache'. split; [reflexivity|].
  exact (proj2 (proj2 (proj2 (crl_view_content_type examples.crl_library _ _ _ _ _ _ E)))).
Defined.

Lemma cache_key_separates_witness :
  crl_view.cache_key (examples.crl_view_of crl_view.DER true) "A1"
  <> crl_view.cache_key (examples.crl_view_of crl_view.DER false) "A1".
Proof.
  intros Hk.
  destruct (cache_key_separates (examples.crl_view_of crl_view.DER true)
              (examples.crl_view_of crl_view.DER false) "A1" Hk eq_refl) as [_ Hca].
  discriminate Hca.
Defined.

(** *** The ACME error responses *)

(** X21: an ACME error response of any class with any message is a
    problem document whose [status] member is the HTTP status of the
    response, a 4xx or 5xx code, and whose [type] member is an ACME error
    URN taken from the class or the nearest base class that sets one (the
    unsupported-media-type error is a [malformed] error with status 415);
    its [detail] member is the message of the caller when there is one,
    and is missing only for the two classes without a message of their
    own when the caller gives none. *)
Theorem acme_error_response c message :
  exists r t,
    acme.AcmeResponseError_init c message = Some r
    /\ acme.getattr acme.own_type c = Some t
    /\ acme.content_type r = "application/problem+json"
    /\ (400 <= acme.status_code r < 600)%Z
    /\ acme.member "status" (acme.content r) = Some (acme.JsonNumber (acme.status_code r))
    /\ acme.member "type" (acme.content r)
       = Some (acme.JsonString ("urn:ietf:params:acme:error:" +:+ t))
    /\ (c = acme.AcmeResponseUnsupportedMediaType ->
        t = "malformed" /\ acme.status_code r = 415%Z)
    /\ (message <> "" ->
        acme.member "detail" (acme.content r) = Some (acme.JsonString message))
    /\ (acme.member "detail" (acme.content r) = None <->
        message = ""
        /\ (c = acme.AcmeResponseError \/ c = acme.AcmeResponseMalformed)).
Proof.
  destruct c, message as [|a m];
    (eexists _, _; split; [reflexivity|]; split; [reflexivity|]; cbn;
     repeat split; try lia; try done; try discriminate; try (intros [= ]);
     try (intros [_ [?|?]]; discriminate); try (intros [? _]; discriminate); auto).
Qed.
